(** * claude-mm-tool: response cache, pricing store and cost estimator

  A shallow embedding of [src/claude_mm/cache.py], [pricing.py],
  [models.py], [costs.py] and the older [cost_tracker.py], with the
  properties the specification states about them, and of [retry.py],
  [config.py], [api.py] and the cost and model information of the
  providers, with further properties of the code.

  Conventions of the embedding
  - a Python [str] is a Rocq [string] holding its UTF-8 bytes, so that
    [str.encode()] is the identity and an f-string is concatenation;
  - a Python [int] is a [Z]; the cost estimators are given twice: with a
    Python [float] idealised as an exact rational [Q] (modules [Costs],
    [CostTracker] and [Providers]: rounding, infinities and NaN are
    outside this model, which serves for signs, orders and the algebra of
    the formula), and in binary64, on the primitive floats of Rocq
    (module [Float64]), where the value returned is at stake;
  - a naive [datetime] is a [Z], the number of microseconds on the local
    clock; a [timedelta] is a [Z] number of microseconds, with the range
    check of its constructor written out;
  - a [dict] is a [gmap]; the cache directory is a [gmap] from file names
    to file contents, and every function that touches it takes the
    directory and returns the new one;
  - [raise] is the [Raise] constructor of [result]. *)

From Stdlib Require Import ZArith QArith Qround Lqa List Ascii String Lia.
From Stdlib Require Floats.
From stdpp Require Import base option strings gmap fin_maps.

Local Open Scope string_scope.
Local Open Scope Z_scope.

(** ** hashlib.sha256 (FIPS 180-4) on byte strings *)

Module SHA256.

Definition mask32 : Z := 0xFFFFFFFF.

Definition add32 (x y : Z) : Z := Z.land (x + y) mask32.

Definition rotr (n x : Z) : Z :=
  Z.lor (Z.shiftr x n) (Z.land (Z.shiftl x (32 - n)) mask32).

Definition not32 (x : Z) : Z := Z.lxor x mask32.

Definition ch (x y z : Z) : Z :=
  Z.lxor (Z.land x y) (Z.land (not32 x) z).

Definition maj (x y z : Z) : Z :=
  Z.lxor (Z.lxor (Z.land x y) (Z.land x z)) (Z.land y z).

Definition big_sigma0 (x : Z) : Z :=
  Z.lxor (Z.lxor (rotr 2 x) (rotr 13 x)) (rotr 22 x).

Definition big_sigma1 (x : Z) : Z :=
  Z.lxor (Z.lxor (rotr 6 x) (rotr 11 x)) (rotr 25 x).

Definition small_sigma0 (x : Z) : Z :=
  Z.lxor (Z.lxor (rotr 7 x) (rotr 18 x)) (Z.shiftr x 3).

Definition small_sigma1 (x : Z) : Z :=
  Z.lxor (Z.lxor (rotr 17 x) (rotr 19 x)) (Z.shiftr x 10).

(** The constants are defined as FIPS 180-4 defines them: the first 32
    bits of the fractional parts of the cube roots (round constants) and
    of the square roots (initial hash value) of the first primes. *)
Definition is_prime (p : Z) : bool :=
  forallb (fun d => negb (p mod Z.of_nat d =? 0)) (seq 2 (Z.to_nat p - 2)).

Definition primes : list Z :=
  filter is_prime (map Z.of_nat (seq 2 310)).

(** The largest [r] below [2 ^ bits] with [r ^ k <= n], bit by bit. *)
Fixpoint floor_root (k n : Z) (bits : nat) (r : Z) : Z :=
  match bits with
  | O => r
  | S bits' =>
      let r' := r + 2 ^ Z.of_nat bits' in
      floor_root k n bits' (if r' ^ k <=? n then r' else r)
  end.

Definition fractional_bits (k p : Z) : Z :=
  Z.land (floor_root k (p * 2 ^ (32 * k)) 40 0) mask32.

Definition round_constants : list Z :=
  Eval vm_compute in map (fractional_bits 3) primes.

(** The eight working variables a..h, also the running hash value. *)
Record state := State {
  va : Z; vb : Z; vc : Z; vd : Z; ve : Z; vf : Z; vg : Z; vh : Z }.

Definition state_of_words (ws : list Z) : state :=
  match ws with
  | [a; b; c; d; e; f; g; h] => State a b c d e f g h
  | _ => State 0 0 0 0 0 0 0 0
  end.

Definition initial_hash : state :=
  Eval vm_compute in state_of_words (map (fractional_bits 2) (firstn 8 primes)).

(** Padding: the byte 0x80, zero bytes up to 56 modulo 64, then the
    bit length as a 64-bit big-endian number. *)
Definition be_bytes (width : nat) (x : Z) : list Z :=
  map (fun i => Z.land (Z.shiftr x (8 * Z.of_nat i)) 0xFF) (rev (seq 0 width)).

Definition pad (msg : list Z) : list Z :=
  let len := Z.of_nat (length msg) in
  msg ++ [0x80] ++ repeat 0 (Z.to_nat ((55 - len) mod 64)) ++ be_bytes 8 (8 * len).

Fixpoint be_words (bytes : list Z) : list Z :=
  match bytes with
  | b0 :: b1 :: b2 :: b3 :: rest =>
      Z.lor (Z.shiftl b0 24) (Z.lor (Z.shiftl b1 16) (Z.lor (Z.shiftl b2 8) b3))
      :: be_words rest
  | _ => []
  end.

Fixpoint blocks (fuel : nat) (words : list Z) : list (list Z) :=
  match fuel, words with
  | O, _ | _, [] => []
  | S fuel', _ => firstn 16 words :: blocks fuel' (skipn 16 words)
  end.

(** Message schedule: W_t for 16 <= t < 64 appended one at a time. *)
Fixpoint schedule (steps : nat) (w : list Z) : list Z :=
  match steps with
  | O => w
  | S steps' =>
      let t := length w in
      let wt := add32 (add32 (add32 (small_sigma1 (nth (t - 2) w 0))
                                    (nth (t - 7) w 0))
                             (small_sigma0 (nth (t - 15) w 0)))
                      (nth (t - 16) w 0) in
      schedule steps' (w ++ [wt])
  end.

Definition round (s : state) (kw : Z * Z) : state :=
  let '(k, w) := kw in
  let t1 := add32 (add32 (add32 (add32 (vh s) (big_sigma1 (ve s)))
                                (ch (ve s) (vf s) (vg s))) k) w in
  let t2 := add32 (big_sigma0 (va s)) (maj (va s) (vb s) (vc s)) in
  State (add32 t1 t2) (va s) (vb s) (vc s) (add32 (vd s) t1) (ve s) (vf s) (vg s).

Definition compress (h : state) (block : list Z) : state :=
  let s := fold_left round (combine round_constants (schedule 48 block)) h in
  State (add32 (va h) (va s)) (add32 (vb h) (vb s))
        (add32 (vc h) (vc s)) (add32 (vd h) (vd s))
        (add32 (ve h) (ve s)) (add32 (vf h) (vf s))
        (add32 (vg h) (vg s)) (add32 (vh h) (vh s)).

Definition digest_words (msg : list Z) : list Z :=
  let words := be_words (pad msg) in
  let s := fold_left compress (blocks (length words) words) initial_hash in
  [va s; vb s; vc s; vd s; ve s; vf s; vg s; vh s].

Definition hex_digit (n : Z) : ascii :=
  match String.get (Z.to_nat n) "0123456789abcdef" with
  | Some c => c
  | None => "0"%char
  end.

Definition hex_word (x : Z) : string :=
  string_of_list_ascii
    (map (fun i => hex_digit (Z.land (Z.shiftr x (4 * Z.of_nat i)) 0xF))
         (rev (seq 0 8))).

Definition bytes_of_string (s : string) : list Z :=
  map (fun c => Z.of_N (N_of_ascii c)) (list_ascii_of_string s).

(** [hashlib.sha256(data).hexdigest()] *)
Definition hexdigest (data : string) : string :=
  String.concat "" (map hex_word (digest_words (bytes_of_string data))).

(** A collision: two different messages with one digest. *)
Definition collision (a b : string) : Prop :=
  a <> b /\ hexdigest a = hexdigest b.

End SHA256.

(** ** cache.py *)

Module Cache.

(** A naive [datetime]: microseconds on the local clock. *)
Definition datetime : Type := Z.

(** [timedelta(hours=h)] in microseconds. The constructor normalises to
    days, seconds and microseconds and raises [OverflowError] when the
    number of days, [h // 24], exceeds 999999999 in magnitude. *)
Definition timedelta_hours (h : Z) : option Z :=
  if bool_decide (Z.abs (h `div` 24) <= 999999999)
  then Some (h * 3600 * 1000000)
  else None.

(** What [json.load] finds in a cache file. [json.dump] then [json.load]
    is the identity on a dict of strings, and [isoformat] then
    [fromisoformat] is the identity on a naive datetime, so a field is
    kept as the value it decodes to; a field is [None] when the key is
    missing or, for the timestamp, when it is not an ISO-8601 string. *)
Record cache_data := CacheData {
  timestamp : option datetime;
  model : option string;
  response : option string }.

Inductive file :=
  | NotJson                      (* [json.load] raises *)
  | Json (cache_data : cache_data).

(** The cache directory: file name to file. *)
Abbreviation cache_dir := (gmap string file).

(** [system_prompt or ''] *)
Definition or_empty (system_prompt : option string) : string :=
  match system_prompt with
  | Some s => s
  | None => ""
  end.

(** [f"{model}:{system_prompt or ''}:{prompt}"] *)
Definition key_content (model prompt : string) (system_prompt : option string) : string :=
  model ++ ":" ++ or_empty system_prompt ++ ":" ++ prompt.

Definition get_cache_key (model prompt : string) (system_prompt : option string) : string :=
  SHA256.hexdigest (key_content model prompt system_prompt).

(** [cache_dir / f"{cache_key}.json"] *)
Definition cache_file_name (model prompt : string) (system_prompt : option string) : string :=
  get_cache_key model prompt system_prompt ++ ".json".

(** [cache_file.unlink()]: [None] when the operating system refuses. *)
Definition unlink (unlink_fails : bool) (name : string) (dir : cache_dir) : option cache_dir :=
  if unlink_fails then None else Some (delete name dir).

(** The body of the [try] of [get_cached_response]: [None] when any
    statement raises. *)
Definition read_entry (cache_file : string) (f : file) (ttl_hours : Z)
    (now : datetime) (unlink_fails : bool) (dir : cache_dir)
    : option (option string * cache_dir) :=
  cache_data ← (match f with Json d => Some d | NotJson => None end);
  cached_at ← timestamp cache_data;
  ttl ← timedelta_hours ttl_hours;
  if now - cached_at >? ttl then
    dir' ← unlink unlink_fails cache_file dir;
    Some (None, dir')
  else
    r ← response cache_data;
    Some (Some r, dir).

(** [get_cached_response]: the cached text or [None], and the directory
    afterwards. [now] is the reading of [datetime.now()]. *)
Definition get_cached_response (model prompt : string) (system_prompt : option string)
    (ttl_hours : Z) (now : datetime) (unlink_fails : bool) (dir : cache_dir)
    : option string * cache_dir :=
  let cache_file := cache_file_name model prompt system_prompt in
  match dir !! cache_file with
  | None => (None, dir)
  | Some f =>
      match read_entry cache_file f ttl_hours now unlink_fails dir with
      | Some r => r
      | None => (None, dir)            (* except Exception: return None *)
      end
  end.

(** Where the write of [cache_response] can raise. *)
Inductive store_fault :=
  | NoFault
  | CreateFails        (* [NamedTemporaryFile] raises: no file made *)
  | DumpFails          (* [json.dump] raises: [tmp_path] is not yet bound *)
  | ReplaceFails (unlink_fails : bool).
                       (* [os.replace] raises: the temp file is unlinked,
                          unless that raises too *)

(** [cache_response]. [tmp_path] is the name [tempfile] picked. *)
Definition cache_response (model prompt response : string) (system_prompt : option string)
    (now : datetime) (tmp_path : string) (fault : store_fault) (dir : cache_dir)
    : cache_dir :=
  let cache_file := cache_file_name model prompt system_prompt in
  let cache_data := Json (CacheData (Some now) (Some model) (Some response)) in
  match fault with
  | CreateFails => dir
  | DumpFails => <[tmp_path := NotJson]> dir
  | ReplaceFails unlink_fails =>
      let dir' := <[tmp_path := cache_data]> dir in
      if unlink_fails then dir' else delete tmp_path dir'
  | NoFault =>
      (* os.replace(tmp_path, cache_file) *)
      <[cache_file := cache_data]> (delete tmp_path (<[tmp_path := cache_data]> dir))
  end.

(** The file of a request holds what [cache_response] wrote for it at
    [stored_at]. *)
Definition holds_entry (dir : cache_dir) (model prompt : string)
    (system_prompt : option string) (stored_at : datetime) (response : string) : Prop :=
  dir !! cache_file_name model prompt system_prompt
  = Some (Json (CacheData (Some stored_at) (Some model) (Some response))).

End Cache.

(** ** Exceptions *)

Inductive exn :=
  | ValueError (msg : string)
  | KeyError (key : string)
  | OverflowError (msg : string).

Inductive result (A : Type) :=
  | Ok (value : A)
  | Raise (e : exn).

Arguments Ok {A} value.
Arguments Raise {A} e.

(** ** models.py *)

Module Models.

Definition OPENAI_MODELS : gmap string string :=
  list_to_map
    [ ("gpt-5.2-chat-latest", "gpt-5.2-chat-latest");
      ("gpt-5.2", "gpt-5.2");
      ("gpt-5.2-pro", "gpt-5.2-pro");
      ("gpt-4o", "gpt-4o");
      ("gpt-4", "gpt-4") ].

Definition OPENAI_ALIASES : gmap string string :=
  list_to_map
    [ ("gpt", "gpt-5.2");
      ("gpt-5", "gpt-5.2");
      ("gpt-instant", "gpt-5.2-chat-latest");
      ("gpt-5.2-instant", "gpt-5.2-chat-latest") ].

Definition GEMINI_MODELS : gmap string string :=
  list_to_map
    [ ("gemini-3-flash-preview", "gemini-3-flash-preview");
      ("gemini-2.0-flash-exp", "gemini-2.0-flash-exp");
      ("gemini-pro", "gemini-pro") ].

Definition GEMINI_ALIASES : gmap string string :=
  list_to_map [ ("gemini", "gemini-3-flash-preview") ].

Definition CLAUDE_MODELS : gmap string string :=
  list_to_map
    [ ("claude-sonnet-4-5-20250929", "claude-sonnet-4-5-20250929");
      ("claude-3-5-sonnet-20241022", "claude-3-5-sonnet-20241022");
      ("claude-3-opus-20240229", "claude-3-opus-20240229");
      ("claude-3-haiku-20240307", "claude-3-haiku-20240307") ].

Definition CLAUDE_ALIASES : gmap string string :=
  list_to_map [ ("claude", "claude-sonnet-4-5-20250929") ].

(** [d[key]]: the value, or [KeyError]. *)
Definition subscript (d : gmap string string) (key : string) : result string :=
  match d !! key with
  | Some v => Ok v
  | None => Raise (KeyError key)
  end.

(** [return provider, d[key]] *)
Definition with_provider (provider : string) (r : result string) : result (string * string) :=
  match r with
  | Ok api_model => Ok (provider, api_model)
  | Raise e => Raise e
  end.

(** [table[aliases[model]]] for a [model] known to be in [aliases]. *)
Definition via_alias (aliases table : gmap string string) (model : string) : result string :=
  match subscript aliases model with
  | Ok target => subscript table target
  | Raise e => Raise e
  end.

Definition normalize_model_name (model : string) : result (string * string) :=
  if bool_decide (is_Some (OPENAI_MODELS !! model)) then
    with_provider "openai" (subscript OPENAI_MODELS model)
  else if bool_decide (is_Some (OPENAI_ALIASES !! model)) then
    with_provider "openai" (via_alias OPENAI_ALIASES OPENAI_MODELS model)
  else if bool_decide (is_Some (GEMINI_MODELS !! model)) then
    with_provider "google" (subscript GEMINI_MODELS model)
  else if bool_decide (is_Some (GEMINI_ALIASES !! model)) then
    with_provider "google" (via_alias GEMINI_ALIASES GEMINI_MODELS model)
  else if bool_decide (is_Some (CLAUDE_MODELS !! model)) then
    with_provider "anthropic" (subscript CLAUDE_MODELS model)
  else if bool_decide (is_Some (CLAUDE_ALIASES !! model)) then
    with_provider "anthropic" (via_alias CLAUDE_ALIASES CLAUDE_MODELS model)
  else
    Raise (ValueError ("Unknown model: " ++ model)).

Definition get_provider_for_model (model : string) : option string :=
  if bool_decide (is_Some (OPENAI_MODELS !! model))
     || bool_decide (is_Some (OPENAI_ALIASES !! model)) then Some "openai"
  else if bool_decide (is_Some (GEMINI_MODELS !! model))
          || bool_decide (is_Some (GEMINI_ALIASES !! model)) then Some "google"
  else if bool_decide (is_Some (CLAUDE_MODELS !! model))
          || bool_decide (is_Some (CLAUDE_ALIASES !! model)) then Some "anthropic"
  else None.

(** The [display_names] dict of [get_model_display_name]. *)
Definition display_names : gmap string string :=
  list_to_map
    [ ("gpt-5.2-chat-latest", "GPT-5.2 Instant");
      ("gpt-5.2", "GPT-5.2 Thinking");
      ("gpt-5.2-pro", "GPT-5.2 Pro");
      ("gpt-4o", "GPT-4o");
      ("gpt-4", "GPT-4");
      ("gemini-3-flash-preview", "Gemini 3 Flash");
      ("gemini-2.0-flash-exp", "Gemini 2.0 Flash (Experimental)");
      ("gemini-pro", "Gemini Pro");
      ("claude-sonnet-4-5-20250929", "Claude Sonnet 4.5");
      ("claude-3-5-sonnet-20241022", "Claude 3.5 Sonnet");
      ("claude-3-opus-20240229", "Claude 3 Opus");
      ("claude-3-haiku-20240307", "Claude 3 Haiku") ].

Definition get_model_display_name (api_model : string) : string :=
  default api_model (display_names !! api_model).

(** A dict of model characteristics. *)
Record characteristics := Characteristics {
  speed : string;
  cost_tier : string;
  context_window : Z;
  description : string }.

(** The [chars] dict of [get_model_characteristics]. *)
Definition chars : gmap string characteristics :=
  list_to_map
    [ ("gpt-5.2-chat-latest",
       Characteristics "fast" "low" 128000 "Fast workhorse for everyday tasks");
      ("gpt-5.2",
       Characteristics "medium" "medium" 128000 "Thinking model for complex reasoning");
      ("gpt-5.2-pro",
       Characteristics "slow" "high" 128000 "Premium model with highest quality");
      ("gpt-4o",
       Characteristics "medium" "medium" 128000 "Previous generation GPT model");
      ("gpt-4", Characteristics "slow" "high" 8192 "Legacy GPT-4 model");
      ("gemini-3-flash-preview",
       Characteristics "fast" "low" 1000000 "Fast, cheap Gemini model");
      ("gemini-2.0-flash-exp",
       Characteristics "fast" "low" 1000000 "Experimental Gemini 2.0");
      ("gemini-pro", Characteristics "medium" "low" 1000000 "Standard Gemini model");
      ("claude-sonnet-4-5-20250929",
       Characteristics "fast" "medium" 200000 "Latest Claude Sonnet");
      ("claude-3-5-sonnet-20241022",
       Characteristics "fast" "medium" 200000 "Previous Claude Sonnet");
      ("claude-3-opus-20240229",
       Characteristics "slow" "high" 200000 "Most capable Claude model");
      ("claude-3-haiku-20240307",
       Characteristics "fast" "low" 200000 "Fast, cheap Claude model") ].

Definition unknown_characteristics : characteristics :=
  Characteristics "unknown" "unknown" 8192 "Unknown model".

Definition get_model_characteristics (api_model : string) : characteristics :=
  default unknown_characteristics (chars !! api_model).

(** [list_all_models]: provider to the keys of its registry, in the order
    the dict literals list them. *)
Definition list_all_models : list (string * list string) :=
  [ ("openai", ["gpt-5.2-chat-latest"; "gpt-5.2"; "gpt-5.2-pro"; "gpt-4o"; "gpt-4"]);
    ("google", ["gemini-3-flash-preview"; "gemini-2.0-flash-exp"; "gemini-pro"]);
    ("anthropic", ["claude-sonnet-4-5-20250929"; "claude-3-5-sonnet-20241022";
                   "claude-3-opus-20240229"; "claude-3-haiku-20240307"]) ].

(** [list_all_aliases]: the three alias dicts merged by [update], a later
    dict winning on a shared key. *)
Definition list_all_aliases : gmap string string :=
  CLAUDE_ALIASES ∪ (GEMINI_ALIASES ∪ (OPENAI_ALIASES ∪ ∅)).

(** The six dict tests of [normalize_model_name] in their order, with
    the value each finds. *)
Definition registry_lookup (model : string) : result (string * string) :=
  match OPENAI_MODELS !! model, OPENAI_ALIASES !! model,
        GEMINI_MODELS !! model, GEMINI_ALIASES !! model,
        CLAUDE_MODELS !! model, CLAUDE_ALIASES !! model with
  | Some v, _, _, _, _, _ => Ok ("openai", v)
  | None, Some t, _, _, _, _ => Ok ("openai", t)
  | None, None, Some v, _, _, _ => Ok ("google", v)
  | None, None, None, Some t, _, _ => Ok ("google", t)
  | None, None, None, None, Some v, _ => Ok ("anthropic", v)
  | None, None, None, None, None, Some t => Ok ("anthropic", t)
  | None, None, None, None, None, None => Raise (ValueError ("Unknown model: " ++ model))
  end.

(** What [normalize_model_name] can return: a name, its provider and its
    API name, first the registry entries, then the aliases. *)
Definition normalizations : list (string * (string * string)) :=
  [ ("gpt-5.2-chat-latest", ("openai", "gpt-5.2-chat-latest"));
    ("gpt-5.2", ("openai", "gpt-5.2"));
    ("gpt-5.2-pro", ("openai", "gpt-5.2-pro"));
    ("gpt-4o", ("openai", "gpt-4o"));
    ("gpt-4", ("openai", "gpt-4"));
    ("gemini-3-flash-preview", ("google", "gemini-3-flash-preview"));
    ("gemini-2.0-flash-exp", ("google", "gemini-2.0-flash-exp"));
    ("gemini-pro", ("google", "gemini-pro"));
    ("claude-sonnet-4-5-20250929", ("anthropic", "claude-sonnet-4-5-20250929"));
    ("claude-3-5-sonnet-20241022", ("anthropic", "claude-3-5-sonnet-20241022"));
    ("claude-3-opus-20240229", ("anthropic", "claude-3-opus-20240229"));
    ("claude-3-haiku-20240307", ("anthropic", "claude-3-haiku-20240307"));
    ("gpt", ("openai", "gpt-5.2"));
    ("gpt-5", ("openai", "gpt-5.2"));
    ("gpt-instant", ("openai", "gpt-5.2-chat-latest"));
    ("gpt-5.2-instant", ("openai", "gpt-5.2-chat-latest"));
    ("gemini", ("google", "gemini-3-flash-preview"));
    ("claude", ("anthropic", "claude-sonnet-4-5-20250929")) ].

End Models.

(** ** pricing.py *)

Module Pricing.

(** The pricing document: provider, then model, then the price dict
    [{"input": .., "output": ..}] in USD per million tokens. The
    [_metadata] block holds no prices and is kept as a flag that says
    whether the key is there. *)
Record pricing_doc := PricingDoc {
  providers : gmap string (gmap string (gmap string Q));
  has_metadata : bool }.

Definition price (input output : Q) : gmap string Q :=
  list_to_map [ ("input", input); ("output", output) ].

Definition DEFAULT_PRICING : pricing_doc :=
  PricingDoc
    (list_to_map
      [ ("openai", list_to_map
          [ ("gpt-5.2-chat-latest", price 0.40 1.60);
            ("gpt-5.2", price 1.75 14.00);
            ("gpt-5.2-pro", price 21.00 84.00);
            ("gpt-4o", price 2.50 10.00);
            ("gpt-4", price 30.00 60.00) ]);
        ("google", list_to_map
          [ ("gemini-3-flash-preview", price 0.075 0.30);
            ("gemini-2.0-flash-exp", price 0.075 0.30);
            ("gemini-pro", price 0.50 1.50) ]);
        ("anthropic", list_to_map
          [ ("claude-sonnet-4-5-20250929", price 3.00 15.00);
            ("claude-3-5-sonnet-20241022", price 3.00 15.00);
            ("claude-3-opus-20240229", price 15.00 75.00);
            ("claude-3-haiku-20240307", price 0.25 1.25) ]) ])
    true.

(** The override file [pricing.yaml]. *)
Inductive pricing_file :=
  | Missing
  | Unreadable                       (* [yaml.safe_load] raises *)
  | Yaml (doc : pricing_doc).

(** [save_pricing]: a failed write is reported and leaves the file. *)
Definition save_pricing (save_fails : bool) (pricing : pricing_doc) (f : pricing_file)
    : pricing_file :=
  if save_fails then f else Yaml pricing.

(** [load_pricing]: the table, and the override file afterwards. *)
Definition load_pricing (save_fails : bool) (f : pricing_file) : pricing_doc * pricing_file :=
  match f with
  | Yaml pricing =>
      if has_metadata pricing then (pricing, f)
      else (DEFAULT_PRICING, save_pricing save_fails DEFAULT_PRICING f)
  | Missing | Unreadable =>
      (DEFAULT_PRICING, save_pricing save_fails DEFAULT_PRICING f)
  end.

(** [get_model_pricing], on the table [pricing] that [load_pricing()]
    returned. *)
Definition get_model_pricing (pricing : pricing_doc) (provider model : string)
    : option (gmap string Q) :=
  let provider_pricing := default ∅ (providers pricing !! provider) in
  match provider_pricing !! model with
  | Some entry => Some entry
  | None =>
      if bool_decide (provider = "openai") then provider_pricing !! "gpt-5.2"
      else if bool_decide (provider = "google") then provider_pricing !! "gemini-3-flash-preview"
      else if bool_decide (provider = "anthropic") then
        provider_pricing !! "claude-sonnet-4-5-20250929"
      else None
  end.

(** The model whose price stands in on a miss, as the chain of [if]s of
    [get_model_pricing] names it; [None] for a provider it does not
    know. *)
Definition default_model (provider : string) : option string :=
  if bool_decide (provider = "openai") then Some "gpt-5.2"
  else if bool_decide (provider = "google") then Some "gemini-3-flash-preview"
  else if bool_decide (provider = "anthropic") then Some "claude-sonnet-4-5-20250929"
  else None.

(** The providers of the model registry. *)
Definition recognized (provider : string) : Prop :=
  provider = "openai" \/ provider = "google" \/ provider = "anthropic".

(** An override file that [update_pricing_from_url] accepts (the three
    providers are there) and [load_pricing] returns as it is (it has the
    metadata block), with no price for the default OpenAI model. *)
Definition override_without_default : pricing_doc :=
  PricingDoc
    (list_to_map
      [ ("openai", list_to_map [ ("gpt-4o", price 2.50 10.00) ]);
        ("google", list_to_map [ ("gemini-pro", price 0.50 1.50) ]);
        ("anthropic", list_to_map [ ("claude-3-haiku-20240307", price 0.25 1.25) ]) ])
    true.


End Pricing.

(** ** Python built-ins on [str] and numbers *)

Module Py.

(** [len(s)]: the number of code points, that is the bytes of the UTF-8
    text that are not continuation bytes (0x80 to 0xBF). *)
Fixpoint len (s : string) : Z :=
  match s with
  | EmptyString => 0
  | String c rest =>
      let b := Z.of_N (N_of_ascii c) in
      (if ((0x80 <=? b) && (b <=? 0xBF))%Z then 0 else 1) + len rest
  end.

(** [s.lower()] on the ASCII letters. *)
Definition lower_char (c : ascii) : ascii :=
  let b := N_of_ascii c in
  if ((65 <=? b) && (b <=? 90))%N then ascii_of_N (b + 32) else c.

Fixpoint lower (s : string) : string :=
  match s with
  | EmptyString => EmptyString
  | String c rest => String (lower_char c) (lower rest)
  end.

(** [needle in haystack] *)
Fixpoint contains (needle haystack : string) : bool :=
  String.prefix needle haystack ||
  match haystack with
  | EmptyString => false
  | String _ rest => contains needle rest
  end.

(** [d.get(key, default)] *)
Definition get (d : gmap string Q) (key : string) (dflt : Q) : Q :=
  default dflt (d !! key).

(** [int(x)] of a float: truncation toward zero. *)
Definition int (x : Q) : Z := Z.quot (Qnum x) (Z.pos (Qden x)).

(** [s.endswith(suffix)]: some tail of [s] is [suffix]. *)
Fixpoint endswith (suffix s : string) : bool :=
  String.eqb s suffix ||
  match s with
  | EmptyString => false
  | String _ rest => endswith suffix rest
  end.

(** [round(x, ndigits)] on the exact value: the nearest multiple of
    [10 ** -ndigits], a tie going to the even one. *)
Definition round (x : Q) (ndigits : Z) : Q :=
  let scale := inject_Z (10 ^ ndigits) in
  let scaled := (x * scale)%Q in
  let below := Qfloor scaled in
  let nearest :=
    match (scaled - inject_Z below ?= 1 # 2)%Q with
    | Lt => below
    | Gt => below + 1
    | Eq => if Z.even below then below else below + 1
    end in
  (inject_Z nearest / scale)%Q.

End Py.

(** ** cache.py, the maintenance functions *)

Module CacheMaintenance.

Import Cache.

(** The largest [datetime], 9999-12-31T23:59:59.999999, in microseconds
    from the smallest, 0001-01-01T00:00:00. *)
Definition datetime_max : Z := 3652059 * 86400 * 1000000 - 1.

(** [d - delta] of a datetime and a timedelta: [None] for the
    [OverflowError] of a result outside the range of [datetime]. *)
Definition datetime_sub (d : datetime) (delta : Z) : option datetime :=
  if bool_decide (0 <= d - delta <= datetime_max) then Some (d - delta) else None.

(** The names [cache_dir.glob("*.json")] yields. *)
Definition is_cache_file (name : string) : bool := Py.endswith ".json" name.

(** One turn of the loop of [clear_cache] on the file [name], for the
    files the glob yields; [unlink_fails name] says whether the operating
    system refuses to remove [name]. *)
Definition clear_file (cutoff : option datetime) (unlink_fails : string -> bool)
    (name : string) (f : file) (acc : Z * cache_dir) : Z * cache_dir :=
  let '(removed, dir) := acc in
  if is_cache_file name then
    let body : option (Z * cache_dir) :=
      keep ← match cutoff with
             | Some cutoff =>
                 cache_data ← (match f with Json d => Some d | NotJson => None end);
                 cached_at ← timestamp cache_data;
                 Some (cached_at >? cutoff)
             | None => Some false
             end;
      if (keep : bool) then Some (removed, dir)          (* continue *)
      else
        dir' ← unlink (unlink_fails name) name dir;
        Some (removed + 1, dir') in
    default (removed, dir) body                          (* except Exception: continue *)
  else (removed, dir).

(** [clear_cache]: the number of files removed and the directory
    afterwards; [None] when computing the cutoff raises [OverflowError],
    which nothing catches. *)
Definition clear_cache (older_than_hours : option Z) (now : datetime)
    (unlink_fails : string -> bool) (dir : cache_dir) : option (Z * cache_dir) :=
  cutoff ← match older_than_hours with
           | Some h =>
               delta ← timedelta_hours h;
               cutoff ← datetime_sub now delta;
               Some (Some cutoff)
           | None => Some None
           end;
  Some (map_fold (clear_file cutoff unlink_fails) (0, dir) dir).

(** Whether [clear_cache] removes the file [name] with content [f]. *)
Definition removable (cutoff : option datetime) (unlink_fails : string -> bool)
    (name : string) (f : file) : bool :=
  is_cache_file name && negb (unlink_fails name) &&
  match cutoff, f with
  | None, _ => true
  | Some cutoff, Json d =>
      match timestamp d with
      | Some cached_at => cached_at <=? cutoff
      | None => false
      end
  | Some _, NotJson => false
  end.

(** The dict [get_cache_stats] returns, the two dates as datetimes. *)
Record cache_stats := CacheStats {
  total_files : Z;
  total_size_mb : Q;
  oldest : option datetime;
  newest : option datetime }.

(** One turn of the loop of [get_cache_stats]; [st_size name] is the
    size [stat] reports, [None] when it raises. *)
Definition stat_file (st_size : string -> option Z) (name : string) (f : file)
    (acc : Z * Z * option datetime * option datetime)
    : Z * Z * option datetime * option datetime :=
  let '(total_files, total_size, oldest, newest) := acc in
  if is_cache_file name then
    let total_files := total_files + 1 in
    match st_size name with
    | None => (total_files, total_size, oldest, newest)
    | Some size =>
        let total_size := total_size + size in
        match (match f with Json d => timestamp d | NotJson => None end) with
        | None => (total_files, total_size, oldest, newest)
        | Some cached_at =>
            let oldest :=
              match oldest with
              | None => Some cached_at
              | Some o => if cached_at <? o then Some cached_at else Some o
              end in
            let newest :=
              match newest with
              | None => Some cached_at
              | Some n => if cached_at >? n then Some cached_at else Some n
              end in
            (total_files, total_size, oldest, newest)
        end
    end
  else acc.

Definition get_cache_stats (st_size : string -> option Z) (dir : cache_dir) : cache_stats :=
  let '(total_files, total_size, oldest, newest) :=
    map_fold (stat_file st_size) (0, 0, None, None) dir in
  CacheStats total_files (Py.round (inject_Z total_size / (1024 * 1024)) 2) oldest newest.

(** The timestamps [get_cache_stats] gets to read. *)
Definition dated (st_size : string -> option Z) (dir : cache_dir) (t : datetime) : Prop :=
  exists name d,
    dir !! name = Some (Json d) /\ is_cache_file name = true /\
    is_Some (st_size name) /\ timestamp d = Some t.

(** What the loop of [get_cache_stats] has counted and seen after the
    files of [m]. *)
Definition stats_invariant (st_size : string -> option Z)
    (acc : Z * Z * option datetime * option datetime) (m : cache_dir) : Prop :=
  let '(total_files, _, oldest, newest) := acc in
  total_files = Z.of_nat (size (filter (fun item => is_cache_file item.1 = true) m)) /\
  (oldest = None <-> forall t, ~ dated st_size m t) /\
  (newest = None <-> oldest = None) /\
  (forall o, oldest = Some o -> dated st_size m o /\ forall t, dated st_size m t -> o <= t) /\
  (forall n, newest = Some n -> dated st_size m n /\ forall t, dated st_size m t -> t <= n).

End CacheMaintenance.

(** ** costs.py *)

Module Costs.

Import Models Pricing.

Definition CACHE_DISCOUNTS : gmap string Q :=
  list_to_map [ ("openai", 0.90%Q); ("google", 0.75%Q); ("anthropic", 0.90%Q) ].

Definition CHARS_PER_TOKEN : Z := 4.

Definition estimate_tokens (text : string) : Z :=
  if bool_decide (text = "") then 0
  else Z.max 1 (Py.len text `div` CHARS_PER_TOKEN).

(** [max(0, min(cached_tokens, input_tokens))] *)
Definition clamp_cached (cached_tokens input_tokens : Z) : Z :=
  Z.max 0 (Z.min cached_tokens input_tokens).

Definition cache_discount (provider : string) : Q :=
  Py.get CACHE_DISCOUNTS provider 0.90.

(** The second half of [estimate_cost], from the clamp to the sum, in
    exact arithmetic; [Float64.total_cost] is the same in binary64. *)
Definition total_cost (provider : string) (pricing : gmap string Q)
    (input_tokens output_tokens cached_tokens : Z) : Q :=
  let cached_tokens := clamp_cached cached_tokens input_tokens in
  let uncached_tokens := input_tokens - cached_tokens in
  let input_cost := ((inject_Z uncached_tokens / 1000000) * Py.get pricing "input" 0)%Q in
  let cached_price := (Py.get pricing "input" 0 * (1 - cache_discount provider))%Q in
  let cached_cost := ((inject_Z cached_tokens / 1000000) * cached_price)%Q in
  let output_cost := ((inject_Z output_tokens / 1000000) * Py.get pricing "output" 0)%Q in
  (input_cost + cached_cost + output_cost)%Q.

(** The first half of [estimate_cost]: the provider and the price dict of
    the model, or the [ValueError] it raises. *)
Definition resolve_pricing (table : pricing_doc) (model : string)
    : result (string * gmap string Q) :=
  match normalize_model_name model with
  | Raise (ValueError msg) =>           (* except ValueError as e *)
      Raise (ValueError ("Unknown model '" ++ model ++ "': " ++ msg))
  | Raise e => Raise e
  | Ok (provider, api_model) =>
      match get_model_pricing table provider api_model with
      | None =>
          Raise (ValueError ("No pricing data available for " ++ provider ++ "/" ++ api_model))
      | Some pricing =>
          if bool_decide (size pricing = 0%nat) then     (* [not pricing]: an empty dict *)
            Raise (ValueError ("No pricing data available for " ++ provider ++ "/" ++ api_model))
          else Ok (provider, pricing)
      end
  end.

(** Whether pricing for [model] resolves, directly or by the fallback. *)
Definition resolvable (table : pricing_doc) (model : string) : bool :=
  match resolve_pricing table model with
  | Ok _ => true
  | Raise _ => false
  end.

(** Whether the input and output prices [estimate_cost] reads for
    [model] are not negative. *)
Definition prices_nonneg (table : pricing_doc) (model : string) : bool :=
  match resolve_pricing table model with
  | Ok (_, pricing) =>
      Qle_bool 0 (Py.get pricing "input" 0) && Qle_bool 0 (Py.get pricing "output" 0)
  | Raise _ => true
  end.

Definition estimate_cost (table : pricing_doc) (model : string)
    (input_tokens output_tokens cached_tokens : Z) : result Q :=
  match resolve_pricing table model with
  | Raise e => Raise e
  | Ok (provider, pricing) =>
      Ok (total_cost provider pricing input_tokens output_tokens cached_tokens)
  end.

(** The dict [estimate_cost_from_text] returns, without the display
    string [cost_formatted]. *)
Record cost_breakdown := CostBreakdown {
  model : string;
  input_tokens : Z;
  output_tokens : Z;
  cached_tokens : Z;
  estimated_cost : Q;
  is_estimated : bool }.

(** [estimate_cost_from_text] in exact arithmetic, for the bounds on what
    it returns; [Float64.estimate_cost_from_text] has the floats, the
    rounded product and the whole message of the validation error. *)
Definition estimate_cost_from_text (table : pricing_doc) (model input_text : string)
    (expected_output_tokens : Z) (cached_ratio : Q) : result cost_breakdown :=
  if negb (Qle_bool 0 cached_ratio && Qle_bool cached_ratio 1) then
    Raise (ValueError "cached_ratio must be between 0.0 and 1.0")  (* then [, got] and the ratio *)
  else
    let input_tokens := estimate_tokens input_text in
    let cached_tokens := Py.int (inject_Z input_tokens * cached_ratio)%Q in
    match estimate_cost table model input_tokens expected_output_tokens cached_tokens with
    | Raise e => Raise e
    | Ok cost =>
        let is_estimated := Py.contains "pro" (Py.lower model) in
        Ok (CostBreakdown model input_tokens expected_output_tokens cached_tokens
              cost is_estimated)
    end.

Definition should_warn_about_cost (model : string) (estimated_cost threshold : Q) : bool :=
  if bool_decide (model = "gpt-5.2-pro") then true
  else if negb (Qle_bool estimated_cost threshold) then true     (* estimated_cost > threshold *)
  else false.

(** The [is_estimated] entry of a returned breakdown. *)
Definition is_estimated_of (r : result cost_breakdown) : option bool :=
  match r with
  | Ok breakdown => Some (is_estimated breakdown)
  | Raise _ => None
  end.

End Costs.

(** ** cost_tracker.py, the older estimator with its own price table *)

Module CostTracker.

(** A price dict of [PRICING]: the numeric keys, and the [is_estimated]
    key when the dict has it. *)
Record pricing_entry := PricingEntry {
  prices : gmap string Q;
  is_estimated_key : option bool }.

Definition entry (input output cached : Q) (is_estimated : bool) : pricing_entry :=
  PricingEntry
    (list_to_map [ ("input", input); ("output", output); ("cached", cached) ])
    (Some is_estimated).

Definition _GPT_INSTANT_PRICING : pricing_entry := entry 0.40 1.60 0.04 false.
Definition _GPT_STANDARD_PRICING : pricing_entry := entry 1.75 14.00 0.175 false.
Definition _GPT_PRO_PRICING : pricing_entry := entry 8.75 70.00 0.875 true.
Definition _GEMINI_FLASH_PRICING : pricing_entry := entry 0.075 0.30 0.01875 false.
Definition _CLAUDE_SONNET_PRICING : pricing_entry := entry 3.00 15.00 0.30 true.

(** The items of [PRICING] in the order the dict literal lists them. *)
Definition PRICING_items : list (string * pricing_entry) :=
  [ ("gpt-5.2-instant", _GPT_INSTANT_PRICING);
    ("gpt-5.2-chat-latest", _GPT_STANDARD_PRICING);
    ("gpt-5.2", _GPT_STANDARD_PRICING);
    ("gpt-5", _GPT_STANDARD_PRICING);
    ("gpt", _GPT_STANDARD_PRICING);
    ("gpt-5.2-pro", _GPT_PRO_PRICING);
    ("gemini", _GEMINI_FLASH_PRICING);
    ("gemini-3-flash-preview", _GEMINI_FLASH_PRICING);
    ("claude", _CLAUDE_SONNET_PRICING);
    ("claude-sonnet-4-5-20250929", _CLAUDE_SONNET_PRICING) ].

Definition PRICING : gmap string pricing_entry := list_to_map PRICING_items.

Definition estimate_cost (model : string) (input_tokens output_tokens cached_tokens : Z)
    : result Q :=
  match PRICING !! model with
  | None =>
      Raise (ValueError ("Unknown model '" ++ model ++ "'. Available models: "
                         ++ String.concat ", " (map fst PRICING_items)))
  | Some pricing =>
      let cached_tokens := Z.max 0 (Z.min cached_tokens input_tokens) in
      let uncached_tokens := input_tokens - cached_tokens in
      let input_cost :=
        ((inject_Z uncached_tokens / 1000000) * Py.get (prices pricing) "input" 0)%Q in
      let cached_cost :=
        ((inject_Z cached_tokens / 1000000) * Py.get (prices pricing) "cached" 0)%Q in
      let output_cost :=
        ((inject_Z output_tokens / 1000000) * Py.get (prices pricing) "output" 0)%Q in
      Ok (input_cost + cached_cost + output_cost)%Q
  end.

Definition estimate_cost_from_text (model input_text : string)
    (expected_output_tokens : Z) (cached_ratio : Q) : result Costs.cost_breakdown :=
  if negb (Qle_bool 0 cached_ratio && Qle_bool cached_ratio 1) then
    Raise (ValueError "cached_ratio must be between 0.0 and 1.0")  (* then [, got] and the ratio *)
  else
    let input_tokens := Costs.estimate_tokens input_text in
    let cached_tokens := Py.int (inject_Z input_tokens * cached_ratio)%Q in
    match estimate_cost model input_tokens expected_output_tokens cached_tokens with
    | Raise e => Raise e
    | Ok cost =>
        (* PRICING.get(model, {}).get("is_estimated", True) *)
        let is_estimated :=
          match PRICING !! model with
          | Some pricing => default true (is_estimated_key pricing)
          | None => true
          end in
        Ok (Costs.CostBreakdown model input_tokens expected_output_tokens cached_tokens
              cost is_estimated)
    end.

(** *** The usage log [costs.jsonl] *)

(** A string-valued field of a log entry as [json.loads] gives it (a
    number, a truth value or [null] in its place would be a dict key of
    its own; the model keeps to the strings [log_api_call] writes). *)
Inductive field :=
  | Absent                       (* the key is missing *)
  | Text (s : string)
  | Unhashable.                  (* a list or an object: no dict key *)

(** A line of the log that parses to an object. A number or a date is
    [None] when the key is missing or the value is of another kind; the
    dates are naive datetimes, as [log_api_call] writes them. *)
Record log_entry := LogEntry {
  entry_timestamp : option Cache.datetime;
  entry_model : field;
  entry_operation : field;
  entry_input_tokens : option Z;
  entry_output_tokens : option Z;
  entry_cost : option Q }.

Inductive log_line :=
  | Corrupt                      (* [json.loads] raises, or gives no object *)
  | Entry (e : log_entry).

(** The log file: [None] when it does not exist. *)
Definition log_file : Type := option (list log_line).

(** [log_api_call]: the log afterwards. A write that raises is reported
    and is taken to leave the file as it was. *)
Definition log_api_call (model : string) (input_tokens output_tokens : Z) (cost : Q)
    (operation : string) (now : Cache.datetime) (write_fails : bool) (log : log_file)
    : log_file :=
  let entry :=
    LogEntry (Some now) (Text model) (Text operation)
      (Some input_tokens) (Some output_tokens) (Some (Py.round cost 6)) in
  if write_fails then log
  else Some (default [] log ++ [Entry entry])%list.

(** A [{"cost": .., "calls": ..}] dict. *)
Record tally := Tally {
  tally_cost : Q;
  tally_calls : Z }.

(** The dict [get_usage_stats] returns, and its four accumulators. *)
Record usage := Usage {
  total_cost : Q;
  total_calls : Z;
  by_model : gmap string tally;
  by_operation : gmap string tally }.

(** The three statements that count a call under [key]. *)
Definition count_call (cost : Q) (key : string) (m : gmap string tally) : gmap string tally :=
  let m := if bool_decide (is_Some (m !! key)) then m else <[key := Tally 0 0]> m in
  let t := default (Tally 0 0) (m !! key) in
  <[key := Tally (tally_cost t + cost) (tally_calls t + 1)]> m.

(** One turn of the loop of [get_usage_stats]: the accumulators after
    the line, and [false] when a statement raised, which ends the loop
    with what was accumulated up to that statement. *)
Definition read_line (cutoff_date : option Cache.datetime) (line : log_line) (u : usage)
    : usage * bool :=
  match line with
  | Corrupt => (u, false)
  | Entry entry =>
      match entry_timestamp entry with
      | None => (u, false)
      | Some timestamp =>
          if match cutoff_date with
             | Some cutoff_date => timestamp <? cutoff_date
             | None => false
             end
          then (u, true)                                   (* continue *)
          else
            match entry_cost entry, entry_model entry with
            | None, _ | _, Absent => (u, false)
            | Some cost, model =>
                let operation :=
                  match entry_operation entry with
                  | Absent => Text "unknown"
                  | operation => operation
                  end in
                let u := Usage (total_cost u + cost) (total_calls u + 1)
                           (by_model u) (by_operation u) in
                match model with
                | Text model =>
                    let u := Usage (total_cost u) (total_calls u)
                               (count_call cost model (by_model u)) (by_operation u) in
                    match operation with
                    | Text operation =>
                        (Usage (total_cost u) (total_calls u) (by_model u)
                           (count_call cost operation (by_operation u)), true)
                    | _ => (u, false)
                    end
                | _ => (u, false)
                end
            end
      end
  end.

Fixpoint read_lines (cutoff_date : option Cache.datetime) (lines : list log_line) (u : usage)
    : usage :=
  match lines with
  | [] => u
  | line :: lines =>
      let '(u, goes_on) := read_line cutoff_date line u in
      if goes_on then read_lines cutoff_date lines u else u
  end.

(** [timedelta(days=d)] in microseconds, [None] for its
    [OverflowError]. *)
Definition timedelta_days (d : Z) : option Z :=
  if bool_decide (Z.abs d <= 999999999) then Some (d * 86400 * 1000000) else None.

(** [get_usage_stats]: [None] when computing the cutoff raises
    [OverflowError], which nothing catches. *)
Definition get_usage_stats (days : option Z) (now : Cache.datetime) (log : log_file)
    : option usage :=
  match log with
  | None => Some (Usage 0 0 ∅ ∅)
  | Some lines =>
      cutoff_date ← match days with
                    | Some d =>
                        delta ← timedelta_days d;
                        cutoff_date ← CacheMaintenance.datetime_sub now delta;
                        Some (Some cutoff_date)
                    | None => Some None
                    end;
      let u := read_lines cutoff_date lines (Usage 0 0 ∅ ∅) in
      Some (Usage (Py.round (total_cost u) 4) (total_calls u) (by_model u) (by_operation u))
  end.



(** Whether a line is one that [log_api_call] writes: every field is
    there and of its kind. *)
Definition well_formed (line : log_line) : bool :=
  match line with
  | Entry (LogEntry (Some _) (Text _) (Text _) _ _ (Some _)) => true
  | _ => false
  end.

End CostTracker.

(** ** providers/base.py and the [get_model_info] of the three providers *)

Module Providers.

Import Pricing.

(** The three subclasses of [Provider]. *)
Inductive provider := OpenAIProvider | GoogleProvider | AnthropicProvider.

(** The name each class passes to [get_model_pricing]. *)
Definition provider_name (p : provider) : string :=
  match p with
  | OpenAIProvider => "openai"
  | GoogleProvider => "google"
  | AnthropicProvider => "anthropic"
  end.

(** The dict [get_model_info] returns. *)
Record model_info := ModelInfo {
  info_provider : string;
  info_model : string;
  info_pricing : option (gmap string Q);
  info_context_window : Z }.

Definition get_model_info (table : pricing_doc) (p : provider) (model : string) : model_info :=
  let pricing := get_model_pricing table (provider_name p) model in
  match p with
  | OpenAIProvider =>
      ModelInfo "openai" model pricing
        (if String.prefix "gpt-5" model then 128000 else 8192)
  | GoogleProvider => ModelInfo "google" model pricing 1000000
  | AnthropicProvider => ModelInfo "anthropic" model pricing 200000
  end.

(** [Provider.estimate_cost], with [Decimal] arithmetic as exact rational
    arithmetic. [model_info.get("pricing", {})] is [None] when the
    pricing store has no entry, and [None.get] raises [AttributeError]:
    that is the [None] here. *)
Definition estimate_cost (table : pricing_doc) (p : provider)
    (input_tokens output_tokens : Z) (model : string) : option Q :=
  let model_info := get_model_info table p model in
  pricing ← info_pricing model_info;
  let input_cost := (inject_Z input_tokens * Py.get pricing "input" 0 / 1000000)%Q in
  let output_cost := (inject_Z output_tokens * Py.get pricing "output" 0 / 1000000)%Q in
  Some (input_cost + output_cost)%Q.

End Providers.

(** ** retry.py *)

Module Retry.

(** [min(x, y)] *)
Definition min (x y : Q) : Q := if Qle_bool x y then x else y.

(** Whether [retry_with_backoff] raises an exception with the lowered
    message [error_msg] again at once. *)
Definition fatal (error_msg : string) : bool :=
  existsb (fun x => Py.contains x error_msg)
    ["api key"; "authentication"; "unauthorized"; "invalid"].

Section Wrapper.

(** The values [func] returns and the exceptions it raises (those that
    derive from [Exception], which the handler catches), with
    [error_msg e] for [str(e).lower()]; [sleep_returns delay] says
    whether [time.sleep(delay)] returns (it raises for a negative
    delay). *)
Context {A E : Type} (error_msg : E -> string) (sleep_returns : Q -> bool).

(** How a call of the wrapper ends. *)
Inductive outcome :=
  | Returns (a : A)            (* the value [func] returned *)
  | Raises (e : E)             (* an exception of [func], raised again *)
  | RaisesTypeError            (* [raise last_exception] with [None] *)
  | SleepRaises.               (* [time.sleep] raises inside the handler *)

(** A call of the wrapper: how it ends, how often it called [func], and
    the delays it slept, in order. *)
Record run := Run {
  result : outcome;
  calls : nat;
  sleeps : list Q }.

(** The [for] loop with [remaining] turns to go; [func k] is what the
    call number [k] of the wrapped function does, counted from 0. *)
Fixpoint attempts (max_attempts : Z) (max_delay backoff_factor : Q) (func : nat -> A + E)
    (remaining : nat) (attempt : Z) (delay : Q) (last_exception : option E)
    (called : nat) (slept : list Q) : run :=
  match remaining with
  | O =>
      match last_exception with
      | Some e => Run (Raises e) called slept
      | None => Run RaisesTypeError called slept
      end
  | S remaining =>
      match func called with
      | inl a => Run (Returns a) (S called) slept
      | inr e =>
          if fatal (error_msg e) then Run (Raises e) (S called) slept
          else if attempt <? max_attempts then
            if sleep_returns delay then
              attempts max_attempts max_delay backoff_factor func remaining (attempt + 1)
                (min (delay * backoff_factor) max_delay) (Some e) (S called)
                (slept ++ [delay])
            else Run SleepRaises (S called) slept
          else
            attempts max_attempts max_delay backoff_factor func remaining (attempt + 1)
              delay (Some e) (S called) slept
      end
  end.

(** The wrapper that [retry_with_backoff(...)(func)] makes. *)
Definition retry_with_backoff (max_attempts : Z) (initial_delay max_delay backoff_factor : Q)
    (func : nat -> A + E) : run :=
  attempts max_attempts max_delay backoff_factor func
    (Z.to_nat max_attempts) 1 initial_delay None 0%nat [].

(** The first [n] delays of the backoff from [delay] on. *)
Fixpoint backoff (max_delay backoff_factor : Q) (n : nat) (delay : Q) : list Q :=
  match n with
  | O => []
  | S n => delay :: backoff max_delay backoff_factor n (min (delay * backoff_factor) max_delay)
  end.

(** The call number [k] of [func] raises an exception that is retried. *)
Definition retried (func : nat -> A + E) (k : nat) : Prop :=
  exists e, func k = inr e /\ fatal (error_msg e) = false.

(** What holds of a run of the wrapper around [func]. *)
Definition run_ok (max_attempts : Z) (func : nat -> A + E) (r : run) : Prop :=
  (calls r <= Z.to_nat max_attempts)%nat /\
  length (sleeps r) = pred (calls r) /\
  Forall (fun d => sleep_returns d = true) (sleeps r) /\
  (forall k, (k < pred (calls r))%nat -> retried func k) /\
  match result r with
  | Returns a => (1 <= calls r)%nat /\ func (pred (calls r)) = inl a
  | Raises e =>
      (1 <= calls r)%nat /\ func (pred (calls r)) = inr e /\
      (fatal (error_msg e) = true \/
       fatal (error_msg e) = false /\ calls r = Z.to_nat max_attempts)
  | RaisesTypeError => max_attempts <= 0 /\ calls r = 0%nat
  | SleepRaises =>
      (1 <= calls r < Z.to_nat max_attempts)%nat /\ retried func (pred (calls r)) /\
      exists delay, sleep_returns delay = false
  end.

End Wrapper.

End Retry.

(** ** config.py *)

Module Config.

(** The configuration dict with the three keys of [DEFAULT_CONFIG]. *)
Record config := MkConfig {
  default_models : gmap string string;
  cost_warning_threshold : Q;
  cache_ttl_hours : Z }.

Definition DEFAULT_CONFIG : config :=
  MkConfig (list_to_map [ ("plan", "gpt-5.2"); ("review", "gpt-5.2-chat-latest") ])
    0.10 24.

(** The mapping a user's [config.yaml] holds: for each of the three keys
    its value when the file sets it. *)
Record user_config := UserConfig {
  user_default_models : option (gmap string string);
  user_cost_warning_threshold : option Q;
  user_cache_ttl_hours : option Z }.

Inductive config_file :=
  | NoFile
  | Broken                       (* reading or [update] raises *)
  | Mapping (user : user_config).

(** [load_config]: [DEFAULT_CONFIG.copy()] then [update(user_config)],
    which replaces a key's value as a whole. *)
Definition load_config (f : config_file) : config :=
  match f with
  | NoFile | Broken => DEFAULT_CONFIG
  | Mapping user =>
      MkConfig
        (default (default_models DEFAULT_CONFIG) (user_default_models user))
        (default (cost_warning_threshold DEFAULT_CONFIG) (user_cost_warning_threshold user))
        (default (cache_ttl_hours DEFAULT_CONFIG) (user_cache_ttl_hours user))
  end.

End Config.

(** ** api.py *)

Module Api.

Import Cache Models Config.

(** [ProviderResponse], without its metadata. *)
Record provider_response := ProviderResponse {
  text : string;
  model : string;
  input_tokens : Z;
  output_tokens : Z;
  cost : option Q;
  cached : bool }.

(** [ReviewResult(response, cached)]: the fields of the response, and
    the flag. *)
Record review_result := ReviewResult {
  response : provider_response;
  result_cached : bool }.

(** A call of [log_api_call] with its arguments. *)
Record logged_call := LoggedCall {
  logged_model : string;
  logged_input_tokens : Z;
  logged_output_tokens : Z;
  logged_cost : Q;
  logged_operation : string }.

(** What a review touches: the cache directory, the calls made to
    providers (provider name and API model, in order) and the calls of
    [log_api_call]. *)
Record world := World {
  cache : cache_dir;
  provider_calls : list (string * string);
  logged : list logged_call }.

(** What a call of [_review_single] finds: the two readings of the
    clock, what the file system does, and what
    [get_provider(provider_name).complete(prompt, model_id, system_prompt)]
    does, a response or the message of the exception it raises. *)
Record env := Env {
  lookup_at : datetime;
  store_at : datetime;
  unlink_fails : bool;
  tmp_path : string;
  fault : store_fault;
  complete : string -> string -> string -> string -> provider_response + string }.

(** The exceptions that leave [_review_single]. *)
Inductive error :=
  | NormalizeError (e : exn)
  | ProviderFailure (msg : string).

Definition _review_single (e : env) (prompt model system_prompt : string)
    (use_cache : bool) (cache_ttl : Z) (w : world) : (review_result + error) * world :=
  let '(cached, dir) :=
    if use_cache then
      get_cached_response model prompt (Some system_prompt) cache_ttl
        (lookup_at e) (unlink_fails e) (cache w)
    else (None, cache w) in
  let w := World dir (provider_calls w) (logged w) in
  match cached with
  | Some (String c rest as cached) =>                          (* if cached: *)
      (inl (ReviewResult (ProviderResponse cached model 0 0 (Some 0%Q) true) true), w)
  | _ =>
      match normalize_model_name model with
      | Raise e => (inr (NormalizeError e), w)
      | Ok (provider_name, model_id) =>
          let w := World (cache w) (provider_calls w ++ [(provider_name, model_id)])%list
                     (logged w) in
          match complete e provider_name prompt model_id system_prompt with
          | inr msg => (inr (ProviderFailure msg), w)
          | inl response =>
              let call :=
                LoggedCall model_id (input_tokens response) (output_tokens response)
                  (default 0%Q (cost response)) "review" in
              let w := World (cache w) (provider_calls w) (logged w ++ [call])%list in
              let w :=
                if use_cache then
                  World (cache_response model prompt (text response) (Some system_prompt)
                           (store_at e) (tmp_path e) (fault e) (cache w))
                    (provider_calls w) (logged w)
                else w in
              (inl (ReviewResult response false), w)
          end
      end
  end.

(** [cache_ttl or config.get("cache_ttl_hours", 24)] *)
Definition ttl_or_configured (cache_ttl : option Z) (config : config) : Z :=
  match cache_ttl with
  | Some ttl => if bool_decide (ttl = 0) then cache_ttl_hours config else ttl
  | None => cache_ttl_hours config
  end.

(** The system prompt of [plan]. *)
Definition PLAN_PROMPT : string :=
  "You are an expert software architect and planner.
Create a detailed, step-by-step implementation plan.
Include:
- Summary of the goal
- Key assumptions
- Architecture decisions
- Implementation steps
- Potential risks
".

Definition plan (e : env) (f : config_file) (goal : string) (model : option string)
    (use_cache : bool) (cache_ttl : option Z) (w : world)
    : (review_result + error) * world :=
  let config := load_config f in
  let model :=
    match model with
    | Some (String _ _ as model) => model
    | _ => default "gpt-5.2" (default_models config !! "plan")       (* if not model: *)
    end in
  _review_single e goal model PLAN_PROMPT use_cache (ttl_or_configured cache_ttl config) w.

(** The result of a cache hit. *)
Definition served (model text : string) : review_result :=
  ReviewResult (ProviderResponse text model 0 0 (Some 0%Q) true) true.

End Api.

(** ** costs.py and cost_tracker.py in binary64 *)

Module Float64.

Import Floats.
Import Models Pricing.

(** [float(n)] for an [int] with [|n| < 2 ** 63]: the float nearest to
    [n], which is [n] itself for [|n| < 2 ** 53]. *)
Definition of_Z (n : Z) : float :=
  match n with
  | Z0 => PrimFloat.zero
  | Zpos _ => PrimFloat.of_uint63 (Uint63.of_Z n)
  | Zneg p => PrimFloat.opp (PrimFloat.of_uint63 (Uint63.of_Z (Zpos p)))
  end.

(** [a / b] on two ints, the quotient rounded once: the float division
    of [float(a)] by [float(b)] for [|a|, |b| < 2 ** 53], where the two
    conversions are exact. *)
Definition truediv (a b : Z) : float := PrimFloat.div (of_Z a) (of_Z b).

(** The float a decimal numeral denotes, in the source or in
    [pricing.yaml]: the float nearest to it (numerator and denominator
    below [2 ** 53]). *)
Definition of_Q (x : Q) : float := truediv (Qnum x) (Zpos (Qden x)).

(** The number a float is; [None] for an infinity or NaN. *)
Definition to_Q (x : float) : option Q :=
  match Prim2SF x with
  | S754_zero _ => Some 0%Q
  | S754_finite s m e =>
      let v := if 0 <=? e then inject_Z (Zpos m * 2 ^ e)
               else (Zpos m # Z.to_pos (2 ^ (- e)))%Q in
      Some (if s then Qopp v else v)
  | S754_infinity _ | S754_nan => None
  end.

Definition finite (x : float) : bool :=
  match Prim2SF x with
  | S754_zero _ | S754_finite _ _ _ => true
  | S754_infinity _ | S754_nan => false
  end.

(** [int(x)]: truncation toward zero; an infinity and NaN raise. *)
Definition int (x : float) : result Z :=
  match Prim2SF x with
  | S754_nan => Raise (ValueError "cannot convert float NaN to integer")
  | S754_infinity _ => Raise (OverflowError "cannot convert float infinity to integer")
  | S754_zero _ | S754_finite _ _ _ => Ok (Py.int (default 0%Q (to_Q x)))
  end.

(** The price a price dict gives, as the float it is. *)
Definition get (pricing : gmap string Q) (key : string) : float :=
  of_Q (Py.get pricing key 0).

(** The second half of [costs.estimate_cost], from the clamp on. *)
Definition total_cost (provider : string) (pricing : gmap string Q)
    (input_tokens output_tokens cached_tokens : Z) : float :=
  let cached_tokens := Z.max 0 (Z.min cached_tokens input_tokens) in
  let uncached_tokens := input_tokens - cached_tokens in
  let input_cost := PrimFloat.mul (truediv uncached_tokens 1000000) (get pricing "input") in
  let cache_discount := of_Q (Costs.cache_discount provider) in
  let cached_price :=
    PrimFloat.mul (get pricing "input") (PrimFloat.sub (of_Z 1) cache_discount) in
  let cached_cost := PrimFloat.mul (truediv cached_tokens 1000000) cached_price in
  let output_cost := PrimFloat.mul (truediv output_tokens 1000000) (get pricing "output") in
  PrimFloat.add (PrimFloat.add input_cost cached_cost) output_cost.

Definition estimate_cost (table : pricing_doc) (model : string)
    (input_tokens output_tokens cached_tokens : Z) : result float :=
  match Costs.resolve_pricing table model with
  | Raise e => Raise e
  | Ok (provider, pricing) =>
      Ok (total_cost provider pricing input_tokens output_tokens cached_tokens)
  end.

(** The dict [estimate_cost_from_text] returns, without the display
    string [cost_formatted]. *)
Record cost_breakdown := CostBreakdown {
  model : string;
  input_tokens : Z;
  output_tokens : Z;
  cached_tokens : Z;
  estimated_cost : float;
  is_estimated : bool }.

Section Formatting.

(** [str(x)] of a float, as an f-string formats it. *)
Variable str : float -> string.

Definition estimate_cost_from_text (table : pricing_doc) (model input_text : string)
    (expected_output_tokens : Z) (cached_ratio : float) : result cost_breakdown :=
  if negb (PrimFloat.leb PrimFloat.zero cached_ratio && PrimFloat.leb cached_ratio PrimFloat.one)
  then
    Raise (ValueError ("cached_ratio must be between 0.0 and 1.0, got " ++ str cached_ratio))
  else
    let input_tokens := Costs.estimate_tokens input_text in
    match int (PrimFloat.mul (of_Z input_tokens) cached_ratio) with
    | Raise e => Raise e
    | Ok cached_tokens =>
        match estimate_cost table model input_tokens expected_output_tokens cached_tokens with
        | Raise e => Raise e
        | Ok cost =>
            let is_estimated := Py.contains "pro" (Py.lower model) in
            Ok (CostBreakdown model input_tokens expected_output_tokens cached_tokens
                  cost is_estimated)
        end
    end.

End Formatting.

(** [cost_tracker.estimate_cost], whose price dicts carry the cached
    price as a number of its own. *)
Definition tracker_estimate_cost (model : string)
    (input_tokens output_tokens cached_tokens : Z) : result float :=
  match CostTracker.PRICING !! model with
  | None =>
      Raise (ValueError ("Unknown model '" ++ model ++ "'. Available models: "
                         ++ String.concat ", " (map fst CostTracker.PRICING_items)))
  | Some pricing =>
      let cached_tokens := Z.max 0 (Z.min cached_tokens input_tokens) in
      let uncached_tokens := input_tokens - cached_tokens in
      let input_cost :=
        PrimFloat.mul (truediv uncached_tokens 1000000)
          (get (CostTracker.prices pricing) "input") in
      let cached_cost :=
        PrimFloat.mul (truediv cached_tokens 1000000)
          (get (CostTracker.prices pricing) "cached") in
      let output_cost :=
        PrimFloat.mul (truediv output_tokens 1000000)
          (get (CostTracker.prices pricing) "output") in
      Ok (PrimFloat.add (PrimFloat.add input_cost cached_cost) output_cost)
  end.

(** A float that is not negative: no sign bit, or NaN. *)
Definition unsigned (x : spec_float) : Prop :=
  match x with
  | S754_zero s | S754_infinity s | S754_finite s _ _ => s = false
  | S754_nan => True
  end.

End Float64.

(** ** Decidable checks of the tables against each other *)

Module Checks.

Import Models Pricing Costs.

(** Whether the embedded defaults price [api_model] under [provider] with
    its own entry, at a positive input price that is below the output
    price. *)
Definition priced_by_defaults (item : string * (string * string)) : bool :=
  let '(_, (provider, api_model)) := item in
  match providers DEFAULT_PRICING !! provider ≫= (.!! api_model) with
  | Some entry =>
      bool_decide (is_Some (entry !! "input")) && bool_decide (is_Some (entry !! "output"))
      && negb (Qle_bool (Py.get entry "input" 0) 0)
      && negb (Qle_bool (Py.get entry "output" 0) (Py.get entry "input" 0))
  | None => false
  end.

(** Whether the context window the provider reports for an API name is
    the one [get_model_characteristics] lists. *)
Definition same_context_window (p : Providers.provider) (api_model : string) : bool :=
  bool_decide
    (Providers.info_context_window (Providers.get_model_info DEFAULT_PRICING p api_model)
     = context_window (get_model_characteristics api_model)).

(** The provider class of a provider name of the registry. *)
Definition provider_of (name : string) : option Providers.provider :=
  if bool_decide (name = "openai") then Some Providers.OpenAIProvider
  else if bool_decide (name = "google") then Some Providers.GoogleProvider
  else if bool_decide (name = "anthropic") then Some Providers.AnthropicProvider
  else None.

Definition context_window_checked (item : string * (string * string)) : bool :=
  let '(_, (provider, api_model)) := item in
  match provider_of provider with
  | Some p =>
      bool_decide (Providers.provider_name p = provider) &&
      bool_decide (same_context_window p api_model = negb (bool_decide (api_model = "gpt-4o")))
  | None => false
  end.

(** Whether the prices of an item of [cost_tracker.PRICING] are the ones
    [costs.py] resolves for the name on the embedded table, the cached
    price being the input price after the provider's discount; for the
    two names of [repriced], whether both prices lie on the same side. *)
Definition repriced (name : string) : bool :=
  bool_decide (name = "gpt-5.2-chat-latest") || bool_decide (name = "gpt-5.2-pro").

Definition tracker_price_checked (item : string * CostTracker.pricing_entry) : bool :=
  let '(name, e) := item in
  let ti := Py.get (CostTracker.prices e) "input" 0 in
  let to := Py.get (CostTracker.prices e) "output" 0 in
  let tc := Py.get (CostTracker.prices e) "cached" 0 in
  match resolve_pricing DEFAULT_PRICING name with
  | Ok (provider, pricing) =>
      let ci := Py.get pricing "input" 0 in
      let co := Py.get pricing "output" 0 in
      if repriced name then
        (negb (Qle_bool ti ci) && negb (Qle_bool to co))
        || (negb (Qle_bool ci ti) && negb (Qle_bool co to))
      else
        Qeq_bool ti ci && Qeq_bool to co
        && Qeq_bool tc (ci * (1 - cache_discount provider))
  | Raise _ => false
  end.

(** Whether, in binary64, an item of [cost_tracker.PRICING] that is not
    repriced has the input and output prices [costs.py] resolves for the
    name, and no cached token costs the same at the cached price of
    either. *)
Definition tracker_float_checked (item : string * CostTracker.pricing_entry) : bool :=
  let '(name, e) := item in
  repriced name ||
  match resolve_pricing DEFAULT_PRICING name with
  | Ok (provider, pricing) =>
      let cached_price :=
        PrimFloat.mul (Float64.get pricing "input")
          (PrimFloat.sub (Float64.of_Z 1) (Float64.of_Q (cache_discount provider))) in
      PrimFloat.Leibniz.eqb (Float64.get (CostTracker.prices e) "input")
        (Float64.get pricing "input")
      && PrimFloat.Leibniz.eqb (Float64.get (CostTracker.prices e) "output")
           (Float64.get pricing "output")
      && PrimFloat.Leibniz.eqb
           (PrimFloat.mul (Float64.truediv 0 1000000)
              (Float64.get (CostTracker.prices e) "cached"))
           (PrimFloat.mul (Float64.truediv 0 1000000) cached_price)
  | Raise _ => false
  end.

End Checks.

(** * Properties *)

(** ** Strings *)

Section Strings.

Lemma list_ascii_of_append (s t : string) :
  list_ascii_of_string (s ++ t) = (list_ascii_of_string s ++ list_ascii_of_string t)%list.
Proof. induction s as [|c s IH]; simpl; [reflexivity | now rewrite IH]. Qed.

Lemma list_ascii_of_string_inj (s t : string) :
  list_ascii_of_string s = list_ascii_of_string t -> s = t.
Proof.
  intros H. rewrite <- (string_of_list_ascii_of_string s), H.
  apply string_of_list_ascii_of_string.
Qed.

Lemma append_cancel_r (s1 s2 t : string) : s1 ++ t = s2 ++ t -> s1 = s2.
Proof.
  intros H. apply list_ascii_of_string_inj.
  apply (f_equal list_ascii_of_string) in H.
  rewrite !list_ascii_of_append in H. exact (app_inv_tail _ _ _ H).
Qed.

Lemma append_cancel_l (s t1 t2 : string) : s ++ t1 = s ++ t2 -> t1 = t2.
Proof. induction s as [|c s IH]; simpl; intros H; [exact H | injection H; auto]. Qed.

End Strings.

(** ** SHA-256 on the test vectors of FIPS 180-4 *)

Example sha256_abc :
  SHA256.hexdigest "abc"
  = "ba7816bf8f01cfea414140de5dae2223b00361a396177a9cb410ff61f20015ad".
Proof. vm_compute. reflexivity. Qed.

Example sha256_empty :
  SHA256.hexdigest ""
  = "e3b0c44298fc1c149afbf4c8996fb92427ae41e4649b934ca495991b7852b855".
Proof. vm_compute. reflexivity. Qed.

Example sha256_two_blocks :
  SHA256.hexdigest "abcdbcdecdefdefgefghfghighijhijkijkljklmklmnlmnomnopnopq"
  = "248d6a61d20638b8e5c026930c3e6039a33ce45964ff2167f6ecedd419db06c1".
Proof. vm_compute. reflexivity. Qed.

(** ** The response cache *)

Module CacheFacts.

Import Cache.

(** [test_get_cache_key], with its arguments in the order the test passes
    them: equal inputs, equal keys; another model, another key; 64 hex
    digits. *)
Example test_get_cache_key :
  let key1 := get_cache_key "model1" "system" (Some "prompt") in
  let key2 := get_cache_key "model1" "system" (Some "prompt") in
  let key3 := get_cache_key "model2" "system" (Some "prompt") in
  key1 = key2 /\ key1 <> key3 /\ String.length key1 = 64%nat.
Proof. vm_compute. split; [reflexivity | split; [discriminate | reflexivity]]. Qed.

Lemma timedelta_hours_in_range (h : Z) :
  -23999999976 <= h <= 23999999999 -> timedelta_hours h = Some (h * 3600 * 1000000).
Proof.
  intros Hh. unfold timedelta_hours. rewrite bool_decide_eq_true_2; [reflexivity|].
  pose proof (Z.div_mod h 24 ltac:(lia)) as Hd.
  pose proof (Z.mod_pos_bound h 24 ltac:(lia)). lia.
Qed.

Lemma timedelta_hours_overflow (h : Z) :
  h < -23999999976 \/ 23999999999 < h -> timedelta_hours h = None.
Proof.
  intros Hh. unfold timedelta_hours. rewrite bool_decide_eq_false_2; [reflexivity|].
  pose proof (Z.div_mod h 24 ltac:(lia)) as Hd.
  pose proof (Z.mod_pos_bound h 24 ltac:(lia)). lia.
Qed.

(** A store that does not fail leaves the entry in its file. *)
Lemma cache_response_file model prompt response system_prompt now tmp_path (dir : cache_dir) :
  holds_entry (cache_response model prompt response system_prompt now tmp_path NoFault dir)
    model prompt system_prompt now response.
Proof. unfold holds_entry, cache_response. apply lookup_insert_eq. Qed.

(** A store touches the entry's file and the temporary file only. *)
Lemma cache_response_other model prompt response system_prompt now tmp_path fault
    (dir : cache_dir) (name : string) :
  name <> cache_file_name model prompt system_prompt -> name <> tmp_path ->
  cache_response model prompt response system_prompt now tmp_path fault dir !! name
  = dir !! name.
Proof.
  intros Hfile Htmp. unfold cache_response.
  destruct fault as [| | |[|]];
    rewrite ?lookup_insert_ne, ?lookup_delete_ne, ?lookup_insert_ne by congruence;
    reflexivity.
Qed.

(** Split on the comparison [now - cached_at > ttl] and let [lia] see it. *)
Ltac case_expired :=
  match goal with
  | |- context [?age >? ?ttl] => destruct (Z.gtb_spec age ttl)
  end.

(** A lookup of an entry stored at [stored_at], for a TTL that
    [timedelta] accepts. *)
Lemma lookup_entry model prompt response system_prompt ttl_hours stored_at now
    unlink_fails (dir : cache_dir) :
  holds_entry dir model prompt system_prompt stored_at response ->
  -23999999976 <= ttl_hours <= 23999999999 ->
  get_cached_response model prompt system_prompt ttl_hours now unlink_fails dir
  = if now - stored_at >? ttl_hours * 3600 * 1000000
    then (None, if unlink_fails then dir
                else delete (cache_file_name model prompt system_prompt) dir)
    else (Some response, dir).
Proof.
  intros Hentry Hh. unfold get_cached_response.
  rewrite Hentry. unfold read_entry. simpl.
  rewrite (timedelta_hours_in_range _ Hh). simpl.
  destruct (now - stored_at >? ttl_hours * 3600 * 1000000); [|reflexivity].
  unfold unlink. destruct unlink_fails; reflexivity.
Qed.

(** A TTL that [timedelta] refuses: the lookup returns [None] and leaves
    the directory alone. *)
Lemma lookup_overflow model prompt response system_prompt ttl_hours stored_at now
    unlink_fails (dir : cache_dir) :
  holds_entry dir model prompt system_prompt stored_at response ->
  ttl_hours < -23999999976 \/ 23999999999 < ttl_hours ->
  get_cached_response model prompt system_prompt ttl_hours now unlink_fails dir = (None, dir).
Proof.
  intros Hentry Hh. unfold get_cached_response.
  rewrite Hentry. unfold read_entry. cbn [mbind option_bind timestamp].
  rewrite (timedelta_hours_overflow _ Hh). reflexivity.
Qed.

(** [test_get_cached_response_miss]: nothing stored, nothing found. *)
Example test_get_cached_response_miss :
  get_cached_response "model" "nonexistent prompt" (Some "system") 24 0 false ∅ = (None, ∅).
Proof. unfold get_cached_response. rewrite lookup_empty. reflexivity. Qed.

(** [test_cache_expiry]: an entry whose timestamp is 25 hours old is
    expired under the default TTL of 24 hours, and its file is removed. *)
Example test_cache_expiry (now : datetime) (dir : cache_dir) :
  holds_entry dir "test-model" "prompt" (Some "system") (now - 25 * 3600 * 1000000) "response" ->
  get_cached_response "test-model" "prompt" (Some "system") 24 now false dir
  = (None, delete (cache_file_name "test-model" "prompt" (Some "system")) dir).
Proof.
  intros Hentry. rewrite (lookup_entry _ _ _ _ _ _ _ _ _ Hentry) by lia.
  case_expired; [reflexivity | lia].
Qed.

(** C1 (as amended): a store that does not fail, followed by a lookup
    with the same model, prompt and system prompt whose clock reading is
    not more than [ttl_hours] after the store's (immediately: the same
    reading, [elapsed = 0], which any [ttl_hours >= 0] allows), returns
    exactly the stored response and leaves the directory as the store
    made it, for every [ttl_hours] from 0 up to 23999999999, the largest
    number of hours [timedelta] accepts. *)
Theorem store_then_lookup model prompt system_prompt response ttl_hours now elapsed
    tmp_path unlink_fails (dir : cache_dir) :
  0 <= ttl_hours <= 23999999999 ->
  elapsed <= ttl_hours * 3600 * 1000000 ->
  let dir' := cache_response model prompt response system_prompt now tmp_path NoFault dir in
  get_cached_response model prompt system_prompt ttl_hours (now + elapsed) unlink_fails dir'
  = (Some response, dir').
Proof.
  intros Hh Helapsed dir'. subst dir'.
  rewrite (lookup_entry model prompt response system_prompt ttl_hours now);
    [|apply cache_response_file | lia].
  case_expired; [lia | reflexivity].
Qed.

Lemma store_then_lookup_witness :
  0 <= 0 <= 23999999999 /\
  0 <= 0 * 3600 * 1000000 /\
  get_cached_response "gpt-5.2" "Review this diff" (Some "You are a reviewer") 0
    (1000000 + 0) false
    (cache_response "gpt-5.2" "Review this diff" "Looks good" (Some "You are a reviewer")
       1000000 "tmpk3j2x1.tmp" NoFault ∅)
  = (Some "Looks good",
     cache_response "gpt-5.2" "Review this diff" "Looks good" (Some "You are a reviewer")
       1000000 "tmpk3j2x1.tmp" NoFault ∅).
Proof.
  split; [lia|]. split; [lia|].
  apply (store_then_lookup "gpt-5.2" "Review this diff" (Some "You are a reviewer")
           "Looks good" 0 1000000 0 "tmpk3j2x1.tmp" false ∅); lia.
Defined.

(** C1 as stated fails: with [ttl_hours = 24000000000], which is not
    negative, [timedelta(hours=ttl_hours)] raises [OverflowError] inside
    the [try], and the lookup that follows the store at the same clock
    reading returns [None]. *)
Lemma store_then_lookup_huge_ttl :
  0 <= 24000000000 /\
  fst (get_cached_response "gpt-5.2" "Review this diff" (Some "You are a reviewer")
         24000000000 1000000 false
         (cache_response "gpt-5.2" "Review this diff" "Looks good" (Some "You are a reviewer")
            1000000 "tmpk3j2x1.tmp" NoFault ∅))
  = None.
Proof.
  split; [lia|].
  rewrite (lookup_overflow _ _ "Looks good" _ _ 1000000);
    [reflexivity | apply cache_response_file | lia].
Qed.

(** C2 (as amended): for an entry stored at [stored_at] and every
    [ttl_hours] that [timedelta] accepts (from -23999999976 to
    23999999999), a lookup strictly after [stored_at + ttl] returns [None]
    and, when the unlink does not fail, removes the entry's file; a lookup
    strictly before [stored_at + ttl] returns the stored response and
    leaves the directory alone; and the lookup returns [None] exactly when
    [now - stored_at > ttl]. *)
Theorem ttl_boundary model prompt system_prompt response ttl_hours stored_at now
    (dir : cache_dir) :
  holds_entry dir model prompt system_prompt stored_at response ->
  -23999999976 <= ttl_hours <= 23999999999 ->
  let ttl := ttl_hours * 3600 * 1000000 in
  let cache_file := cache_file_name model prompt system_prompt in
  (now > stored_at + ttl ->
     get_cached_response model prompt system_prompt ttl_hours now false dir
     = (None, delete cache_file dir)
     /\ delete cache_file dir !! cache_file = None) /\
  (now < stored_at + ttl ->
     forall unlink_fails,
       get_cached_response model prompt system_prompt ttl_hours now unlink_fails dir
       = (Some response, dir)) /\
  (forall unlink_fails,
     fst (get_cached_response model prompt system_prompt ttl_hours now unlink_fails dir) = None
     <-> now - stored_at > ttl).
Proof.
  intros Hentry Hh ttl cache_file. subst ttl cache_file.
  assert (Hlookup := fun unlink_fails =>
    lookup_entry model prompt response system_prompt ttl_hours stored_at now
      unlink_fails dir Hentry Hh).
  split; [|split].
  - intros Hafter. split; [|apply lookup_delete_eq].
    rewrite Hlookup. case_expired; [reflexivity | lia].
  - intros Hbefore unlink_fails. rewrite Hlookup. case_expired; [lia | reflexivity].
  - intros unlink_fails. rewrite Hlookup.
    case_expired; simpl; split; intros; (lia || discriminate || reflexivity).
Qed.

Lemma ttl_boundary_witness :
  -23999999976 <= 24 <= 23999999999 /\
  get_cached_response "gpt-5.2" "Review this diff" None 24 (24 * 3600 * 1000000 + 1) false
    (cache_response "gpt-5.2" "Review this diff" "Looks good" None 0 "tmpk3j2x1.tmp" NoFault ∅)
  = (None,
     delete (cache_file_name "gpt-5.2" "Review this diff" None)
       (cache_response "gpt-5.2" "Review this diff" "Looks good" None 0 "tmpk3j2x1.tmp"
          NoFault ∅)) /\
  get_cached_response "gpt-5.2" "Review this diff" None 24 (24 * 3600 * 1000000 - 1) false
    (cache_response "gpt-5.2" "Review this diff" "Looks good" None 0 "tmpk3j2x1.tmp" NoFault ∅)
  = (Some "Looks good",
     cache_response "gpt-5.2" "Review this diff" "Looks good" None 0 "tmpk3j2x1.tmp" NoFault ∅).
Proof.
  split; [lia|]. split.
  - apply (ttl_boundary "gpt-5.2" "Review this diff" None "Looks good" 24 0
             (24 * 3600 * 1000000 + 1)); [apply cache_response_file | lia | lia].
  - apply (ttl_boundary "gpt-5.2" "Review this diff" None "Looks good" 24 0
             (24 * 3600 * 1000000 - 1)); [apply cache_response_file | lia | lia].
Defined.

(** C2 as stated fails: it quantifies over every [ttl_hours], and for
    [ttl_hours = 24000000000] a lookup one hour after the store, strictly
    before [stored_at + ttl_hours], returns [None] and not the stored
    response; the file is still there. *)
Lemma ttl_boundary_huge_ttl :
  3600 * 1000000 < 0 + 24000000000 * 3600 * 1000000 /\
  get_cached_response "gpt-5.2" "Review this diff" None 24000000000 (3600 * 1000000) false
    (cache_response "gpt-5.2" "Review this diff" "Looks good" None 0 "tmpk3j2x1.tmp" NoFault ∅)
  = (None,
     cache_response "gpt-5.2" "Review this diff" "Looks good" None 0 "tmpk3j2x1.tmp" NoFault ∅).
Proof.
  split; [lia|].
  apply (lookup_overflow _ _ "Looks good" _ _ 0); [apply cache_response_file | lia].
Qed.

(** The text that is hashed tells apart two requests that differ in one
    component, an absent system prompt counting as the empty one. *)
Lemma key_content_single_component model prompt system_prompt model' prompt' system_prompt' :
  (model <> model' /\ or_empty system_prompt = or_empty system_prompt' /\ prompt = prompt') \/
  (model = model' /\ or_empty system_prompt <> or_empty system_prompt' /\ prompt = prompt') \/
  (model = model' /\ or_empty system_prompt = or_empty system_prompt' /\ prompt <> prompt') ->
  key_content model prompt system_prompt <> key_content model' prompt' system_prompt'.
Proof.
  unfold key_content.
  intros [(Hm & Hs & Hp) | [(Hm & Hs & Hp) | (Hm & Hs & Hp)]] Heq.
  - rewrite Hs, Hp in Heq. apply Hm. exact (append_cancel_r _ _ _ Heq).
  - rewrite Hm, Hp in Heq. apply Hs.
    apply append_cancel_l, (append_cancel_l ":") in Heq.
    exact (append_cancel_r _ _ _ Heq).
  - rewrite Hm, Hs in Heq. apply Hp.
    apply append_cancel_l, (append_cancel_l ":"), append_cancel_l in Heq.
    exact (append_cancel_l ":" _ _ Heq).
Qed.

(** C3 (as amended): [get_cache_key] is a function of the triple, so equal
    triples have equal keys; and when two triples differ in exactly one
    component, an absent system prompt counting as the empty one, the
    texts that are hashed differ, so that equal keys would be a SHA-256
    collision. *)
Theorem fingerprint_single_component model prompt system_prompt model' prompt' system_prompt' :
  ((model, system_prompt, prompt) = (model', system_prompt', prompt') ->
   get_cache_key model prompt system_prompt = get_cache_key model' prompt' system_prompt') /\
  ((model <> model' /\ or_empty system_prompt = or_empty system_prompt' /\ prompt = prompt') \/
   (model = model' /\ or_empty system_prompt <> or_empty system_prompt' /\ prompt = prompt') \/
   (model = model' /\ or_empty system_prompt = or_empty system_prompt' /\ prompt <> prompt') ->
   key_content model prompt system_prompt <> key_content model' prompt' system_prompt' /\
   (get_cache_key model prompt system_prompt = get_cache_key model' prompt' system_prompt' ->
    SHA256.collision (key_content model prompt system_prompt)
                     (key_content model' prompt' system_prompt'))).
Proof.
  split.
  - intros [= -> -> ->]. reflexivity.
  - intros Hone. pose proof (key_content_single_component _ _ _ _ _ _ Hone) as Hne.
    split; [exact Hne|]. intros Hkey. split; [exact Hne | exact Hkey].
Qed.

(** The keys of the unit test: a different model, a different key. *)
Lemma fingerprint_single_component_witness :
  key_content "model1" "prompt" (Some "system") <> key_content "model2" "prompt" (Some "system") /\
  (get_cache_key "model1" "prompt" (Some "system") = get_cache_key "model2" "prompt" (Some "system") ->
   SHA256.collision (key_content "model1" "prompt" (Some "system"))
                    (key_content "model2" "prompt" (Some "system"))).
Proof.
  apply (fingerprint_single_component "model1" "prompt" (Some "system")
           "model2" "prompt" (Some "system")).
  left. split; [discriminate | split; reflexivity].
Defined.

(** C3 as stated fails: the separator is not escaped, so two triples
    that differ in the system prompt and in the prompt are hashed as the
    same text and share a key; and an absent and an empty system prompt,
    which differ in one component, share a key as well. *)
Lemma fingerprint_not_injective :
  ("gpt-5.2", Some "Review", "security: check this")
    <> ("gpt-5.2", Some "Review:security", " check this") /\
  get_cache_key "gpt-5.2" "security: check this" (Some "Review")
    = get_cache_key "gpt-5.2" " check this" (Some "Review:security") /\
  ("gpt-5.2", @None string, "check this") <> ("gpt-5.2", Some "", "check this") /\
  get_cache_key "gpt-5.2" "check this" None = get_cache_key "gpt-5.2" "check this" (Some "").
Proof.
  split; [discriminate|]. split; [unfold get_cache_key; f_equal|].
  split; [discriminate | unfold get_cache_key; f_equal].
Qed.


End CacheFacts.

(** ** The pricing store *)

Module PricingFacts.

Import Pricing.

(** [get_model_pricing] read as the specification words it: the exact
    entry, else the entry of the provider's default model, else nothing. *)
Lemma get_model_pricing_unfold (table : pricing_doc) (provider model : string) :
  get_model_pricing table provider model
  = let provider_pricing := default ∅ (providers table !! provider) in
    match provider_pricing !! model with
    | Some entry => Some entry
    | None =>
        match default_model provider with
        | Some fallback => provider_pricing !! fallback
        | None => None
        end
    end.
Proof.
  unfold get_model_pricing, default_model. cbv zeta.
  destruct (default ∅ (providers table !! provider) !! model); [reflexivity|].
  repeat case_bool_decide; reflexivity.
Qed.

Lemma recognized_default_model (provider : string) :
  recognized provider <-> is_Some (default_model provider).
Proof.
  unfold recognized, default_model. split.
  - intros [-> | [-> | ->]]; vm_compute; eauto.
  - repeat case_bool_decide; intros [? [=]]; auto.
Qed.

Lemma load_pricing_without_override (save_fails : bool) (f : pricing_file) :
  f = Missing \/ f = Unreadable \/ (exists doc, f = Yaml doc /\ has_metadata doc = false) ->
  fst (load_pricing save_fails f) = DEFAULT_PRICING.
Proof.
  intros [-> | [-> | (doc & -> & Hm)]]; simpl; [reflexivity | reflexivity |].
  rewrite Hm. reflexivity.
Qed.

Lemma default_pricing_resolves (provider model : string) :
  recognized provider -> is_Some (get_model_pricing DEFAULT_PRICING provider model).
Proof.
  intros Hrec. unfold get_model_pricing. cbv zeta.
  destruct Hrec as [-> | [-> | ->]].
  - set (pp := default ∅ (providers DEFAULT_PRICING !! "openai")).
    destruct (pp !! model); [eauto|]. simpl.
    apply (bool_decide_unpack (is_Some (pp !! "gpt-5.2"))). vm_compute. exact I.
  - set (pp := default ∅ (providers DEFAULT_PRICING !! "google")).
    destruct (pp !! model); [eauto|]. simpl.
    apply (bool_decide_unpack (is_Some (pp !! "gemini-3-flash-preview"))).
    vm_compute. exact I.
  - set (pp := default ∅ (providers DEFAULT_PRICING !! "anthropic")).
    destruct (pp !! model); [eauto|]. simpl.
    apply (bool_decide_unpack (is_Some (pp !! "claude-sonnet-4-5-20250929"))).
    vm_compute. exact I.
Qed.

(** C6 (as amended): [get_model_pricing] returns the exact entry when the
    provider's table has one; on a miss it returns what the table has for
    the provider's default model, and nothing for a provider that has no
    default. So for a recognized provider the result is never absent when
    the loaded table prices the model asked for or the provider's default
    model, as the embedded defaults do, which are the table [load_pricing]
    returns when the override file is missing, unreadable or without its
    metadata block. *)
Theorem get_model_pricing_resolves (table : pricing_doc) (provider model : string) :
  let provider_pricing := default ∅ (providers table !! provider) in
  (forall entry, provider_pricing !! model = Some entry ->
     get_model_pricing table provider model = Some entry) /\
  (provider_pricing !! model = None ->
     forall fallback, default_model provider = Some fallback ->
       get_model_pricing table provider model = provider_pricing !! fallback) /\
  (provider_pricing !! model = None -> ~ recognized provider ->
     get_model_pricing table provider model = None) /\
  (recognized provider ->
     (forall fallback, default_model provider = Some fallback ->
        is_Some (provider_pricing !! fallback) ->
        is_Some (get_model_pricing table provider model)) /\
     is_Some (get_model_pricing DEFAULT_PRICING provider model) /\
     (forall save_fails f,
        f = Missing \/ f = Unreadable \/
        (exists doc, f = Yaml doc /\ has_metadata doc = false) ->
        is_Some (get_model_pricing (fst (load_pricing save_fails f)) provider model))).
Proof.
  intros provider_pricing. rewrite get_model_pricing_unfold. cbv zeta.
  fold provider_pricing.
  split; [|split; [|split]].
  - intros entry ->. reflexivity.
  - intros -> fallback ->. reflexivity.
  - intros -> Hno. destruct (default_model provider) as [d|] eqn:Hd; [|reflexivity].
    exfalso. apply Hno, recognized_default_model. eauto.
  - intros Hrec. split; [|split].
    + intros fallback -> Hsome. destruct (provider_pricing !! model); eauto.
    + apply default_pricing_resolves, Hrec.
    + intros save_fails f Hf. rewrite (load_pricing_without_override _ _ Hf).
      apply default_pricing_resolves, Hrec.
Qed.

Lemma get_model_pricing_resolves_witness :
  is_Some (get_model_pricing DEFAULT_PRICING "openai" "gpt-5.2-mini") /\
  get_model_pricing DEFAULT_PRICING "openai" "gpt-5.2-mini"
  = default ∅ (providers DEFAULT_PRICING !! "openai") !! "gpt-5.2".
Proof.
  split.
  - apply (get_model_pricing_resolves DEFAULT_PRICING "openai" "gpt-5.2-mini").
    left. reflexivity.
  - apply (get_model_pricing_resolves DEFAULT_PRICING "openai" "gpt-5.2-mini");
      reflexivity.
Defined.

(** C6 as stated fails: the table is what the override file holds, and
    one that prices neither the model asked for nor the default model
    leaves a recognized provider without a price. *)
Lemma get_model_pricing_absent_for_openai :
  recognized "openai" /\
  fst (load_pricing false (Yaml override_without_default)) = override_without_default /\
  get_model_pricing override_without_default "openai" "gpt-5.2-pro" = None.
Proof.
  split; [left; reflexivity|]. split; [reflexivity | vm_compute; reflexivity].
Qed.

End PricingFacts.

(** ** The cost estimator *)

Module CostsFacts.

Import Models Pricing Costs.

Lemma normalize_model_name_provider model provider api_model :
  normalize_model_name model = Ok (provider, api_model) -> recognized provider.
Proof.
  unfold normalize_model_name, with_provider, via_alias, subscript, recognized.
  repeat case_bool_decide;
    repeat match goal with
           | |- context [match ?m !! ?k with _ => _ end] => destruct (m !! k)
           end;
    intros [= <- <-] || discriminate; auto.
Qed.

Lemma resolve_pricing_provider table model provider pricing :
  resolve_pricing table model = Ok (provider, pricing) -> recognized provider.
Proof.
  unfold resolve_pricing.
  destruct (normalize_model_name model) as [[provider' api_model]|[msg|key|msg]] eqn:Hn;
    [|discriminate..].
  destruct (get_model_pricing table provider' api_model); [|discriminate].
  case_bool_decide; [discriminate|]. intros [= <- <-].
  eapply normalize_model_name_provider, Hn.
Qed.

(** The discount constants, provider by provider. *)
Lemma cache_discount_recognized provider :
  recognized provider ->
  (provider = "openai" \/ provider = "anthropic") /\ cache_discount provider = 0.90%Q \/
  provider = "google" /\ cache_discount provider = 0.75%Q.
Proof.
  intros [-> | [-> | ->]]; [left | right | left]; (split; [auto | vm_compute; reflexivity]).
Qed.

Lemma resolvable_resolves table model :
  resolvable table model = true ->
  exists provider pricing, resolve_pricing table model = Ok (provider, pricing).
Proof.
  unfold resolvable. destruct (resolve_pricing table model) as [[provider pricing]|e];
    [eauto | discriminate].
Qed.

Lemma clamp_cached_cases cached_tokens input_tokens :
  0 <= input_tokens ->
  clamp_cached cached_tokens input_tokens
  = if cached_tokens <? 0 then 0
    else if input_tokens <? cached_tokens then input_tokens
    else cached_tokens.
Proof.
  intros Hi. unfold clamp_cached.
  destruct (Z.ltb_spec cached_tokens 0); [lia|].
  destruct (Z.ltb_spec input_tokens cached_tokens); lia.
Qed.

Lemma clamp_cached_idempotent cached_tokens input_tokens :
  clamp_cached (clamp_cached cached_tokens input_tokens) input_tokens
  = clamp_cached cached_tokens input_tokens.
Proof. unfold clamp_cached. lia. Qed.

(** [estimate_cost] sees [cached_tokens] through the clamp only. *)
Lemma estimate_cost_clamp table model input_tokens output_tokens cached_tokens cached_tokens' :
  clamp_cached cached_tokens input_tokens = clamp_cached cached_tokens' input_tokens ->
  estimate_cost table model input_tokens output_tokens cached_tokens
  = estimate_cost table model input_tokens output_tokens cached_tokens'.
Proof.
  intros Hc. unfold estimate_cost.
  destruct (resolve_pricing table model) as [[provider pricing]|e]; [|reflexivity].
  unfold total_cost. cbv zeta. rewrite Hc. reflexivity.
Qed.

(** C5: with [input_tokens] a count, so not negative, [estimate_cost]
    behaves as if [cached_tokens] were clamped into [0, input_tokens]: its
    result is the result for the clamped value, the clamped value lies in
    the interval, the uncached count is not negative, and 500 cached
    tokens out of 100 cost what 100 out of 100 cost. *)
Theorem cached_tokens_clamped table model input_tokens output_tokens cached_tokens :
  0 <= input_tokens ->
  let clamped :=
    if cached_tokens <? 0 then 0
    else if input_tokens <? cached_tokens then input_tokens
    else cached_tokens in
  estimate_cost table model input_tokens output_tokens cached_tokens
  = estimate_cost table model input_tokens output_tokens clamped /\
  clamp_cached cached_tokens input_tokens = clamped /\
  0 <= clamped <= input_tokens /\
  0 <= input_tokens - clamp_cached cached_tokens input_tokens /\
  estimate_cost table model 100 0 500 = estimate_cost table model 100 0 100.
Proof.
  intros Hi clamped. subst clamped. rewrite <- (clamp_cached_cases _ _ Hi).
  split; [|split; [|split; [|split]]].
  - apply estimate_cost_clamp. symmetry. apply clamp_cached_idempotent.
  - reflexivity.
  - unfold clamp_cached. lia.
  - unfold clamp_cached. lia.
  - apply estimate_cost_clamp. reflexivity.
Qed.

Lemma cached_tokens_clamped_witness :
  0 <= 100 /\
  estimate_cost DEFAULT_PRICING "gpt-5.2" 100 0 500
  = estimate_cost DEFAULT_PRICING "gpt-5.2" 100 0 100 /\
  0 <= 100 - clamp_cached 500 100.
Proof.
  split; [lia|]. split.
  - apply (cached_tokens_clamped DEFAULT_PRICING "gpt-5.2" 100 0 500). lia.
  - apply (cached_tokens_clamped DEFAULT_PRICING "gpt-5.2" 100 0 500). lia.
Defined.

(** Carried out over the rationals, the estimate with all input cached
    is [I/1e6 * input_rate * (1 - discount) + O/1e6 * output_rate]. *)
Lemma fully_cached_exact table model (I O : Z) :
  resolvable table model = true ->
  0 <= I ->
  exists provider pricing cost discount,
    resolve_pricing table model = Ok (provider, pricing) /\
    estimate_cost table model I O I = Ok cost /\
    ((provider = "openai" \/ provider = "anthropic") /\ discount = 0.90%Q \/
     provider = "google" /\ discount = 0.75%Q) /\
    (cost == inject_Z I / 1000000 * Py.get pricing "input" 0 * (1 - discount)
             + inject_Z O / 1000000 * Py.get pricing "output" 0)%Q.
Proof.
  intros Hres HI.
  destruct (resolvable_resolves _ _ Hres) as (provider & pricing & Hr).
  exists provider, pricing,
    (total_cost provider pricing I O I), (cache_discount provider).
  split; [exact Hr|]. split; [unfold estimate_cost; rewrite Hr; reflexivity|].
  split.
  - destruct (cache_discount_recognized provider (resolve_pricing_provider _ _ _ _ Hr))
      as [[Hp ->] | [Hp ->]]; auto.
  - unfold total_cost. cbv zeta.
    replace (clamp_cached I I) with I by (unfold clamp_cached; lia).
    replace (I - I) with 0 by lia.
    change (inject_Z 0) with 0%Q. unfold Qdiv. ring.
Qed.

(** A negative input count is another matter: the clamp takes the cached
    count to 0 and the whole input is priced at the full rate. *)
Remark fully_cached_negative_input :
  match estimate_cost DEFAULT_PRICING "gpt-5.2" (-1000) 0 (-1000) with
  | Ok cost => (cost == inject_Z (-1000) / 1000000 * 1.75)%Q
  | Raise _ => False
  end.
Proof. vm_compute. reflexivity. Qed.

(** [test_estimate_tokens] and [test_estimate_cost] of the unit tests. *)
Example test_estimate_tokens : estimate_tokens "Hello, world!" = 3 /\ estimate_tokens "" = 0.
Proof. split; reflexivity. Qed.

Example test_estimate_cost :
  exists cost_instant cost_standard cost_gemini,
    estimate_cost DEFAULT_PRICING "gpt-5.2-instant" 1000 500 0 = Ok cost_instant /\
    estimate_cost DEFAULT_PRICING "gpt-5.2" 1000 500 0 = Ok cost_standard /\
    estimate_cost DEFAULT_PRICING "gemini-3-flash-preview" 1000 500 0 = Ok cost_gemini /\
    (0 < cost_instant)%Q /\ (cost_instant < cost_standard)%Q /\
    (cost_gemini < cost_instant)%Q.
Proof.
  do 3 eexists. repeat split; try (vm_compute; reflexivity).
Qed.

(** The estimate of the specification's scenario: 1000 input and 500
    output tokens at 1.75 and 14.00 USD per million. *)
Example estimate_cost_scenario :
  exists cost, estimate_cost DEFAULT_PRICING "gpt-5.2" 1000 500 0 = Ok cost
               /\ (cost == 0.00875)%Q.
Proof. eexists. split; [vm_compute; reflexivity | reflexivity]. Qed.

Lemma int_floor (x : Q) : (0 <= x)%Q -> Py.int x = Qfloor x.
Proof.
  destruct x as [n d]. unfold Py.int, Qfloor, Qle. simpl. intros Hn.
  apply Z.quot_div_nonneg; lia.
Qed.

Lemma ratio_in_range (cached_ratio : Q) :
  Qle_bool 0 cached_ratio && Qle_bool cached_ratio 1 = true
  <-> (0 <= cached_ratio <= 1)%Q.
Proof. rewrite andb_true_iff, !Qle_bool_iff. reflexivity. Qed.

Lemma estimate_tokens_nonneg (text : string) : 0 <= estimate_tokens text.
Proof. unfold estimate_tokens. case_bool_decide; lia. Qed.


(** What a breakdown that [estimate_cost_from_text] returns holds. *)
Lemma estimate_cost_from_text_ok table model input_text expected_output_tokens
    cached_ratio breakdown :
  estimate_cost_from_text table model input_text expected_output_tokens cached_ratio
  = Ok breakdown ->
  (0 <= cached_ratio <= 1)%Q /\
  exists provider pricing,
    resolve_pricing table model = Ok (provider, pricing) /\
    breakdown = CostBreakdown model (estimate_tokens input_text) expected_output_tokens
                  (Py.int (inject_Z (estimate_tokens input_text) * cached_ratio))
                  (total_cost provider pricing (estimate_tokens input_text)
                     expected_output_tokens
                     (Py.int (inject_Z (estimate_tokens input_text) * cached_ratio)))
                  (Py.contains "pro" (Py.lower model)).
Proof.
  unfold estimate_cost_from_text, estimate_cost.
  destruct (Qle_bool 0 cached_ratio && Qle_bool cached_ratio 1) eqn:Hv; simpl; [|discriminate].
  apply ratio_in_range in Hv.
  destruct (resolve_pricing table model) as [[provider pricing]|e]; [|discriminate].
  intros [= <-]. split; [exact Hv|]. exists provider, pricing. split; reflexivity.
Qed.






(** In [costs.py] the flag is computed from the model name; the pricing
    table has no part in it. *)
Lemma is_estimated_from_name table model input_text expected_output_tokens cached_ratio flag :
  is_estimated_of
    (estimate_cost_from_text table model input_text expected_output_tokens cached_ratio)
  = Some flag ->
  flag = Py.contains "pro" (Py.lower model).
Proof.
  unfold is_estimated_of.
  destruct (estimate_cost_from_text table model input_text expected_output_tokens cached_ratio)
    as [breakdown|e] eqn:Hok; [|discriminate].
  destruct (estimate_cost_from_text_ok _ _ _ _ _ _ Hok) as (_ & provider & pricing & _ & ->).
  intros [= <-]. reflexivity.
Qed.

(** In [cost_tracker.py] the flag is the [is_estimated] key of the
    model's price dict. *)
Lemma tracker_is_estimated_from_pricing model input_text expected_output_tokens
    cached_ratio flag :
  is_estimated_of
    (CostTracker.estimate_cost_from_text model input_text expected_output_tokens cached_ratio)
  = Some flag ->
  exists pricing,
    CostTracker.PRICING !! model = Some pricing /\
    flag = default true (CostTracker.is_estimated_key pricing).
Proof.
  unfold is_estimated_of, CostTracker.estimate_cost_from_text, CostTracker.estimate_cost.
  destruct (negb _); [discriminate|].
  destruct (CostTracker.PRICING !! model) as [pricing|]; [|discriminate].
  intros [= <-]. exists pricing. split; reflexivity.
Qed.

(** C7, the code at the failing inputs: [costs.py] reports the Claude
    price, which [cost_tracker.py] records as estimated and reports so, as
    not estimated; and it reports the price of [gemini-pro] as estimated
    because of the letters of its name. *)
Theorem is_estimated_recomputed :
  is_estimated_of (estimate_cost_from_text DEFAULT_PRICING "claude" "Review this diff" 1000 0)
  = Some false /\
  is_estimated_of (CostTracker.estimate_cost_from_text "claude" "Review this diff" 1000 0)
  = Some true /\
  is_estimated_of
    (estimate_cost_from_text DEFAULT_PRICING "gemini-pro" "Review this diff" 1000 0)
  = Some true.
Proof. repeat split; vm_compute; reflexivity. Qed.

End CostsFacts.


(** ** The model registry *)

Module ModelsFacts.

Import Models.

(** A lookup that succeeds in a dict literal is one of its items. *)
Ltac items_of H :=
  unfold OPENAI_MODELS, OPENAI_ALIASES, GEMINI_MODELS, GEMINI_ALIASES,
    CLAUDE_MODELS, CLAUDE_ALIASES, display_names, chars in H;
  apply elem_of_list_to_map_2 in H;
  repeat (apply elem_of_cons in H as [H|H]; [simplify_eq|]);
  try (apply elem_of_nil in H; destruct H).

Ltac in_list :=
  repeat first [apply list_elem_of_here | apply list_elem_of_further].

(** The cases of a membership in a list literal. *)
Ltac cases_of H :=
  repeat (apply elem_of_cons in H as [H|H]; [simplify_eq|]);
  try (apply elem_of_nil in H; destruct H).

Lemma normalize_model_name_cases model provider api_model :
  normalize_model_name model = Ok (provider, api_model) ->
  (model, (provider, api_model)) ∈ normalizations.
Proof.
  unfold normalize_model_name, with_provider, via_alias, subscript.
  repeat case_bool_decide;
    repeat match goal with
           | |- context [match ?m !! ?k with _ => _ end] =>
               let E := fresh "E" in destruct (m !! k) eqn:E
           end;
    intros [= <- <-] || discriminate.
  all: repeat match goal with H : _ !! _ = Some _ |- _ => items_of H end.
  all: unfold normalizations; in_list.
Qed.

Lemma normalizations_normalize model provider api_model :
  (model, (provider, api_model)) ∈ normalizations ->
  normalize_model_name model = Ok (provider, api_model).
Proof. intros H. unfold normalizations in H. cases_of H; vm_compute; reflexivity. Qed.

Ltac decide_is_Some :=
  repeat (let Hb := fresh "Hb" in
          case_bool_decide as Hb;
          [ try (destruct Hb as [? Hb]; discriminate Hb)
          | try (exfalso; apply Hb; solve [eauto]) ]).

(** [normalize_model_name] returns what its first successful dict test
    finds: the target of an alias is always a key of the registry, so the
    second subscript never raises. *)
Lemma normalize_model_name_lookup model :
  normalize_model_name model = registry_lookup model.
Proof.
  unfold normalize_model_name, registry_lookup.
  destruct (OPENAI_MODELS !! model) as [v1|] eqn:E1.
  { decide_is_Some. unfold with_provider, subscript. rewrite E1. reflexivity. }
  destruct (OPENAI_ALIASES !! model) as [t2|] eqn:E2.
  { decide_is_Some. unfold with_provider, via_alias, subscript. rewrite E2.
    clear E1. items_of E2; vm_compute; reflexivity. }
  destruct (GEMINI_MODELS !! model) as [v3|] eqn:E3.
  { decide_is_Some. unfold with_provider, subscript. rewrite E3. reflexivity. }
  destruct (GEMINI_ALIASES !! model) as [t4|] eqn:E4.
  { decide_is_Some. unfold with_provider, via_alias, subscript. rewrite E4.
    clear E1 E2 E3. items_of E4; vm_compute; reflexivity. }
  destruct (CLAUDE_MODELS !! model) as [v5|] eqn:E5.
  { decide_is_Some. unfold with_provider, subscript. rewrite E5. reflexivity. }
  destruct (CLAUDE_ALIASES !! model) as [t6|] eqn:E6.
  { decide_is_Some. unfold with_provider, via_alias, subscript. rewrite E6.
    clear E1 E2 E3 E4 E5. items_of E6; vm_compute; reflexivity. }
  decide_is_Some. reflexivity.
Qed.

Lemma get_provider_for_model_lookup model :
  get_provider_for_model model
  = match registry_lookup model with
    | Ok (provider, _) => Some provider
    | Raise _ => None
    end.
Proof.
  unfold get_provider_for_model, registry_lookup.
  destruct (OPENAI_MODELS !! model), (OPENAI_ALIASES !! model),
    (GEMINI_MODELS !! model), (GEMINI_ALIASES !! model),
    (CLAUDE_MODELS !! model), (CLAUDE_ALIASES !! model);
    decide_is_Some; reflexivity.
Qed.

(** X1: [get_provider_for_model] and [normalize_model_name] agree: the
    one returns the provider the other returns, and it returns [None]
    exactly when the other raises, which it does with the [ValueError] for
    an unknown model and never with a [KeyError]. *)
Theorem get_provider_for_model_normalize model :
  match normalize_model_name model with
  | Ok (provider, _) => get_provider_for_model model = Some provider
  | Raise e =>
      get_provider_for_model model = None /\ e = ValueError ("Unknown model: " ++ model)
  end.
Proof.
  rewrite normalize_model_name_lookup, get_provider_for_model_lookup.
  unfold registry_lookup.
  destruct (OPENAI_MODELS !! model), (OPENAI_ALIASES !! model),
    (GEMINI_MODELS !! model), (GEMINI_ALIASES !! model),
    (CLAUDE_MODELS !! model), (CLAUDE_ALIASES !! model);
    try reflexivity.
  split; reflexivity.
Qed.

(** X2: what [normalize_model_name] returns is normal: the API name it
    returns normalizes to itself under the same provider, and is one of
    the names [list_all_models] lists for that provider. *)
Theorem normalize_model_name_idempotent model provider api_model :
  normalize_model_name model = Ok (provider, api_model) ->
  normalize_model_name api_model = Ok (provider, api_model) /\
  exists models, (provider, models) ∈ list_all_models /\ api_model ∈ models.
Proof.
  intros Hn. apply normalize_model_name_cases in Hn. unfold normalizations in Hn.
  cases_of Hn; (split; [vm_compute; reflexivity|]);
    eexists; (split; [unfold list_all_models; in_list | in_list]).
Qed.

Lemma normalize_model_name_idempotent_witness :
  normalize_model_name "gpt-5.2-chat-latest" = Ok ("openai", "gpt-5.2-chat-latest") /\
  exists models, ("openai", models) ∈ list_all_models /\ "gpt-5.2-chat-latest" ∈ models.
Proof.
  apply (normalize_model_name_idempotent "gpt-instant" "openai" "gpt-5.2-chat-latest").
  vm_compute. reflexivity.
Defined.

(** X3: every alias of [list_all_aliases] resolves: [normalize_model_name]
    returns the alias's target, under the provider whose alias dict holds
    it, and the alias is not itself a registry name. *)
Theorem list_all_aliases_resolve alias target :
  list_all_aliases !! alias = Some target ->
  exists provider,
    normalize_model_name alias = Ok (provider, target) /\
    (provider = "openai" /\ OPENAI_ALIASES !! alias = Some target \/
     provider = "google" /\ GEMINI_ALIASES !! alias = Some target \/
     provider = "anthropic" /\ CLAUDE_ALIASES !! alias = Some target) /\
    normalize_model_name target = Ok (provider, target) /\
    alias <> target.
Proof.
  unfold list_all_aliases. intros H.
  apply lookup_union_Some_raw in H as [H | [_ H]];
    [|apply lookup_union_Some_raw in H as [H | [_ H]];
      [|apply lookup_union_Some_raw in H as [H | [_ H]];
        [|rewrite lookup_empty in H; discriminate H]]].
  all: items_of H.
  all: eexists; split; [vm_compute; reflexivity|];
    split; [|split; [vm_compute; reflexivity | discriminate]].
  all: first
    [ left; split; [reflexivity|]; apply (bool_decide_unpack _); vm_compute; exact I
    | right; left; split; [reflexivity|]; apply (bool_decide_unpack _); vm_compute; exact I
    | right; right; split; [reflexivity|]; apply (bool_decide_unpack _); vm_compute; exact I ].
Qed.

Lemma list_all_aliases_resolve_witness :
  exists provider,
    normalize_model_name "gpt-5.2-instant" = Ok (provider, "gpt-5.2-chat-latest") /\
    (provider = "openai" /\ OPENAI_ALIASES !! "gpt-5.2-instant" = Some "gpt-5.2-chat-latest" \/
     provider = "google" /\ GEMINI_ALIASES !! "gpt-5.2-instant" = Some "gpt-5.2-chat-latest" \/
     provider = "anthropic"
     /\ CLAUDE_ALIASES !! "gpt-5.2-instant" = Some "gpt-5.2-chat-latest") /\
    normalize_model_name "gpt-5.2-chat-latest" = Ok (provider, "gpt-5.2-chat-latest") /\
    "gpt-5.2-instant" <> "gpt-5.2-chat-latest".
Proof.
  apply (list_all_aliases_resolve "gpt-5.2-instant" "gpt-5.2-chat-latest").
  apply (bool_decide_unpack _). vm_compute. exact I.
Defined.

(** X4: the display names and the characteristics cover the registry and
    nothing else: a name has characteristics other than the defaults for
    an unknown model, and a display name of its own, exactly when it is
    an API name of the registry; any other name gets the default
    characteristics and is displayed as it is. *)
Theorem registry_models_described api_model :
  let in_registry :=
    exists provider, normalize_model_name api_model = Ok (provider, api_model) in
  (in_registry <-> is_Some (chars !! api_model)) /\
  (in_registry <-> is_Some (display_names !! api_model)) /\
  (in_registry ->
     get_model_characteristics api_model <> unknown_characteristics /\
     get_model_display_name api_model <> api_model) /\
  (~ in_registry ->
     get_model_characteristics api_model = unknown_characteristics /\
     get_model_display_name api_model = api_model).
Proof.
  intros in_registry.
  assert (Hchars : in_registry <-> is_Some (chars !! api_model)).
  { split.
    - intros [provider Hn]. apply normalize_model_name_cases in Hn.
      unfold normalizations in Hn.
      cases_of Hn; apply (bool_decide_unpack _); vm_compute; exact I.
    - intros [c Hc]. items_of Hc; eexists; vm_compute; reflexivity. }
  assert (Hnames : in_registry <-> is_Some (display_names !! api_model)).
  { split.
    - intros [provider Hn]. apply normalize_model_name_cases in Hn.
      unfold normalizations in Hn.
      cases_of Hn; apply (bool_decide_unpack _); vm_compute; exact I.
    - intros [c Hc]. items_of Hc; eexists; vm_compute; reflexivity. }
  split; [exact Hchars|]. split; [exact Hnames|]. split.
  - intros [provider Hn]. apply normalize_model_name_cases in Hn.
    unfold normalizations in Hn.
    cases_of Hn; split; vm_compute; discriminate.
  - intros Hout. unfold get_model_characteristics, get_model_display_name.
    destruct (chars !! api_model) eqn:Hc;
      [exfalso; apply Hout, Hchars; eauto|].
    destruct (display_names !! api_model) eqn:Hd;
      [exfalso; apply Hout, Hnames; eauto|].
    split; reflexivity.
Qed.

End ModelsFacts.
(** ** The pricing store: loading, updating and what the defaults cover *)

Module PricingStoreFacts.

Import Models Pricing Costs.
Import ModelsFacts Checks.




Lemma normalizations_priced : forallb priced_by_defaults normalizations = true.
Proof. vm_compute. reflexivity. Qed.

Lemma Qle_bool_false (x y : Q) : Qle_bool x y = false -> (y < x)%Q.
Proof.
  intros H. apply Qnot_le_lt. intros Hle. apply Qle_bool_iff in Hle. congruence.
Qed.

Lemma registry_priced model provider api_model :
  normalize_model_name model = Ok (provider, api_model) ->
  exists entry,
    providers DEFAULT_PRICING !! provider ≫= (.!! api_model) = Some entry /\
    get_model_pricing DEFAULT_PRICING provider api_model = Some entry /\
    is_Some (entry !! "input") /\ is_Some (entry !! "output") /\
    (0 < Py.get entry "input" 0 < Py.get entry "output" 0)%Q.
Proof.
  intros Hn. apply normalize_model_name_cases in Hn.
  pose proof normalizations_priced as Hall. rewrite forallb_forall in Hall.
  apply list_elem_of_In in Hn. specialize (Hall _ Hn). unfold priced_by_defaults in Hall.
  destruct (providers DEFAULT_PRICING !! provider ≫= (.!! api_model)) as [entry|] eqn:He;
    [|discriminate].
  rewrite !andb_true_iff, !negb_true_iff, !bool_decide_eq_true in Hall.
  destruct Hall as [[[Hi Ho] Hpos] Hlt].
  exists entry. split; [reflexivity|]. split; [|split; [exact Hi|split; [exact Ho|]]].
  - unfold get_model_pricing. cbv zeta.
    destruct (providers DEFAULT_PRICING !! provider) as [pp|]; [|discriminate He].
    simpl in He |- *. rewrite He. reflexivity.
  - split; apply Qle_bool_false; assumption.
Qed.

Lemma normalize_model_name_raises model e :
  normalize_model_name model = Raise e -> e = ValueError ("Unknown model: " ++ model).
Proof.
  rewrite normalize_model_name_lookup. unfold registry_lookup.
  destruct (OPENAI_MODELS !! model), (OPENAI_ALIASES !! model),
    (GEMINI_MODELS !! model), (GEMINI_ALIASES !! model),
    (CLAUDE_MODELS !! model), (CLAUDE_ALIASES !! model);
    try discriminate.
  intros [= <-]. reflexivity.
Qed.

(** X7: the embedded price table covers the model registry. Every name
    [normalize_model_name] accepts is priced by an entry of its own under
    its provider, which [get_model_pricing] returns without falling back
    to the provider's default model; the entry has both prices, the input
    price is positive and the output price is higher; and [estimate_cost]
    on the embedded table returns the cost at these prices. So with the
    embedded table [estimate_cost] raises for unknown names only, with
    the message of [normalize_model_name] wrapped once. *)
Theorem default_pricing_covers_registry model input_tokens output_tokens cached_tokens :
  match normalize_model_name model with
  | Ok (provider, api_model) =>
      exists entry,
        providers DEFAULT_PRICING !! provider ≫= (.!! api_model) = Some entry /\
        get_model_pricing DEFAULT_PRICING provider api_model = Some entry /\
        is_Some (entry !! "input") /\ is_Some (entry !! "output") /\
        (0 < Py.get entry "input" 0 < Py.get entry "output" 0)%Q /\
        estimate_cost DEFAULT_PRICING model input_tokens output_tokens cached_tokens
        = Ok (total_cost provider entry input_tokens output_tokens cached_tokens)
  | Raise _ =>
      estimate_cost DEFAULT_PRICING model input_tokens output_tokens cached_tokens
      = Raise (ValueError ("Unknown model '" ++ model ++ "': Unknown model: " ++ model))
  end.
Proof.
  destruct (normalize_model_name model) as [[provider api_model]|e] eqn:Hn.
  - destruct (registry_priced _ _ _ Hn) as (entry & He & Hg & Hi & Ho & Hp).
    exists entry. repeat (split; [assumption|]).
    unfold estimate_cost, resolve_pricing. rewrite Hn, Hg.
    case_bool_decide as Hsize; [|reflexivity].
    apply map_size_empty_inv in Hsize. subst entry. destruct Hi as [? Hi].
    rewrite lookup_empty in Hi. discriminate Hi.
  - pose proof (normalize_model_name_raises _ _ Hn) as ->.
    unfold estimate_cost, resolve_pricing. rewrite Hn. reflexivity.
Qed.

End PricingStoreFacts.

(** ** The cost estimator: monotonicity, additivity and the token estimate *)

Module CostBoundsFacts.

Import Models Pricing Costs.
Import CostsFacts.

Lemma cache_discount_range provider :
  recognized provider -> (0 <= cache_discount provider <= 1)%Q.
Proof.
  intros Hrec.
  destruct (cache_discount_recognized provider Hrec) as [[_ ->] | [_ ->]];
    split; discriminate.
Qed.

Lemma prices_nonneg_resolved table model provider pricing :
  prices_nonneg table model = true ->
  resolve_pricing table model = Ok (provider, pricing) ->
  (0 <= Py.get pricing "input" 0)%Q /\ (0 <= Py.get pricing "output" 0)%Q.
Proof.
  unfold prices_nonneg. intros Hp Hr. rewrite Hr in Hp.
  apply andb_true_iff in Hp as [Hi Ho]. rewrite !Qle_bool_iff in *. auto.
Qed.

(** [total_cost] with the token counts apart from the prices. *)
Lemma total_cost_expand provider pricing input_tokens output_tokens cached_tokens :
  (total_cost provider pricing input_tokens output_tokens cached_tokens
   == (inject_Z input_tokens * Py.get pricing "input" 0
       - inject_Z (clamp_cached cached_tokens input_tokens)
         * (Py.get pricing "input" 0 * cache_discount provider)
       + inject_Z output_tokens * Py.get pricing "output" 0) / 1000000)%Q.
Proof.
  unfold total_cost. cbv zeta. unfold Zminus.
  rewrite inject_Z_plus, inject_Z_opp. field.
Qed.

Lemma total_cost_expand_uncached provider pricing input_tokens output_tokens :
  (total_cost provider pricing input_tokens output_tokens 0
   == inject_Z input_tokens * Py.get pricing "input" 0 / 1000000
      + inject_Z output_tokens * Py.get pricing "output" 0 / 1000000)%Q.
Proof.
  rewrite total_cost_expand.
  replace (clamp_cached 0 input_tokens) with 0 by (unfold clamp_cached; lia).
  change (inject_Z 0) with 0%Q. field.
Qed.

Lemma inject_Z_sub_le (a b c d : Z) :
  a - b <= c - d -> (inject_Z a - inject_Z b <= inject_Z c - inject_Z d)%Q.
Proof.
  intros H. unfold Qminus. rewrite <- !inject_Z_opp, <- !inject_Z_plus, <- Zle_Qle. lia.
Qed.

(** X8: [estimate_cost] is monotone when the prices are not negative:
    fewer input tokens, fewer output tokens and more cached tokens never
    cost more. In particular caching never raises a cost. *)
Theorem estimate_cost_monotone table model input_tokens input_tokens'
    output_tokens output_tokens' cached_tokens cached_tokens' cost cost' :
  prices_nonneg table model = true ->
  input_tokens <= input_tokens' -> output_tokens <= output_tokens' ->
  cached_tokens' <= cached_tokens ->
  estimate_cost table model input_tokens output_tokens cached_tokens = Ok cost ->
  estimate_cost table model input_tokens' output_tokens' cached_tokens' = Ok cost' ->
  (cost <= cost')%Q.
Proof.
  intros Hp Hi Ho Hc. unfold estimate_cost.
  destruct (resolve_pricing table model) as [[provider pricing]|e] eqn:Hr; [|discriminate].
  intros [= <-] [= <-].
  destruct (prices_nonneg_resolved _ _ _ _ Hp Hr) as [Hpi Hpo].
  destruct (cache_discount_range provider (resolve_pricing_provider _ _ _ _ Hr)) as [Hd0 Hd1].
  rewrite !total_cost_expand.
  set (k := clamp_cached cached_tokens input_tokens).
  set (k' := clamp_cached cached_tokens' input_tokens').
  assert (Hk : k' - k <= input_tokens' - input_tokens) by (unfold k, k', clamp_cached; lia).
  set (p := Py.get pricing "input" 0) in *. set (q := Py.get pricing "output" 0) in *.
  set (d := cache_discount provider) in *.
  pose proof (inject_Z_sub_le 0 0 input_tokens' input_tokens ltac:(lia)) as Hdi.
  pose proof (inject_Z_sub_le 0 0 output_tokens' output_tokens ltac:(lia)) as Hdo.
  pose proof (inject_Z_sub_le k' k input_tokens' input_tokens Hk) as Hdk.
  assert (Hdi' : (0 <= inject_Z input_tokens' - inject_Z input_tokens)%Q) by lra.
  assert (Hdo' : (0 <= inject_Z output_tokens' - inject_Z output_tokens)%Q) by lra.
  assert (Hdk' : (0 <= inject_Z input_tokens' - inject_Z input_tokens
                      - (inject_Z k' - inject_Z k))%Q) by lra.
  assert (H1 : (0 <= 1 - d)%Q) by lra.
  pose proof (Qmult_le_0_compat _ _ Hdi' (Qmult_le_0_compat _ _ Hpi H1)) as M1.
  pose proof (Qmult_le_0_compat _ _ Hdk' (Qmult_le_0_compat _ _ Hpi Hd0)) as M2.
  pose proof (Qmult_le_0_compat _ _ Hdo' Hpo) as M3.
  apply Qmult_le_compat_r; [|discriminate].
  clearbody p q d k k'. lra.
Qed.

Lemma estimate_cost_monotone_witness :
  match estimate_cost DEFAULT_PRICING "gemini" 1000 100 800,
        estimate_cost DEFAULT_PRICING "gemini" 2000 100 0 with
  | Ok cost, Ok cost' => (cost <= cost')%Q
  | _, _ => False
  end.
Proof.
  destruct (estimate_cost DEFAULT_PRICING "gemini" 1000 100 800) as [cost|e] eqn:H1;
    [|vm_compute in H1; discriminate H1].
  destruct (estimate_cost DEFAULT_PRICING "gemini" 2000 100 0) as [cost'|e] eqn:H2;
    [|vm_compute in H2; discriminate H2].
  apply (estimate_cost_monotone DEFAULT_PRICING "gemini" 1000 2000 100 100 800 0 cost cost');
    [vm_compute; reflexivity | lia | lia | lia | exact H1 | exact H2].
Defined.

(** X9: [estimate_cost] is additive over calls: when in each of two
    calls the cached count lies between 0 and the input count, the cost
    of the summed token counts is the sum of the two costs, so a total
    taken over a usage log can be priced call by call or at once. *)
Theorem estimate_cost_additive table model input_tokens input_tokens'
    output_tokens output_tokens' cached_tokens cached_tokens' cost cost' total :
  0 <= cached_tokens <= input_tokens -> 0 <= cached_tokens' <= input_tokens' ->
  estimate_cost table model input_tokens output_tokens cached_tokens = Ok cost ->
  estimate_cost table model input_tokens' output_tokens' cached_tokens' = Ok cost' ->
  estimate_cost table model (input_tokens + input_tokens') (output_tokens + output_tokens')
    (cached_tokens + cached_tokens') = Ok total ->
  (total == cost + cost')%Q.
Proof.
  intros Hc Hc'. unfold estimate_cost.
  destruct (resolve_pricing table model) as [[provider pricing]|e]; [|discriminate].
  intros [= <-] [= <-] [= <-]. rewrite !total_cost_expand.
  replace (clamp_cached cached_tokens input_tokens) with cached_tokens
    by (unfold clamp_cached; lia).
  replace (clamp_cached cached_tokens' input_tokens') with cached_tokens'
    by (unfold clamp_cached; lia).
  replace (clamp_cached (cached_tokens + cached_tokens') (input_tokens + input_tokens'))
    with (cached_tokens + cached_tokens') by (unfold clamp_cached; lia).
  rewrite !inject_Z_plus. field.
Qed.

Lemma estimate_cost_additive_witness :
  match estimate_cost DEFAULT_PRICING "claude" 1000 100 800,
        estimate_cost DEFAULT_PRICING "claude" 2000 300 0,
        estimate_cost DEFAULT_PRICING "claude" (1000 + 2000) (100 + 300) (800 + 0) with
  | Ok cost, Ok cost', Ok total => (total == cost + cost')%Q
  | _, _, _ => False
  end.
Proof.
  destruct (estimate_cost DEFAULT_PRICING "claude" 1000 100 800) as [cost|e] eqn:H1;
    [|vm_compute in H1; discriminate H1].
  destruct (estimate_cost DEFAULT_PRICING "claude" 2000 300 0) as [cost'|e] eqn:H2;
    [|vm_compute in H2; discriminate H2].
  destruct (estimate_cost DEFAULT_PRICING "claude" (1000 + 2000) (100 + 300) (800 + 0))
    as [total|e] eqn:H3; [|vm_compute in H3; discriminate H3].
  apply (estimate_cost_additive DEFAULT_PRICING "claude" 1000 2000 100 300 800 0
           cost cost' total); [lia | lia | exact H1 | exact H2 | exact H3].
Defined.

Lemma len_nonneg (s : string) : 0 <= Py.len s.
Proof.
  induction s as [|c s IH]; simpl; [lia|].
  destruct (_ && _); lia.
Qed.

Lemma len_app (s t : string) : Py.len (s ++ t) = Py.len s + Py.len t.
Proof.
  induction s as [|c s IH]; simpl; [reflexivity|]. rewrite IH. lia.
Qed.

(** X10: the token estimate of [estimate_tokens]: it is 0 for the empty
    text only and at least 1 otherwise; four times the estimate is within
    3 below the number of characters and, from 4 characters on, not above
    it; and text appended never lowers the estimate. *)
Theorem estimate_tokens_bounds (text suffix : string) :
  (estimate_tokens text = 0 <-> text = "") /\
  Py.len text - 3 <= 4 * estimate_tokens text <= Z.max 4 (Py.len text) /\
  estimate_tokens text <= estimate_tokens (text ++ suffix)
                       <= estimate_tokens text + estimate_tokens suffix + 1.
Proof.
  pose proof (len_nonneg text) as Hl. pose proof (len_nonneg suffix) as Hs.
  pose proof (len_app text suffix) as Happ.
  unfold estimate_tokens, CHARS_PER_TOKEN.
  destruct text as [|c text].
  - change ("" ++ suffix) with suffix.
    rewrite (bool_decide_eq_true_2 ("" = "")) by reflexivity.
    split; [tauto|]. split; [simpl; lia|]. case_bool_decide; lia.
  - rewrite (bool_decide_eq_false_2 (String c text = "")) by discriminate.
    rewrite (bool_decide_eq_false_2 (String c text ++ suffix = "")) by discriminate.
    assert (Hm0 : suffix = "" -> Py.len suffix = 0) by (intros ->; reflexivity).
    rewrite Happ. set (n := Py.len (String c text)) in *. clearbody n.
    set (m := Py.len suffix) in *. clearbody m.
    pose proof (Z.div_mod n 4 ltac:(lia)). pose proof (Z.mod_pos_bound n 4 ltac:(lia)).
    pose proof (Z.div_mod m 4 ltac:(lia)). pose proof (Z.mod_pos_bound m 4 ltac:(lia)).
    pose proof (Z.div_mod (n + m) 4 ltac:(lia)).
    pose proof (Z.mod_pos_bound (n + m) 4 ltac:(lia)).
    split; [split; [lia | discriminate]|].
    split; [lia|]. case_bool_decide as Hsuf; [specialize (Hm0 Hsuf)|]; lia.
Qed.

End CostBoundsFacts.

(** ** The provider adapters and the older estimator against [costs.py] *)

Module ProvidersFacts.

Import Models Pricing Costs.
Import Checks ModelsFacts CostsFacts PricingFacts CostBoundsFacts.

(** X11: what a provider bills and what [costs.estimate_cost] estimates.
    For a model that normalizes to the provider's API name, the cost
    [Provider.estimate_cost] computes for a response raises (for want of
    a price dict) exactly when [get_model_pricing] has nothing for the
    model; when the estimator resolves the model, the two costs are equal
    for a call without cached tokens; and with the embedded table the
    provider's cost never raises, whatever the model string. *)
Theorem provider_cost_agrees table p model api_model input_tokens output_tokens :
  normalize_model_name model = Ok (Providers.provider_name p, api_model) ->
  (Providers.estimate_cost table p input_tokens output_tokens api_model = None
   <-> get_model_pricing table (Providers.provider_name p) api_model = None) /\
  (resolvable table model = true ->
   exists billed estimated,
     Providers.estimate_cost table p input_tokens output_tokens api_model = Some billed /\
     Costs.estimate_cost table model input_tokens output_tokens 0 = Ok estimated /\
     (billed == estimated)%Q) /\
  (forall any_model,
     is_Some (Providers.estimate_cost DEFAULT_PRICING p input_tokens output_tokens any_model)).
Proof.
  intros Hn.
  assert (Hinfo : forall t m,
    Providers.info_pricing (Providers.get_model_info t p m)
    = get_model_pricing t (Providers.provider_name p) m) by (intros; destruct p; reflexivity).
  split; [|split].
  - unfold Providers.estimate_cost. cbv zeta. rewrite Hinfo.
    destruct (get_model_pricing table (Providers.provider_name p) api_model);
      simpl; split; congruence.
  - intros Hres. unfold resolvable in Hres.
    unfold Costs.estimate_cost, Providers.estimate_cost. cbv zeta. rewrite Hinfo.
    unfold resolve_pricing in *. rewrite Hn in *.
    destruct (get_model_pricing table (Providers.provider_name p) api_model)
      as [pricing|]; [|discriminate Hres].
    case_bool_decide; [discriminate Hres|].
    eexists _, _. split; [reflexivity|]. split; [reflexivity|].
    rewrite total_cost_expand_uncached. field.
  - intros any_model. unfold Providers.estimate_cost. cbv zeta. rewrite Hinfo.
    destruct (default_pricing_resolves (Providers.provider_name p) any_model) as [pricing ->].
    + destruct p; unfold recognized; simpl; auto.
    + simpl. eauto.
Qed.

Lemma provider_cost_agrees_witness :
  (Providers.estimate_cost DEFAULT_PRICING Providers.GoogleProvider 1000 500
     "gemini-3-flash-preview" = None
   <-> get_model_pricing DEFAULT_PRICING "google" "gemini-3-flash-preview" = None) /\
  (resolvable DEFAULT_PRICING "gemini" = true ->
   exists billed estimated,
     Providers.estimate_cost DEFAULT_PRICING Providers.GoogleProvider 1000 500
       "gemini-3-flash-preview" = Some billed /\
     Costs.estimate_cost DEFAULT_PRICING "gemini" 1000 500 0 = Ok estimated /\
     (billed == estimated)%Q) /\
  (forall any_model,
     is_Some (Providers.estimate_cost DEFAULT_PRICING Providers.GoogleProvider 1000 500
                any_model)).
Proof.
  apply (provider_cost_agrees DEFAULT_PRICING Providers.GoogleProvider "gemini"
           "gemini-3-flash-preview" 1000 500).
  vm_compute. reflexivity.
Defined.

Lemma normalizations_context_window :
  forallb context_window_checked normalizations = true.
Proof. vm_compute. reflexivity. Qed.

Lemma provider_name_inj p p' :
  Providers.provider_name p = Providers.provider_name p' -> p = p'.
Proof. destruct p, p'; simpl; intros [=]; reflexivity. Qed.

(** X12: the context window a provider's [get_model_info] reports against
    the one [get_model_characteristics] lists. For every API name of the
    registry, under its own provider, the two agree except for
    ["gpt-4o"], for which the OpenAI adapter reports 8192 (the name does
    not start with ["gpt-5"]) and the characteristics list 128000. The
    window reported does not depend on the pricing table. *)
Theorem context_window_agrees table p model api_model :
  normalize_model_name model = Ok (Providers.provider_name p, api_model) ->
  Providers.info_context_window (Providers.get_model_info table p api_model)
  = Providers.info_context_window (Providers.get_model_info DEFAULT_PRICING p api_model) /\
  (api_model <> "gpt-4o" ->
   Providers.info_context_window (Providers.get_model_info table p api_model)
   = context_window (get_model_characteristics api_model)) /\
  (api_model = "gpt-4o" ->
   Providers.info_context_window (Providers.get_model_info table p api_model) = 8192 /\
   context_window (get_model_characteristics api_model) = 128000).
Proof.
  intros Hn.
  assert (Htable : Providers.info_context_window (Providers.get_model_info table p api_model)
    = Providers.info_context_window (Providers.get_model_info DEFAULT_PRICING p api_model))
    by (destruct p; reflexivity).
  split; [exact Htable|]. rewrite Htable.
  pose proof Hn as Hp. apply normalize_model_name_cases, list_elem_of_In in Hn.
  pose proof normalizations_context_window as Hall. rewrite forallb_forall in Hall.
  specialize (Hall _ Hn). unfold context_window_checked in Hall.
  destruct (provider_of (Providers.provider_name p)) as [p'|]; [|discriminate Hall].
  apply andb_true_iff in Hall as [Hname Hsame].
  apply bool_decide_eq_true in Hname, Hsame. apply provider_name_inj in Hname as ->.
  unfold same_context_window in Hsame. split.
  - intros Hne. rewrite (bool_decide_eq_false_2 _ Hne) in Hsame.
    apply bool_decide_eq_true in Hsame. exact Hsame.
  - intros ->. apply normalize_model_name_cases in Hp. unfold normalizations in Hp.
    destruct p; simpl in Hp; [split; reflexivity | cases_of Hp | cases_of Hp].
Qed.

Lemma context_window_agrees_witness :
  Providers.info_context_window
    (Providers.get_model_info override_without_default Providers.OpenAIProvider "gpt-5.2")
  = Providers.info_context_window
      (Providers.get_model_info DEFAULT_PRICING Providers.OpenAIProvider "gpt-5.2") /\
  ("gpt-5.2" <> "gpt-4o" ->
   Providers.info_context_window
     (Providers.get_model_info override_without_default Providers.OpenAIProvider "gpt-5.2")
   = context_window (get_model_characteristics "gpt-5.2")) /\
  ("gpt-5.2" = "gpt-4o" ->
   Providers.info_context_window
     (Providers.get_model_info override_without_default Providers.OpenAIProvider "gpt-5.2")
   = 8192 /\
   context_window (get_model_characteristics "gpt-5.2") = 128000).
Proof.
  apply (context_window_agrees override_without_default Providers.OpenAIProvider "gpt"
           "gpt-5.2").
  vm_compute. reflexivity.
Defined.

End ProvidersFacts.

(** ** The older estimator of [cost_tracker.py] against [costs.py] *)

Module CostTrackerFacts.

Import Models Pricing Costs.
Import Checks ModelsFacts CostsFacts CostBoundsFacts PricingStoreFacts.

Lemma PRICING_items_checked : forallb tracker_price_checked CostTracker.PRICING_items = true.
Proof. vm_compute. reflexivity. Qed.

Lemma inject_Z_pos (n : Z) : 0 < n -> (0 < inject_Z n)%Q.
Proof. intros H. rewrite (Zlt_Qlt 0 n) in H. exact H. Qed.

Lemma inject_Z_nonneg (n : Z) : 0 <= n -> (0 <= inject_Z n)%Q.
Proof. intros H. rewrite (Zle_Qle 0 n) in H. exact H. Qed.

(** Over exact rational arithmetic the two estimators agree on every
    name of [cost_tracker.PRICING] but the two that are repriced, on which
    they differ whenever there is input and nothing is cached. *)
Lemma tracker_agrees_exact model input_tokens output_tokens cached_tokens :
  is_Some (CostTracker.PRICING !! model) ->
  exists tracked estimated,
    CostTracker.estimate_cost model input_tokens output_tokens cached_tokens = Ok tracked /\
    Costs.estimate_cost DEFAULT_PRICING model input_tokens output_tokens cached_tokens
    = Ok estimated /\
    (model <> "gpt-5.2-chat-latest" -> model <> "gpt-5.2-pro" ->
     (tracked == estimated)%Q) /\
    (model = "gpt-5.2-chat-latest" \/ model = "gpt-5.2-pro" ->
     0 < input_tokens -> 0 <= output_tokens -> cached_tokens <= 0 ->
     ~ (tracked == estimated)%Q).
Proof.
  intros [e He]. unfold CostTracker.estimate_cost, Costs.estimate_cost. rewrite He.
  pose proof PRICING_items_checked as Hall. rewrite forallb_forall in Hall.
  apply elem_of_list_to_map_2, list_elem_of_In in He.
  specialize (Hall _ He). unfold tracker_price_checked in Hall. cbv zeta in Hall.
  destruct (resolve_pricing DEFAULT_PRICING model) as [[provider pricing]|err];
    [|discriminate Hall].
  eexists _, _. split; [reflexivity|]. split; [reflexivity|].
  cbv zeta. fold (clamp_cached cached_tokens input_tokens).
  rewrite total_cost_expand.
  set (k := clamp_cached cached_tokens input_tokens).
  set (ti := Py.get (CostTracker.prices e) "input" 0) in *.
  set (to := Py.get (CostTracker.prices e) "output" 0) in *.
  set (tc := Py.get (CostTracker.prices e) "cached" 0) in *.
  set (ci := Py.get pricing "input" 0) in *.
  set (co := Py.get pricing "output" 0) in *.
  set (d := cache_discount provider) in *.
  split.
  - intros Hn1 Hn2. unfold repriced in Hall.
    rewrite (bool_decide_eq_false_2 _ Hn1), (bool_decide_eq_false_2 _ Hn2) in Hall.
    simpl in Hall. rewrite !andb_true_iff in Hall. destruct Hall as [[Hi Ho] Hc].
    apply Qeq_bool_iff in Hi, Ho, Hc. rewrite Hi, Ho, Hc.
    unfold Zminus. rewrite inject_Z_plus, inject_Z_opp. field.
  - intros Hm Hin Hout Hcached.
    assert (Hk : k = 0) by (unfold k, clamp_cached; lia). rewrite Hk.
    replace (input_tokens - 0) with input_tokens by lia. change (inject_Z 0) with 0%Q.
    replace (repriced model) with true in Hall.
    2: { unfold repriced. destruct Hm as [-> | ->]; reflexivity. }
    pose proof (inject_Z_pos _ Hin) as Hi. pose proof (inject_Z_nonneg _ Hout) as Ho.
    rewrite orb_true_iff, !andb_true_iff, !negb_true_iff in Hall.
    clearbody ti to tc ci co d k. intros Heq.
    assert (E : (inject_Z input_tokens * ti + inject_Z output_tokens * to
                 == inject_Z input_tokens * ci + inject_Z output_tokens * co)%Q).
    { transitivity (1000000 * (inject_Z input_tokens / 1000000 * ti + 0 / 1000000 * tc
                               + inject_Z output_tokens / 1000000 * to))%Q; [field|].
      rewrite Heq. field. }
    clear Heq.
    destruct Hall as [[H1 H2] | [H1 H2]]; apply Qle_bool_false in H1, H2.
    + assert (M1 : (0 < inject_Z input_tokens * (ti - ci))%Q)
        by (apply Qmult_lt_0_compat; lra).
      assert (M2 : (0 <= inject_Z output_tokens * (to - co))%Q)
        by (apply Qmult_le_0_compat; lra).
      lra.
    + assert (M1 : (0 < inject_Z input_tokens * (ci - ti))%Q)
        by (apply Qmult_lt_0_compat; lra).
      assert (M2 : (0 <= inject_Z output_tokens * (co - to))%Q)
        by (apply Qmult_le_0_compat; lra).
      lra.
Qed.

Lemma PRICING_items_float_checked :
  forallb tracker_float_checked CostTracker.PRICING_items = true.
Proof. vm_compute. reflexivity. Qed.

(** In binary64 the two estimators return the same float when nothing is
    cached. *)
Lemma tracker_agrees_binary64 model input_tokens output_tokens cached_tokens :
  is_Some (CostTracker.PRICING !! model) ->
  model <> "gpt-5.2-chat-latest" -> model <> "gpt-5.2-pro" ->
  cached_tokens <= 0 ->
  exists cost,
    Float64.tracker_estimate_cost model input_tokens output_tokens cached_tokens = Ok cost /\
    Float64.estimate_cost DEFAULT_PRICING model input_tokens output_tokens cached_tokens
    = Ok cost.
Proof.
  intros [e He] Hn1 Hn2 Hcached.
  unfold Float64.tracker_estimate_cost, Float64.estimate_cost. rewrite He.
  pose proof PRICING_items_float_checked as Hall. rewrite forallb_forall in Hall.
  apply elem_of_list_to_map_2, list_elem_of_In in He.
  specialize (Hall _ He). unfold tracker_float_checked, repriced in Hall.
  rewrite (bool_decide_eq_false_2 _ Hn1), (bool_decide_eq_false_2 _ Hn2) in Hall.
  cbv zeta in Hall. simpl orb in Hall.
  destruct (resolve_pricing DEFAULT_PRICING model) as [[provider pricing]|err];
    [|discriminate Hall].
  rewrite !andb_true_iff in Hall. destruct Hall as [[Hi Ho] Hc].
  apply FloatAxioms.Leibniz.eqb_spec in Hi, Ho, Hc.
  eexists. split; [reflexivity|]. unfold Float64.total_cost.
  replace (Z.max 0 (Z.min cached_tokens input_tokens)) with 0 by lia.
  rewrite Hi, Ho, Hc. reflexivity.
Qed.

(** X13: the two estimators side by side. For every name of
    [cost_tracker.PRICING], [cost_tracker.estimate_cost] and
    [costs.estimate_cost] on the embedded table both return a cost. Over
    exact rational arithmetic the two costs are equal for every token
    count, except for ["gpt-5.2-chat-latest"] and ["gpt-5.2-pro"], which
    the two tables price differently: for these the costs differ on every
    call with input tokens, no negative output count and nothing cached.
    In binary64, with token counts below [2 ** 53], the two return the
    same float when nothing is cached ([cached_tokens <= 0]) and the name
    is not one of these two. *)
Theorem tracker_agrees_with_costs model input_tokens output_tokens cached_tokens :
  is_Some (CostTracker.PRICING !! model) ->
  (exists tracked estimated,
     CostTracker.estimate_cost model input_tokens output_tokens cached_tokens = Ok tracked /\
     Costs.estimate_cost DEFAULT_PRICING model input_tokens output_tokens cached_tokens
     = Ok estimated /\
     (model <> "gpt-5.2-chat-latest" -> model <> "gpt-5.2-pro" ->
      (tracked == estimated)%Q) /\
     (model = "gpt-5.2-chat-latest" \/ model = "gpt-5.2-pro" ->
      0 < input_tokens -> 0 <= output_tokens -> cached_tokens <= 0 ->
      ~ (tracked == estimated)%Q)) /\
  (model <> "gpt-5.2-chat-latest" -> model <> "gpt-5.2-pro" ->
   cached_tokens <= 0 -> Z.abs input_tokens < 2 ^ 53 -> Z.abs output_tokens < 2 ^ 53 ->
   exists cost,
     Float64.tracker_estimate_cost model input_tokens output_tokens cached_tokens = Ok cost /\
     Float64.estimate_cost DEFAULT_PRICING model input_tokens output_tokens cached_tokens
     = Ok cost).
Proof.
  intros Hmodel. split.
  - apply tracker_agrees_exact, Hmodel.
  - intros Hn1 Hn2 Hcached _ _. apply tracker_agrees_binary64; assumption.
Qed.

Lemma tracker_agrees_with_costs_witness :
  (exists tracked estimated,
     CostTracker.estimate_cost "claude" 1000 500 0 = Ok tracked /\
     Costs.estimate_cost DEFAULT_PRICING "claude" 1000 500 0 = Ok estimated /\
     ("claude" <> "gpt-5.2-chat-latest" -> "claude" <> "gpt-5.2-pro" ->
      (tracked == estimated)%Q) /\
     ("claude" = "gpt-5.2-chat-latest" \/ "claude" = "gpt-5.2-pro" ->
      0 < 1000 -> 0 <= 500 -> 0 <= 0 ->
      ~ (tracked == estimated)%Q)) /\
  exists cost,
    Float64.tracker_estimate_cost "claude" 1000 500 0 = Ok cost /\
    Float64.estimate_cost DEFAULT_PRICING "claude" 1000 500 0 = Ok cost.
Proof.
  assert (Hmodel : is_Some (CostTracker.PRICING !! "claude"))
    by (apply (bool_decide_unpack _); vm_compute; exact I).
  destruct (tracker_agrees_with_costs "claude" 1000 500 0 Hmodel) as [Hexact Hfloat].
  split; [exact Hexact|].
  apply Hfloat; [discriminate | discriminate | lia | simpl; lia | simpl; lia].
Defined.

End CostTrackerFacts.

(** ** The maintenance of the response cache *)

Module CacheMaintenanceFacts.

Import Cache CacheMaintenance.
Import CacheFacts.

Lemma endswith_app (suffix s : string) : Py.endswith suffix (s ++ suffix) = true.
Proof.
  induction s as [|c s IH]; simpl.
  - destruct suffix; simpl; [reflexivity|]. rewrite Ascii.eqb_refl, String.eqb_refl. reflexivity.
  - rewrite IH. apply orb_true_r.
Qed.

Lemma endswith_cons (suffix : string) (c : ascii) (s : string) :
  Py.endswith suffix (String c s) = String.eqb (String c s) suffix || Py.endswith suffix s.
Proof. reflexivity. Qed.

Lemma endswith_nil (suffix : string) : Py.endswith suffix "" = true -> suffix = "".
Proof. destruct suffix; [reflexivity | discriminate]. Qed.

Lemma endswith_refl (s : string) : Py.endswith s s = true.
Proof. destruct s; simpl; [reflexivity|]. rewrite Ascii.eqb_refl, String.eqb_refl. reflexivity. Qed.

Lemma endswith_length (suffix s : string) :
  Py.endswith suffix s = true -> (String.length suffix <= String.length s)%nat.
Proof.
  induction s as [|c s IH].
  - intros H. apply endswith_nil in H. subst suffix. reflexivity.
  - rewrite endswith_cons. intros H. apply orb_true_iff in H as [H | H].
    + apply String.eqb_eq in H. subst suffix. reflexivity.
    + specialize (IH H). simpl. lia.
Qed.

(** Of two suffixes of a name the shorter is a suffix of the longer. *)
Lemma endswith_both (a b s : string) :
  Py.endswith a s = true -> Py.endswith b s = true ->
  (String.length a <= String.length b)%nat -> Py.endswith a b = true.
Proof.
  induction s as [|c s IH]; intros Ha Hb Hlen.
  - apply endswith_nil in Ha, Hb. subst a b. reflexivity.
  - rewrite endswith_cons in Ha, Hb.
    apply orb_true_iff in Ha as [Ha | Ha]; apply orb_true_iff in Hb as [Hb | Hb].
    + apply String.eqb_eq in Ha, Hb. subst a b. apply endswith_refl.
    + apply String.eqb_eq in Ha. apply endswith_length in Hb. subst a. simpl in Hlen. lia.
    + apply String.eqb_eq in Hb. subst b. rewrite endswith_cons, Ha. apply orb_true_r.
    + apply IH; assumption.
Qed.

Lemma cache_file_name_is_cache_file model prompt system_prompt :
  is_cache_file (cache_file_name model prompt system_prompt) = true.
Proof. apply endswith_app. Qed.

(** A temporary file of [cache_response] is not a cache file. *)
Lemma tmp_is_no_cache_file (tmp_path : string) :
  Py.endswith ".tmp" tmp_path = true -> is_cache_file tmp_path = false.
Proof.
  intros Htmp. destruct (is_cache_file tmp_path) eqn:Hjson; [|reflexivity].
  pose proof (endswith_both ".tmp" ".json" tmp_path Htmp Hjson ltac:(simpl; lia)) as H.
  vm_compute in H. discriminate H.
Qed.

Lemma clear_file_removable cutoff unlink_fails name f removed (dir : cache_dir) :
  clear_file cutoff unlink_fails name f (removed, dir)
  = if removable cutoff unlink_fails name f then (removed + 1, delete name dir)
    else (removed, dir).
Proof.
  unfold clear_file, removable, unlink.
  destruct (is_cache_file name); [|reflexivity]. simpl.
  destruct cutoff as [cutoff|]; simpl.
  - destruct f as [|d]; simpl; [rewrite andb_false_r; reflexivity|].
    destruct (timestamp d) as [cached_at|]; simpl; [|rewrite andb_false_r; reflexivity].
    destruct (Z.gtb_spec cached_at cutoff), (Z.leb_spec cached_at cutoff); try lia;
      destruct (unlink_fails name); reflexivity.
  - destruct (unlink_fails name); reflexivity.
Qed.

(** The loop of [clear_cache] over the files [m] of a directory [base]:
    what is left, and how many files went. *)
Lemma clear_fold cutoff unlink_fails (base m : cache_dir) :
  (forall name f, m !! name = Some f -> base !! name = Some f) ->
  let r := map_fold (clear_file cutoff unlink_fails) (0, base) m in
  (forall name,
     r.2 !! name
     = match m !! name with
       | Some f => if removable cutoff unlink_fails name f then None else base !! name
       | None => base !! name
       end) /\
  r.1 + Z.of_nat (size r.2) = Z.of_nat (size base).
Proof.
  cbv zeta. revert m.
  apply (map_fold_weak_ind (fun r m =>
    (forall name f, m !! name = Some f -> base !! name = Some f) ->
    (forall name,
       r.2 !! name
       = match m !! name with
         | Some f => if removable cutoff unlink_fails name f then None else base !! name
         | None => base !! name
         end) /\
    r.1 + Z.of_nat (size r.2) = Z.of_nat (size base))).
  - intros _. simpl. split; [|lia]. intros name. rewrite lookup_empty. reflexivity.
  - intros i x m [removed dir] Hi IH Hsub.
    assert (Hbase : base !! i = Some x) by (apply Hsub, lookup_insert_eq).
    destruct IH as [Hlook Hsize].
    { intros name f Hm. apply Hsub. rewrite lookup_insert_ne; [exact Hm|].
      intros <-. congruence. }
    simpl in Hlook, Hsize.
    assert (Hdir : dir !! i = Some x) by (rewrite Hlook, Hi; exact Hbase).
    rewrite clear_file_removable.
    destruct (removable cutoff unlink_fails i x) eqn:Hrem; simpl.
    + split.
      * intros name. destruct (decide (name = i)) as [->|Hne].
        -- rewrite lookup_delete_eq, lookup_insert_eq, Hrem. reflexivity.
        -- rewrite lookup_delete_ne, lookup_insert_ne by congruence. apply Hlook.
      * rewrite map_size_delete, Hdir.
        assert (size dir <> 0%nat).
        { intros Hz. apply map_size_empty_inv in Hz. subst dir.
          rewrite lookup_empty in Hdir. discriminate Hdir. }
        lia.
    + split; [|exact Hsize].
      intros name. destruct (decide (name = i)) as [->|Hne].
      * rewrite lookup_insert_eq, Hrem, Hdir, Hbase. reflexivity.
      * rewrite lookup_insert_ne by congruence. apply Hlook.
Qed.

Lemma timedelta_hours_Some (h delta : Z) :
  timedelta_hours h = Some delta ->
  delta = h * 3600 * 1000000 /\ -23999999976 <= h <= 23999999999.
Proof.
  unfold timedelta_hours. case_bool_decide as Hh; [|discriminate].
  intros [= <-]. split; [reflexivity|].
  pose proof (Z.div_mod h 24 ltac:(lia)). pose proof (Z.mod_pos_bound h 24 ltac:(lia)). lia.
Qed.

(** The cutoff [clear_cache] computes. *)
Lemma clear_cache_cutoff older_than_hours now unlink_fails (dir : cache_dir) removed dir' :
  clear_cache older_than_hours now unlink_fails dir = Some (removed, dir') ->
  exists cutoff,
    match older_than_hours with
    | None => cutoff = None
    | Some h =>
        cutoff = Some (now - h * 3600 * 1000000) /\
        -23999999976 <= h <= 23999999999 /\
        0 <= now - h * 3600 * 1000000 <= datetime_max
    end /\
    map_fold (clear_file cutoff unlink_fails) (0, dir) dir = (removed, dir').
Proof.
  unfold clear_cache. destruct older_than_hours as [h|]; simpl.
  - destruct (timedelta_hours h) as [delta|] eqn:Hd; [|discriminate]. simpl.
    apply timedelta_hours_Some in Hd as [-> Hh].
    unfold datetime_sub. case_bool_decide as Hrange; [|discriminate]. simpl.
    intros [= Hfold]. eexists. split; [|exact Hfold]. auto.
  - intros [= Hfold]. exists None. auto.
Qed.

(** The directory [clear_cache] leaves. *)
Lemma clear_cache_lookup older_than_hours now unlink_fails (dir : cache_dir) removed dir' :
  clear_cache older_than_hours now unlink_fails dir = Some (removed, dir') ->
  let cutoff := (fun h => now - h * 3600 * 1000000) <$> older_than_hours in
  (forall name,
     dir' !! name
     = f ← dir !! name; if removable cutoff unlink_fails name f then None else Some f) /\
  removed = Z.of_nat (size dir) - Z.of_nat (size dir').
Proof.
  intros Hclear cutoff. apply clear_cache_cutoff in Hclear as (cutoff' & Hcut & Hfold).
  assert (cutoff' = cutoff) as ->.
  { unfold cutoff. destruct older_than_hours; simpl; [destruct Hcut as [-> _]|]; auto. }
  destruct (clear_fold cutoff unlink_fails dir dir ltac:(auto)) as [Hlook Hsize].
  rewrite Hfold in Hlook, Hsize. simpl in Hlook, Hsize.
  split; [|lia].
  intros name. rewrite Hlook. destruct (dir !! name) as [f|]; simpl; [|reflexivity].
  destruct (removable cutoff unlink_fails name f); reflexivity.
Qed.

Lemma clear_cache_keeps older_than_hours now unlink_fails (dir : cache_dir) removed dir' name :
  clear_cache older_than_hours now unlink_fails dir = Some (removed, dir') ->
  is_cache_file name = false -> dir' !! name = dir !! name.
Proof.
  intros Hclear Hname. apply clear_cache_lookup in Hclear as [Hdir _].
  rewrite Hdir. destruct (dir !! name) as [f|]; simpl; [|reflexivity].
  unfold removable. rewrite Hname. reflexivity.
Qed.

(** X14: what [clear_cache] removes. When it returns, the directory
    afterwards is the one before without the files that are removable:
    those whose name ends in [.json], that the operating system lets go,
    and, when [older_than_hours] is given, that parse with a timestamp
    not after the cutoff [now - older_than_hours]; every other file is
    left as it was, among them every file whose name does not end in
    [.json] and, when [older_than_hours] is given, every file that does
    not parse or holds no timestamp. Without [older_than_hours] nothing is
    parsed: every file whose name ends in [.json] and that the operating
    system lets go is removed, whether it parses or not. The count
    returned is the number of files that went. After a [clear_cache()] in
    which no unlink fails every lookup is a miss and leaves the directory
    alone. *)
Theorem clear_cache_removes older_than_hours now unlink_fails (dir : cache_dir) removed dir' :
  clear_cache older_than_hours now unlink_fails dir = Some (removed, dir') ->
  let cutoff := (fun h => now - h * 3600 * 1000000) <$> older_than_hours in
  (forall name,
     dir' !! name
     = f ← dir !! name; if removable cutoff unlink_fails name f then None else Some f) /\
  removed = Z.of_nat (size dir) - Z.of_nat (size dir') /\
  (forall name, is_cache_file name = false -> dir' !! name = dir !! name) /\
  (forall h name f,
     older_than_hours = Some h -> dir !! name = Some f ->
     f = NotJson \/ (exists d, f = Json d /\ timestamp d = None) ->
     dir' !! name = Some f) /\
  (older_than_hours = None ->
   forall name, is_cache_file name = true -> unlink_fails name = false ->
   dir' !! name = None) /\
  (older_than_hours = None -> (forall name, unlink_fails name = false) ->
   forall model prompt system_prompt ttl_hours now' unlink_fails',
     get_cached_response model prompt system_prompt ttl_hours now' unlink_fails' dir'
     = (None, dir')).
Proof.
  intros Hclear cutoff.
  destruct (clear_cache_lookup _ _ _ _ _ _ Hclear) as [Hdir Hcount]. fold cutoff in Hdir.
  split; [exact Hdir|]. split; [exact Hcount|]. split; [|split; [|split]].
  - intros name. apply (clear_cache_keeps _ _ _ _ _ _ _ Hclear).
  - intros h name f Hh Hname Hf. rewrite Hdir, Hname. simpl.
    assert (Hr : removable cutoff unlink_fails name f = false); [|rewrite Hr; reflexivity].
    subst cutoff. rewrite Hh. unfold removable. simpl.
    destruct Hf as [-> | (d & -> & ->)]; apply andb_false_r.
  - intros Hnone name Hjson Hunlink. rewrite Hdir.
    destruct (dir !! name) as [f|]; simpl; [|reflexivity].
    subst cutoff. rewrite Hnone. unfold removable. simpl.
    rewrite Hjson, Hunlink. reflexivity.
  - intros -> Hunlink model prompt system_prompt ttl_hours now' unlink_fails'.
    unfold get_cached_response.
    pose proof (cache_file_name_is_cache_file model prompt system_prompt) as Hjson.
    set (file := cache_file_name model prompt system_prompt) in *. clearbody file.
    rewrite Hdir. destruct (dir !! file) as [f|]; simpl; [|reflexivity].
    unfold removable. rewrite Hjson, Hunlink. reflexivity.
Qed.

Lemma clear_cache_removes_witness :
  1 = Z.of_nat (size (<[ "a.json" := NotJson ]> {[ "a.tmp" := NotJson ]} : cache_dir))
      - Z.of_nat (size ({[ "a.tmp" := NotJson ]} : cache_dir)) /\
  ({[ "a.tmp" := NotJson ]} : cache_dir) !! "a.json" = None.
Proof.
  pose proof (clear_cache_removes None 0 (fun _ => false)
                (<[ "a.json" := NotJson ]> {[ "a.tmp" := NotJson ]}) 1
                {[ "a.tmp" := NotJson ]}) as H.
  cbv zeta in H. destruct H as (_ & Hcount & _ & _ & Hgone & _); [vm_compute; reflexivity|].
  split; [exact Hcount|].
  apply Hgone; [reflexivity | vm_compute; reflexivity | reflexivity].
Defined.

(** [clear_cache] returns when the cutoff is a datetime. *)
Lemma clear_cache_returns h now unlink_fails (dir : cache_dir) :
  -23999999976 <= h <= 23999999999 ->
  0 <= now - h * 3600 * 1000000 <= datetime_max ->
  exists removed dir', clear_cache (Some h) now unlink_fails dir = Some (removed, dir').
Proof.
  intros Hh Hnow. unfold clear_cache. simpl.
  rewrite (timedelta_hours_in_range _ Hh). simpl.
  unfold datetime_sub. rewrite bool_decide_eq_true_2 by exact Hnow. simpl.
  destruct (map_fold _ _ _) as [removed dir']. eauto.
Qed.

(** X15: [clear_cache(older_than_hours=h)] against a lookup with
    [ttl_hours=h] at the same clock reading. An entry younger than [h]
    hours survives the clearing and is still served; an entry of [h]
    hours or more is gone (its unlink not failing), so that every later
    lookup is a miss; and an entry of exactly [h] hours is one the lookup
    would have served before the clearing: [clear_cache] keeps what is
    newer than the cutoff, the lookup expires what is older. *)
Theorem clear_cache_then_lookup model prompt system_prompt response stored_at h now
    unlink_fails (dir : cache_dir) removed dir' :
  holds_entry dir model prompt system_prompt stored_at response ->
  unlink_fails (cache_file_name model prompt system_prompt) = false ->
  clear_cache (Some h) now unlink_fails dir = Some (removed, dir') ->
  let age := now - stored_at in
  let ttl := h * 3600 * 1000000 in
  (age < ttl ->
   get_cached_response model prompt system_prompt h now false dir'
   = (Some response, dir')) /\
  (ttl <= age ->
   forall ttl_hours now' unlink_fails',
     get_cached_response model prompt system_prompt ttl_hours now' unlink_fails' dir'
     = (None, dir')) /\
  (age = ttl ->
   get_cached_response model prompt system_prompt h now false dir = (Some response, dir)).
Proof.
  intros Hentry Hunlink Hclear age ttl.
  pose proof (clear_cache_cutoff _ _ _ _ _ _ Hclear) as (cutoff & (-> & Hh & Hrange) & Hfold).
  destruct (clear_fold (Some (now - h * 3600 * 1000000)) unlink_fails dir dir ltac:(auto))
    as [Hlook _].
  rewrite Hfold in Hlook. simpl in Hlook.
  pose proof (cache_file_name_is_cache_file model prompt system_prompt) as Hjson.
  specialize (Hlook (cache_file_name model prompt system_prompt)).
  unfold holds_entry in Hentry. rewrite Hentry in Hlook.
  unfold removable in Hlook. rewrite Hjson, Hunlink in Hlook. simpl in Hlook.
  split; [|split].
  - intros Hage. destruct (Z.leb_spec stored_at (now - h * 3600 * 1000000)); [lia|].
    rewrite (lookup_entry model prompt response system_prompt h stored_at);
      [|unfold holds_entry; congruence | exact Hh].
    case_expired; [lia | reflexivity].
  - intros Hage ttl_hours now' unlink_fails'.
    destruct (Z.leb_spec stored_at (now - h * 3600 * 1000000)); [|lia].
    unfold get_cached_response. rewrite Hlook. reflexivity.
  - intros Hage.
    rewrite (lookup_entry model prompt response system_prompt h stored_at);
      [|exact Hentry | exact Hh].
    case_expired; [lia | reflexivity].
Qed.

Lemma clear_cache_then_lookup_witness :
  let dir := cache_response "gpt" "diff" "fine" None 3600000000 "x.tmp" NoFault ∅ in
  exists removed dir',
    clear_cache (Some 1) 7200000000 (fun _ => false) dir = Some (removed, dir') /\
    (7200000000 - 3600000000 = 1 * 3600 * 1000000 ->
     get_cached_response "gpt" "diff" None 1 7200000000 false dir = (Some "fine", dir)) /\
    (1 * 3600 * 1000000 <= 7200000000 - 3600000000 ->
     forall ttl_hours now' unlink_fails',
       get_cached_response "gpt" "diff" None ttl_hours now' unlink_fails' dir'
       = (None, dir')).
Proof.
  intros dir.
  destruct (clear_cache_returns 1 7200000000 (fun _ => false) dir ltac:(lia)
              ltac:(unfold datetime_max; lia)) as (removed & dir' & Hclear).
  exists removed, dir'. split; [exact Hclear|].
  pose proof (clear_cache_then_lookup "gpt" "diff" None "fine" 3600000000 1 7200000000
                (fun _ => false) dir removed dir'
                (cache_response_file "gpt" "diff" "fine" None 3600000000 "x.tmp" ∅)
                eq_refl Hclear) as (_ & Hgone & Hserved).
  split; [exact Hserved | exact Hgone].
Defined.

(** What a lookup returns depends on the file of the request only. *)
Lemma lookup_depends_on_file model prompt system_prompt ttl_hours now unlink_fails
    (dir dir' : cache_dir) :
  dir' !! cache_file_name model prompt system_prompt
  = dir !! cache_file_name model prompt system_prompt ->
  (get_cached_response model prompt system_prompt ttl_hours now unlink_fails dir').1
  = (get_cached_response model prompt system_prompt ttl_hours now unlink_fails dir).1.
Proof.
  unfold get_cached_response. intros ->.
  set (file := cache_file_name model prompt system_prompt). clearbody file.
  destruct (dir !! file) as [f|]; [|reflexivity].
  unfold read_entry, unlink.
  destruct f as [|d]; simpl; [reflexivity|].
  destruct (timestamp d); simpl; [|reflexivity].
  destruct (timedelta_hours ttl_hours); simpl; [|reflexivity].
  destruct (_ >? _); [destruct unlink_fails; reflexivity|].
  destruct (response d); reflexivity.
Qed.

(** X16: a store is local. With the temporary file named as [tempfile]
    names it (the suffix [.tmp]), a store that fails, wherever it fails,
    leaves every cache file as it was and changes the answer of no
    lookup; a store that works changes no cache file but its own, and the
    answer of no request that has another file. What a failed store can
    leave behind is its temporary file (when [json.dump] raises, or the
    cleanup fails as well), and no [clear_cache] removes that. *)
Theorem cache_response_local model prompt response system_prompt now tmp_path fault
    (dir : cache_dir) :
  Py.endswith ".tmp" tmp_path = true ->
  let dir1 := cache_response model prompt response system_prompt now tmp_path fault dir in
  (forall name,
     is_cache_file name = true ->
     fault <> NoFault \/ name <> cache_file_name model prompt system_prompt ->
     dir1 !! name = dir !! name) /\
  (forall model' prompt' system_prompt' ttl_hours now' unlink_fails,
     fault <> NoFault \/
     cache_file_name model' prompt' system_prompt'
     <> cache_file_name model prompt system_prompt ->
     (get_cached_response model' prompt' system_prompt' ttl_hours now' unlink_fails dir1).1
     = (get_cached_response model' prompt' system_prompt' ttl_hours now' unlink_fails dir).1) /\
  (fault = DumpFails \/ fault = ReplaceFails true ->
   is_Some (dir1 !! tmp_path) /\
   forall older_than_hours now' unlink_fails removed dir2,
     clear_cache older_than_hours now' unlink_fails dir1 = Some (removed, dir2) ->
     dir2 !! tmp_path = dir1 !! tmp_path).
Proof.
  intros Htmp dir1.
  pose proof (tmp_is_no_cache_file _ Htmp) as Hnojson.
  assert (Hfiles : forall name,
    is_cache_file name = true ->
    fault <> NoFault \/ name <> cache_file_name model prompt system_prompt ->
    dir1 !! name = dir !! name).
  { intros name Hname Hother.
    assert (Hne : name <> tmp_path) by (intros ->; congruence).
    unfold dir1, cache_response.
    set (file := cache_file_name model prompt system_prompt) in *. clearbody file.
    destruct fault as [| | |[|]];
      (rewrite ?lookup_insert_ne, ?lookup_delete_ne, ?lookup_insert_ne
         by (intuition congruence));
      reflexivity. }
  split; [exact Hfiles|]. split.
  - intros model' prompt' system_prompt' ttl_hours now' unlink_fails Hother.
    apply lookup_depends_on_file, Hfiles; [apply cache_file_name_is_cache_file | exact Hother].
  - intros Hfault. split.
    + unfold dir1, cache_response. destruct Hfault as [-> | ->];
        rewrite lookup_insert_eq; eauto.
    + intros older_than_hours now' unlink_fails removed dir2 Hclear.
      apply (clear_cache_keeps _ _ _ _ _ _ _ Hclear), Hnojson.
Qed.

Lemma cache_response_local_witness :
  is_Some (cache_response "gpt" "diff" "fine" None 0 "x.tmp" DumpFails ∅ !! "x.tmp").
Proof.
  pose proof (cache_response_local "gpt" "diff" "fine" None 0 "x.tmp" DumpFails ∅ eq_refl)
    as H.
  cbv zeta in H. destruct H as (_ & _ & H). apply H. left. reflexivity.
Defined.

(** X17: a lookup never writes. It leaves every file but the one of its
    request as it was; that one it leaves as it was or, answering [None],
    removes; a lookup that answers with a text, or whose unlink fails,
    leaves the whole directory as it was; and the same lookup repeated at
    the same clock reading gives the same answer and changes nothing
    more. *)
Theorem get_cached_response_frame model prompt system_prompt ttl_hours now unlink_fails
    (dir : cache_dir) :
  let file := cache_file_name model prompt system_prompt in
  let r := get_cached_response model prompt system_prompt ttl_hours now unlink_fails dir in
  (forall name, name <> file -> r.2 !! name = dir !! name) /\
  (r.2 !! file = dir !! file \/ r.2 !! file = None /\ r.1 = None) /\
  (is_Some r.1 \/ unlink_fails = true -> r.2 = dir) /\
  get_cached_response model prompt system_prompt ttl_hours now unlink_fails r.2 = r.
Proof.
  intros file r. subst r. unfold get_cached_response. fold file. clearbody file.
  destruct (dir !! file) as [f|] eqn:Hfile.
  2: { simpl. rewrite Hfile. repeat split; auto. }
  unfold read_entry, unlink.
  destruct f as [|d]; simpl.
  { rewrite Hfile. simpl. repeat split; auto. }
  destruct (timestamp d) as [cached_at|] eqn:Ht; simpl.
  2: { rewrite Hfile. simpl. rewrite Ht. simpl. repeat split; auto. }
  destruct (timedelta_hours ttl_hours) as [ttl|] eqn:Httl; simpl.
  2: { rewrite Hfile. simpl. rewrite Ht. simpl. repeat split; auto. }
  destruct (now - cached_at >? ttl) eqn:Hexp.
  - destruct unlink_fails; simpl.
    + rewrite Hfile. simpl. rewrite Ht. simpl. rewrite Hexp. repeat split; auto.
    + rewrite lookup_delete_eq. split; [|split; [|split]].
      * intros name Hne. rewrite lookup_delete_ne by congruence. reflexivity.
      * right. split; reflexivity.
      * intros [[? [=]] | [=]].
      * reflexivity.
  - destruct (response d) as [text|] eqn:Hr; simpl.
    + rewrite Hfile. simpl. rewrite Ht. simpl. rewrite Hexp, Hr. repeat split; auto.
    + rewrite Hfile. simpl. rewrite Ht. simpl. rewrite Hexp, Hr. repeat split; auto.
Qed.

Lemma dated_insert st_size (m : cache_dir) i x t :
  m !! i = None ->
  dated st_size (<[i:=x]> m) t
  <-> dated st_size m t \/
      is_cache_file i = true /\ is_Some (st_size i) /\
      exists d, x = Json d /\ timestamp d = Some t.
Proof.
  intros Hi. unfold dated. split.
  - intros (name & d & Hname & Hjson & Hstat & Ht).
    destruct (decide (name = i)) as [->|Hne].
    + rewrite lookup_insert_eq in Hname. injection Hname as ->. right. eauto.
    + rewrite lookup_insert_ne in Hname by congruence. left. eauto 6.
  - intros [(name & d & Hname & Hjson & Hstat & Ht) | (Hjson & Hstat & d & -> & Ht)].
    + exists name, d. rewrite lookup_insert_ne by congruence. auto.
    + exists i, d. rewrite lookup_insert_eq. auto.
Qed.

Lemma dated_empty st_size t : ~ dated st_size ∅ t.
Proof. intros (name & d & Hname & _). rewrite lookup_empty in Hname. discriminate Hname. Qed.

Lemma stats_fold st_size (dir : cache_dir) :
  stats_invariant st_size (map_fold (stat_file st_size) (0, 0, None, None) dir) dir.
Proof.
  apply (map_fold_weak_ind (stats_invariant st_size)).
  - unfold stats_invariant. rewrite map_filter_empty, map_size_empty.
    repeat split; try discriminate; try reflexivity.
    intros _ t. apply dated_empty.
  - intros i x m [[[total_files total_size] oldest] newest] Hi
      (Hfiles & Hnone & Hboth & Hold & Hnew).
    unfold stat_file, stats_invariant.
    destruct (is_cache_file i) eqn:Hjson.
    2: { rewrite map_filter_insert_False, delete_id by (simpl; congruence).
         split; [exact Hfiles|].
         assert (Hd : forall t, dated st_size (<[i:=x]> m) t <-> dated st_size m t).
         { intros t. rewrite dated_insert by exact Hi. split; [|auto].
           intros [H | (H & _)]; [exact H | congruence]. }
         setoid_rewrite Hd. auto. }
    assert (Hcount : total_files + 1
      = Z.of_nat (size (filter (fun item => is_cache_file item.1 = true) (<[i:=x]> m)))).
    { rewrite map_filter_insert_True by exact Hjson.
      rewrite map_size_insert_None by (apply map_lookup_filter_None; auto). lia. }
    assert (Hskip : (forall t, ~ (is_Some (st_size i) /\
                      exists d, x = Json d /\ timestamp d = Some t)) ->
      (total_files + 1
       = Z.of_nat (size (filter (fun item => is_cache_file item.1 = true) (<[i:=x]> m)))) /\
      (oldest = None <-> forall t, ~ dated st_size (<[i:=x]> m) t) /\
      (newest = None <-> oldest = None) /\
      (forall o, oldest = Some o ->
         dated st_size (<[i:=x]> m) o /\ forall t, dated st_size (<[i:=x]> m) t -> o <= t) /\
      (forall n, newest = Some n ->
         dated st_size (<[i:=x]> m) n /\ forall t, dated st_size (<[i:=x]> m) t -> t <= n)).
    { intros Hno.
      assert (Hd : forall t, dated st_size (<[i:=x]> m) t <-> dated st_size m t).
      { intros t. rewrite dated_insert by exact Hi. split; [|auto].
        intros [H | (_ & H)]; [exact H | destruct (Hno t H)]. }
      setoid_rewrite Hd. auto. }
    destruct (st_size i) as [size|] eqn:Hstat.
    2: { apply Hskip. intros t [[? [=]] _]. }
    destruct x as [|d].
    { apply Hskip. intros t (_ & d & [=] & _). }
    destruct (timestamp d) as [cached_at|] eqn:Ht.
    2: { apply Hskip. intros t (_ & d' & [= <-] & Ht'). congruence. }
    assert (Hd : forall t, dated st_size (<[i:=Json d]> m) t
                           <-> dated st_size m t \/ t = cached_at).
    { intros t. rewrite dated_insert by exact Hi. split.
      - intros [H | (_ & _ & d' & [= <-] & Ht')]; [auto | right; congruence].
      - intros [H | ->]; [auto|]. right. rewrite Hjson, Hstat. eauto 6. }
    split; [exact Hcount|]. setoid_rewrite Hd. clear Hd Hskip Hcount.
    destruct oldest as [o|], newest as [n|];
      try (destruct Hboth as [Hb1 Hb2];
           first [specialize (Hb1 eq_refl) | specialize (Hb2 eq_refl)]; discriminate).
    + destruct (Hold o eq_refl) as [Ho Hmin]. destruct (Hnew n eq_refl) as [Hn Hmax].
      split; [|split; [|split]].
      * split; [destruct (cached_at <? o); discriminate|]. intros H. destruct (H o). auto.
      * destruct (cached_at <? o), (cached_at >? n); split; discriminate.
      * intros o'. destruct (Z.ltb_spec cached_at o); intros [= <-].
        -- split; [auto|]. intros t [Hdt | ->]; [specialize (Hmin t Hdt)|]; lia.
        -- split; [auto|]. intros t [Hdt | ->]; [exact (Hmin t Hdt) | lia].
      * intros n'. destruct (Z.gtb_spec cached_at n); intros [= <-].
        -- split; [auto|]. intros t [Hdt | ->]; [specialize (Hmax t Hdt)|]; lia.
        -- split; [auto|]. intros t [Hdt | ->]; [exact (Hmax t Hdt) | lia].
    + assert (Hempty : forall t, ~ dated st_size m t) by (apply Hnone; reflexivity).
      split; [|split; [|split]].
      * split; [discriminate|]. intros H. destruct (H cached_at). auto.
      * split; discriminate.
      * intros o' [= <-]. split; [auto|].
        intros t [Hdt | ->]; [destruct (Hempty t Hdt) | lia].
      * intros n' [= <-]. split; [auto|].
        intros t [Hdt | ->]; [destruct (Hempty t Hdt) | lia].
Qed.

(** X18: what [get_cache_stats] reports. [total_files] is the number of
    files whose name ends in [.json], those that do not parse included;
    [oldest] and [newest] are both absent exactly when no such file,
    with a size that [stat] reports, parses with a timestamp; otherwise
    they are the least and the greatest of these timestamps, so
    [oldest <= newest]. *)
Theorem get_cache_stats_summary st_size (dir : cache_dir) :
  let stats := get_cache_stats st_size dir in
  total_files stats
  = Z.of_nat (size (filter (fun item => is_cache_file item.1 = true) dir)) /\
  (oldest stats = None <-> forall t, ~ dated st_size dir t) /\
  (newest stats = None <-> oldest stats = None) /\
  (forall o, oldest stats = Some o ->
     dated st_size dir o /\ forall t, dated st_size dir t -> o <= t) /\
  (forall n, newest stats = Some n ->
     dated st_size dir n /\ forall t, dated st_size dir t -> t <= n) /\
  (forall o n, oldest stats = Some o -> newest stats = Some n -> o <= n).
Proof.
  intros stats. subst stats. unfold get_cache_stats.
  pose proof (stats_fold st_size dir) as Hinv.
  destruct (map_fold (stat_file st_size) (0, 0, None, None) dir)
    as [[[total_files total_size] oldest] newest].
  destruct Hinv as (Hfiles & Hnone & Hboth & Hold & Hnew). simpl.
  repeat (split; [assumption|]).
  intros o n Ho Hn. destruct (Hold o Ho) as [Hdo _]. destruct (Hnew n Hn) as [_ Hmax].
  apply Hmax, Hdo.
Qed.

End CacheMaintenanceFacts.

(** ** The retry wrapper *)

Module RetryFacts.

Import Retry.

Section Wrapper.

Context {A E : Type} (error_msg : E -> string) (sleep_returns : Q -> bool).
Context (max_attempts : Z) (max_delay backoff_factor : Q) (func : nat -> A + E).

Lemma attempts_ok remaining attempt delay last_exception called slept :
  (called + remaining = Z.to_nat max_attempts)%nat ->
  attempt = Z.of_nat called + 1 ->
  length slept = match remaining with O => pred called | S _ => called end ->
  Forall (fun d => sleep_returns d = true) slept ->
  (forall k, (k < called)%nat -> retried error_msg func k) ->
  match last_exception with
  | None => called = 0%nat
  | Some e => (1 <= called)%nat /\ func (pred called) = inr e /\ fatal (error_msg e) = false
  end ->
  run_ok error_msg sleep_returns max_attempts func (attempts error_msg sleep_returns max_attempts max_delay backoff_factor func
            remaining attempt delay last_exception called slept).
Proof.
  revert attempt delay last_exception called slept.
  induction remaining as [|remaining IH];
    intros attempt delay last_exception called slept Hsum Hattempt Hslept Hsleeps Hprev Hlast.
  - simpl. destruct last_exception as [e|].
    + destruct Hlast as (Hc & He & Hf). unfold run_ok. simpl.
      repeat split; try assumption; try lia.
      * intros k Hk. apply Hprev. lia.
      * right. split; [exact Hf | lia].
    + subst called. unfold run_ok. simpl. repeat split; try assumption; try lia.
  - simpl. destruct (func called) as [a|e] eqn:Hcall.
    { unfold run_ok. simpl. repeat split; try assumption; try lia. }
    destruct (fatal (error_msg e)) eqn:Hfatal.
    { unfold run_ok. simpl. repeat split; try assumption; try lia. left. exact Hfatal. }
    assert (Hprev' : forall k, (k < S called)%nat -> retried error_msg func k).
    { intros k Hk. destruct (decide (k = called)) as [->|Hne].
      - exists e. split; assumption.
      - apply Hprev. lia. }
    destruct (Z.ltb_spec attempt max_attempts) as [Hlt | Hge].
    + destruct (sleep_returns delay) eqn:Hsleep.
      * apply IH; try lia; try assumption.
        -- rewrite length_app. simpl. destruct remaining; lia.
        -- apply Forall_app. split; [assumption|]. constructor; [assumption | constructor].
        -- simpl. repeat split; [lia | assumption..].
      * unfold run_ok. simpl. repeat split; try assumption; try lia.
        -- exists e. split; assumption.
        -- exists delay. exact Hsleep.
    + apply IH; try lia; try assumption.
      * assert (remaining = 0%nat) by lia. subst remaining. simpl. lia.
      * simpl. repeat split; [lia | assumption..].
Qed.

(** The delays slept are the backoff sequence. *)
Lemma attempts_sleeps remaining attempt delay last_exception called slept :
  let r := attempts error_msg sleep_returns max_attempts max_delay backoff_factor func
             remaining attempt delay last_exception called slept in
  sleeps r
  = (slept ++ backoff max_delay backoff_factor (length (sleeps r) - length slept) delay)%list.
Proof.
  cbv zeta. revert attempt delay last_exception called slept.
  induction remaining as [|remaining IH]; intros attempt delay last_exception called slept.
  - simpl. destruct last_exception; simpl; rewrite Nat.sub_diag, app_nil_r; reflexivity.
  - simpl. destruct (func called) as [a|e].
    { simpl. rewrite Nat.sub_diag, app_nil_r. reflexivity. }
    destruct (fatal (error_msg e)).
    { simpl. rewrite Nat.sub_diag, app_nil_r. reflexivity. }
    destruct (attempt <? max_attempts).
    + destruct (sleep_returns delay).
      * match goal with |- sleeps ?r = _ => set (rest := r) end.
        pose proof (IH (attempt + 1) (min (delay * backoff_factor) max_delay) (Some e)
                      (S called) (slept ++ [delay])%list) as Hrun. fold rest in Hrun.
        assert (Hlen : (length (slept ++ [delay])%list <= length (sleeps rest))%nat).
        { rewrite Hrun at 1. rewrite !length_app. lia. }
        rewrite length_app in Hlen. simpl in Hlen.
        replace (length (sleeps rest) - length slept)%nat
          with (S (length (sleeps rest) - length (slept ++ [delay])%list))
          by (rewrite length_app; simpl; lia).
        simpl. rewrite Hrun at 1. rewrite <- app_assoc. reflexivity.
      * simpl. rewrite Nat.sub_diag, app_nil_r. reflexivity.
    + apply IH.
Qed.

Lemma min_le_r (x y : Q) : (min x y <= y)%Q.
Proof.
  unfold min. destruct (Qle_bool x y) eqn:H; [apply Qle_bool_iff, H | apply Qle_refl].
Qed.

Lemma backoff_capped n delay :
  Forall (fun d => (d <= max_delay)%Q) (tail (backoff max_delay backoff_factor n delay)).
Proof.
  destruct n as [|n]; simpl; [constructor|].
  generalize (min_le_r (delay * backoff_factor) max_delay).
  generalize (min (delay * backoff_factor) max_delay). clear delay.
  induction n as [|n IH]; intros delay Hd; simpl; [constructor|].
  constructor; [exact Hd|]. apply IH, min_le_r.
Qed.

End Wrapper.

Lemma retry_run_ok {A E : Type} (error_msg : E -> string) (sleep_returns : Q -> bool)
    (max_attempts : Z) (initial_delay max_delay backoff_factor : Q) (func : nat -> A + E) :
  run_ok error_msg sleep_returns max_attempts func
    (retry_with_backoff error_msg sleep_returns max_attempts initial_delay max_delay
       backoff_factor func).
Proof.
  unfold retry_with_backoff.
  apply (attempts_ok error_msg sleep_returns max_attempts max_delay backoff_factor func);
    try reflexivity; try lia; try constructor.
  destruct (Z.to_nat max_attempts); reflexivity.
Qed.

(** X19: how a call of the wrapper of [retry_with_backoff] ends. It
    calls [func] at most [max_attempts] times and sleeps once between
    two calls, never after the last; every call before the last one
    raised an exception that is retried. If it returns, it returns the
    value of the last call; if it raises an exception, it is the one of
    the last call, and either its message names an authentication or
    configuration error, or all [max_attempts] calls were made. With
    [max_attempts <= 0] it never calls [func] and ends in the
    [TypeError] of [raise None]. A [time.sleep] that raises (a negative
    delay) ends the call from inside the handler, before all attempts
    are made. *)
Theorem retry_with_backoff_outcome {A E : Type} (error_msg : E -> string)
    (sleep_returns : Q -> bool) (max_attempts : Z)
    (initial_delay max_delay backoff_factor : Q) (func : nat -> A + E) :
  let r := retry_with_backoff error_msg sleep_returns max_attempts initial_delay max_delay
             backoff_factor func in
  (calls r <= Z.to_nat max_attempts)%nat /\
  length (sleeps r) = pred (calls r) /\
  Forall (fun d => sleep_returns d = true) (sleeps r) /\
  (forall k, (k < pred (calls r))%nat ->
     exists e, func k = inr e /\ fatal (error_msg e) = false) /\
  match result r with
  | Returns a => (1 <= calls r)%nat /\ func (pred (calls r)) = inl a
  | Raises e =>
      (1 <= calls r)%nat /\ func (pred (calls r)) = inr e /\
      (fatal (error_msg e) = true \/
       fatal (error_msg e) = false /\ calls r = Z.to_nat max_attempts)
  | RaisesTypeError => max_attempts <= 0 /\ calls r = 0%nat
  | SleepRaises =>
      (1 <= calls r < Z.to_nat max_attempts)%nat /\
      (exists e, func (pred (calls r)) = inr e /\ fatal (error_msg e) = false) /\
      exists delay, sleep_returns delay = false
  end.
Proof.
  intros r. subst r. apply retry_run_ok.
Qed.

(** X20: the delays the wrapper sleeps are the backoff sequence: the
    first is [initial_delay] as it is, each next one is
    [min(delay * backoff_factor, max_delay)] of the one before; so every
    delay but the first is at most [max_delay], while the first is not
    capped. *)
Theorem retry_with_backoff_delays {A E : Type} (error_msg : E -> string)
    (sleep_returns : Q -> bool) (max_attempts : Z)
    (initial_delay max_delay backoff_factor : Q) (func : nat -> A + E) :
  let r := retry_with_backoff error_msg sleep_returns max_attempts initial_delay max_delay
             backoff_factor func in
  sleeps r = backoff max_delay backoff_factor (length (sleeps r)) initial_delay /\
  (sleeps r = [] \/ head (sleeps r) = Some initial_delay) /\
  Forall (fun d => (d <= max_delay)%Q) (tail (sleeps r)).
Proof.
  intros r.
  assert (Hseq : sleeps r
                 = backoff max_delay backoff_factor (length (sleeps r)) initial_delay).
  { pose proof (attempts_sleeps error_msg sleep_returns max_attempts max_delay
                  backoff_factor func (Z.to_nat max_attempts) 1 initial_delay None 0%nat [])
      as H.
    cbv zeta in H. simpl in H. rewrite Nat.sub_0_r in H. exact H. }
  split; [exact Hseq|]. split.
  - rewrite Hseq. destruct (length (sleeps r)); simpl; auto.
  - rewrite Hseq. apply backoff_capped.
Qed.

(** X21: the wrapper stops at the first call that decides. When every
    [time.sleep] returns and the calls before call [k] (counted from 0,
    [k < max_attempts]) all raise exceptions that are retried: if call
    [k] returns a value, the wrapper returns it; if it raises an
    exception whose message names an authentication or configuration
    error, the wrapper raises it at once; and if it is the last of the
    [max_attempts] calls and raises, the wrapper raises its exception;
    each time after exactly [k + 1] calls and [k] sleeps. *)
Theorem retry_with_backoff_decides {A E : Type} (error_msg : E -> string)
    (sleep_returns : Q -> bool) (max_attempts : Z)
    (initial_delay max_delay backoff_factor : Q) (func : nat -> A + E) (k : nat) :
  (forall delay, sleep_returns delay = true) ->
  (k < Z.to_nat max_attempts)%nat ->
  (forall j, (j < k)%nat -> exists e, func j = inr e /\ fatal (error_msg e) = false) ->
  let r := retry_with_backoff error_msg sleep_returns max_attempts initial_delay max_delay
             backoff_factor func in
  match func k with
  | inl a => result r = Returns a /\ calls r = S k /\ length (sleeps r) = k
  | inr e =>
      fatal (error_msg e) = true \/ S k = Z.to_nat max_attempts ->
      result r = Raises e /\ calls r = S k /\ length (sleeps r) = k
  end.
Proof.
  intros Hsleep Hk Hbefore r.
  destruct (retry_run_ok error_msg sleep_returns max_attempts initial_delay max_delay
              backoff_factor func) as (Hle & Hlen & _ & Hprev & Hres).
  fold r in Hle, Hlen, Hprev, Hres.
  assert (Hdecides : ~ retried error_msg func k \/ S k = Z.to_nat max_attempts ->
                     (pred (calls r) <= k)%nat).
  { intros Hd. destruct (le_lt_dec (pred (calls r)) k) as [|Hlt]; [assumption|].
    destruct Hd as [Hd | Hd]; [destruct (Hd (Hprev k Hlt)) | lia]. }
  destruct (func k) as [a|e] eqn:Hcall.
  - assert (Hpk : (pred (calls r) <= k)%nat).
    { apply Hdecides. left. intros (e & He & _). congruence. }
    destruct (result r) as [a'|e'| |] eqn:Hr.
    + destruct Hres as [Hone Hret].
      assert (Hc : calls r = S k).
      { destruct (decide (pred (calls r) = k)) as [|Hne]; [lia|].
        destruct (Hbefore (pred (calls r)) ltac:(lia)) as (e & He & _). congruence. }
      rewrite Hc in Hret, Hlen. simpl in Hret, Hlen. repeat split; congruence || assumption.
    + destruct Hres as (Hone & Hraise & Hwhy). exfalso.
      destruct (decide (pred (calls r) = k)) as [Heq|Hne]; [rewrite Heq in Hraise; congruence|].
      destruct (Hbefore (pred (calls r)) ltac:(lia)) as (e & He & Hf).
      assert (e = e') by congruence. subst e'.
      destruct Hwhy as [Hwhy | [_ Hwhy]]; [congruence | lia].
    + destruct Hres as [Hmax _]. lia.
    + destruct Hres as (_ & _ & delay & Hdelay). rewrite Hsleep in Hdelay. discriminate.
  - intros Hwhy.
    assert (Hpk : (pred (calls r) <= k)%nat).
    { apply Hdecides. destruct Hwhy as [Hf | Hmax]; [|auto].
      left. intros (e0 & He0 & Hf0). congruence. }
    destruct (result r) as [a'|e'| |] eqn:Hr.
    + destruct Hres as [Hone Hret]. exfalso.
      destruct (decide (pred (calls r) = k)) as [Heq|Hne]; [rewrite Heq in Hret; congruence|].
      destruct (Hbefore (pred (calls r)) ltac:(lia)) as (e0 & He0 & _). congruence.
    + destruct Hres as (Hone & Hraise & Hstop).
      assert (Hc : calls r = S k).
      { destruct (decide (pred (calls r) = k)) as [|Hne]; [lia|].
        destruct (Hbefore (pred (calls r)) ltac:(lia)) as (e0 & He0 & Hf0).
        assert (e0 = e') by congruence. subst e'.
        destruct Hstop as [Hstop | [_ Hstop]]; [congruence | lia]. }
      rewrite Hc in Hraise, Hlen. simpl in Hraise, Hlen.
      repeat split; congruence || assumption.
    + destruct Hres as [Hmax _]. lia.
    + destruct Hres as (_ & _ & delay & Hdelay). rewrite Hsleep in Hdelay. discriminate.
Qed.

(** The wrapper the providers use, [retry_with_backoff(3, 1, 10)], on a
    call that fails twice and then returns. *)
Lemma retry_with_backoff_decides_witness :
  let func (k : nat) : string + string :=
    if (k <? 2)%nat then inr "503 service unavailable" else inl "ok" in
  let r := retry_with_backoff Py.lower (fun _ => true) 3 1 10 2 func in
  result r = Returns "ok" /\ calls r = 3%nat /\ length (sleeps r) = 2%nat.
Proof.
  intros func.
  apply (retry_with_backoff_decides Py.lower (fun _ => true) 3 1 10 2 func 2).
  - reflexivity.
  - simpl. lia.
  - intros j Hj. exists "503 service unavailable".
    destruct j as [|[|j]]; [split; reflexivity | split; reflexivity | lia].
Defined.

End RetryFacts.

(** ** The usage log *)

Module UsageFacts.

Import CostTracker.

Local Open Scope list_scope.




Lemma count_call_lookup cost key (m : gmap string tally) :
  count_call cost key m !! key
  = Some (Tally (tally_cost (default (Tally 0 0) (m !! key)) + cost)
                (tally_calls (default (Tally 0 0) (m !! key)) + 1)).
Proof.
  unfold count_call. cbv zeta. rewrite lookup_insert_eq. case_bool_decide as Hin.
  - reflexivity.
  - rewrite lookup_insert_eq.
    destruct (m !! key) eqn:H; [exfalso; apply Hin; eauto | reflexivity].
Qed.

Lemma count_call_lookup_ne cost key key' (m : gmap string tally) :
  key' <> key -> count_call cost key m !! key' = m !! key'.
Proof.
  intros Hne. unfold count_call. cbv zeta.
  rewrite lookup_insert_ne by congruence.
  case_bool_decide; [reflexivity|]. rewrite lookup_insert_ne by congruence. reflexivity.
Qed.


Lemma well_formed_goes_on cutoff_date line u :
  well_formed line = true -> (read_line cutoff_date line u).2 = true.
Proof.
  unfold read_line, well_formed.
  destruct line as [|[[timestamp|] model operation input_tokens output_tokens [cost|]]];
    cbn [entry_timestamp entry_cost entry_model entry_operation];
    try destruct (match cutoff_date with Some c => timestamp <? c | None => false end);
    try destruct model; try destruct operation; intros; try discriminate; reflexivity.
Qed.


Lemma read_lines_app cutoff_date lines rest u :
  forallb well_formed lines = true ->
  read_lines cutoff_date (lines ++ rest) u
  = read_lines cutoff_date rest (read_lines cutoff_date lines u).
Proof.
  revert u. induction lines as [|line lines IH]; intros u Hlines; [reflexivity|].
  apply andb_true_iff in Hlines as [Hline Hlines]. simpl.
  pose proof (well_formed_goes_on cutoff_date line u Hline) as Hgo.
  destruct (read_line cutoff_date line u) as [u' goes_on]. simpl in Hgo. subst goes_on.
  apply IH, Hlines.
Qed.

Lemma read_lines_stop cutoff_date lines rest u :
  read_lines cutoff_date (lines ++ Corrupt :: rest) u = read_lines cutoff_date lines u.
Proof.
  revert u. induction lines as [|line lines IH]; intros u; [reflexivity|].
  simpl. destruct (read_line cutoff_date line u) as [u' [|]]; [apply IH | reflexivity].
Qed.


(** X23: what follows the first line that does not parse is never
    counted: [get_usage_stats] on a log with such a line returns what it
    returns on the lines before it, whatever comes after; so from then on
    a call that [log_api_call] appends leaves every statistic as it
    was. *)
Theorem get_usage_stats_stops days now lines rest model input_tokens output_tokens cost
    operation logged_at :
  get_usage_stats days now (Some (lines ++ Corrupt :: rest))
  = get_usage_stats days now (Some lines) /\
  get_usage_stats days now
    (log_api_call model input_tokens output_tokens cost operation logged_at false
       (Some (lines ++ Corrupt :: rest)))
  = get_usage_stats days now (Some (lines ++ Corrupt :: rest)).
Proof.
  unfold get_usage_stats, log_api_call. simpl. rewrite <- app_assoc. simpl.
  destruct (match days with
            | Some d =>
                delta ← timedelta_days d;
                cutoff_date ← CacheMaintenance.datetime_sub now delta;
                Some (Some cutoff_date)
            | None => Some None
            end) as [cutoff_date|]; simpl; [|split; reflexivity].
  rewrite !read_lines_stop. split; reflexivity.
Qed.

(** X24: a call that is logged is a call that is counted. On a log in
    which every line has all its fields (or that does not exist yet),
    after a [log_api_call] whose write works the all-time statistics
    count one call more in total, under the model and under the
    operation of the call, the cost under each raised by the cost of the
    call rounded to six places, and every other model and operation as
    before. *)
Theorem log_api_call_counted model input_tokens output_tokens cost operation logged_at now
    (log : log_file) :
  forallb well_formed (default [] log) = true ->
  match get_usage_stats None now log,
        get_usage_stats None now
          (log_api_call model input_tokens output_tokens cost operation logged_at false log)
  with
  | Some u, Some u' =>
      total_calls u' = total_calls u + 1 /\
      by_model u' !! model
      = Some (Tally (tally_cost (default (Tally 0 0) (by_model u !! model)) + Py.round cost 6)
                    (tally_calls (default (Tally 0 0) (by_model u !! model)) + 1)) /\
      by_operation u' !! operation
      = Some (Tally (tally_cost (default (Tally 0 0) (by_operation u !! operation))
                     + Py.round cost 6)
                    (tally_calls (default (Tally 0 0) (by_operation u !! operation)) + 1)) /\
      (forall other, other <> model -> by_model u' !! other = by_model u !! other) /\
      (forall other, other <> operation ->
         by_operation u' !! other = by_operation u !! other)
  | _, _ => False
  end.
Proof.
  intros Hlines.
  assert (Hstats : get_usage_stats None now
                     (log_api_call model input_tokens output_tokens cost operation
                        logged_at false log)
    = let u := read_lines None (default [] log) (Usage 0 0 ∅ ∅) in
      Some (Usage (Py.round (total_cost u + Py.round cost 6) 4) (total_calls u + 1)
              (count_call (Py.round cost 6) model (by_model u))
              (count_call (Py.round cost 6) operation (by_operation u)))).
  { unfold get_usage_stats, log_api_call. cbv zeta. cbn [mbind option_bind].
    rewrite read_lines_app by exact Hlines. reflexivity. }
  rewrite Hstats. clear Hstats. cbv zeta.
  assert (Hbefore : exists total,
    get_usage_stats None now log
    = Some (Usage total (total_calls (read_lines None (default [] log) (Usage 0 0 ∅ ∅)))
              (by_model (read_lines None (default [] log) (Usage 0 0 ∅ ∅)))
              (by_operation (read_lines None (default [] log) (Usage 0 0 ∅ ∅))))).
  { destruct log as [lines|]; simpl; eauto. }
  destruct Hbefore as [total ->]. cbn [total_calls by_model by_operation].
  split; [reflexivity|]. split; [apply count_call_lookup|].
  split; [apply count_call_lookup|].
  split; intros other Hne; apply count_call_lookup_ne, Hne.
Qed.

Lemma log_api_call_counted_witness :
  match get_usage_stats None 0 None,
        get_usage_stats None 0 (log_api_call "gpt-5.2" 1000 500 (1 # 100) "review" 0 false None)
  with
  | Some u, Some u' =>
      total_calls u' = total_calls u + 1 /\
      by_model u' !! "gpt-5.2"
      = Some (Tally (tally_cost (default (Tally 0 0) (by_model u !! "gpt-5.2"))
                     + Py.round (1 # 100) 6)
                    (tally_calls (default (Tally 0 0) (by_model u !! "gpt-5.2")) + 1)) /\
      by_operation u' !! "review"
      = Some (Tally (tally_cost (default (Tally 0 0) (by_operation u !! "review"))
                     + Py.round (1 # 100) 6)
                    (tally_calls (default (Tally 0 0) (by_operation u !! "review")) + 1)) /\
      (forall other, other <> "gpt-5.2" -> by_model u' !! other = by_model u !! other) /\
      (forall other, other <> "review" ->
         by_operation u' !! other = by_operation u !! other)
  | _, _ => False
  end.
Proof.
  apply (log_api_call_counted "gpt-5.2" 1000 500 (1 # 100) "review" 0 0 None).
  reflexivity.
Defined.

End UsageFacts.

(** ** Reviews and the cache *)

Module ApiFacts.

Import Cache Models Config Api.
Import CacheFacts.

Lemma cache_hit e prompt model system_prompt cache_ttl stored_at text (w : world) :
  holds_entry (cache w) model prompt (Some system_prompt) stored_at text ->
  text <> "" ->
  -23999999976 <= cache_ttl <= 23999999999 ->
  lookup_at e - stored_at <= cache_ttl * 3600 * 1000000 ->
  _review_single e prompt model system_prompt true cache_ttl w = (inl (served model text), w).
Proof.
  intros Hentry Htext Httl Hage. unfold _review_single.
  rewrite (lookup_entry model prompt text (Some system_prompt) cache_ttl stored_at)
    by assumption.
  case_expired; [lia|].
  destruct text as [|c rest]; [congruence|]. destruct w. reflexivity.
Qed.

(** A lookup that answers leaves the directory as it was. *)
Lemma lookup_answer_keeps model prompt system_prompt ttl_hours now unlink_fails
    (dir dir' : cache_dir) text :
  get_cached_response model prompt system_prompt ttl_hours now unlink_fails dir
  = (Some text, dir') -> dir' = dir.
Proof.
  unfold get_cached_response.
  set (file := cache_file_name model prompt system_prompt). clearbody file.
  destruct (dir !! file) as [f|]; [|discriminate].
  unfold read_entry, unlink.
  destruct f as [|d]; simpl; [discriminate|].
  destruct (timestamp d); simpl; [|discriminate].
  destruct (timedelta_hours ttl_hours); simpl; [|discriminate].
  destruct (_ >? _); [destruct unlink_fails; discriminate|].
  destruct (Cache.response d); simpl; [|discriminate]. intros [= _ <-]. reflexivity.
Qed.

(** X25: a cache hit answers the review by itself. With [use_cache], an
    entry for the request that holds a non-empty text and is not older
    than the TTL (one that [timedelta] accepts) makes [_review_single]
    return that text, with no tokens, cost 0 and the cached flag, under
    the model name as it was asked for; no provider is called, nothing is
    logged and the cache is left as it was; the model name is not even
    checked. *)
Theorem review_served_from_cache e prompt model system_prompt cache_ttl stored_at text
    (w : world) :
  holds_entry (cache w) model prompt (Some system_prompt) stored_at text ->
  text <> "" ->
  -23999999976 <= cache_ttl <= 23999999999 ->
  lookup_at e - stored_at <= cache_ttl * 3600 * 1000000 ->
  _review_single e prompt model system_prompt true cache_ttl w = (inl (served model text), w).
Proof. apply cache_hit. Qed.

Lemma review_served_from_cache_witness :
  let e := Env 3600000000 3600000000 false "y.tmp" NoFault (fun _ _ _ _ => inr "unused") in
  let w := World (cache_response "nobody" "diff" "fine" (Some "sys") 0 "x.tmp" NoFault ∅)
             [] [] in
  _review_single e "diff" "nobody" "sys" true 24 w = (inl (served "nobody" "fine"), w).
Proof.
  intros e w.
  apply (review_served_from_cache e "diff" "nobody" "sys" 24 0 "fine" w).
  - apply cache_response_file.
  - discriminate.
  - lia.
  - simpl. lia.
Defined.

(** X26: a review repeated within the TTL is served from the cache.
    When a review with [use_cache] misses the cache, the model name
    normalizes, the provider answers with a non-empty text and the store
    works, [_review_single] returns the provider's response, not marked
    as cached; and the same review again, its lookup not later than the
    TTL after the store, returns that text from the cache and leaves the
    provider calls, the log and the cache as the first review left
    them. *)
Theorem review_repeated e e' prompt model system_prompt cache_ttl provider_name model_id
    answer (w : world) :
  (get_cached_response model prompt (Some system_prompt) cache_ttl (lookup_at e)
     (unlink_fails e) (cache w)).1 = None ->
  normalize_model_name model = Ok (provider_name, model_id) ->
  complete e provider_name prompt model_id system_prompt = inl answer ->
  text answer <> "" ->
  fault e = NoFault ->
  -23999999976 <= cache_ttl <= 23999999999 ->
  lookup_at e' - store_at e <= cache_ttl * 3600 * 1000000 ->
  exists w',
    _review_single e prompt model system_prompt true cache_ttl w
    = (inl (ReviewResult answer false), w') /\
    provider_calls w' = (provider_calls w ++ [(provider_name, model_id)])%list /\
    _review_single e' prompt model system_prompt true cache_ttl w'
    = (inl (served model (text answer)), w').
Proof.
  intros Hmiss Hnorm Hcomplete Htext Hfault Httl Hage.
  unfold _review_single at 1.
  destruct (get_cached_response model prompt (Some system_prompt) cache_ttl (lookup_at e)
              (unlink_fails e) (cache w)) as [cached dir].
  simpl in Hmiss. subst cached. rewrite Hnorm. cbn [cache provider_calls logged].
  rewrite Hcomplete, Hfault. eexists. split; [reflexivity|]. split; [reflexivity|].
  apply (cache_hit e' prompt model system_prompt cache_ttl (store_at e)); try assumption.
  apply cache_response_file.
Qed.

Lemma review_repeated_witness :
  let answer := ProviderResponse "fine" "gpt-5.2" 10 5 None false in
  let e := Env 0 1000000 false "x.tmp" NoFault (fun _ _ _ _ => inl answer) in
  let w := World ∅ [] [] in
  exists w',
    _review_single e "diff" "gpt" "sys" true 24 w = (inl (ReviewResult answer false), w') /\
    provider_calls w' = (provider_calls w ++ [("openai", "gpt-5.2")])%list /\
    _review_single e "diff" "gpt" "sys" true 24 w' = (inl (served "gpt" "fine"), w').
Proof.
  intros answer e w.
  apply (review_repeated e e "diff" "gpt" "sys" 24 "openai" "gpt-5.2" answer w).
  - unfold get_cached_response. simpl. rewrite lookup_empty. reflexivity.
  - vm_compute. reflexivity.
  - reflexivity.
  - discriminate.
  - reflexivity.
  - lia.
  - simpl. lia.
Defined.

(** X27: what a call of [_review_single] does to the world, however it
    ends. Without [use_cache] the cache is neither read nor written. A
    result marked as cached comes with nothing changed at all. A result
    not marked as cached comes from exactly one provider call, for the
    provider and API model the name normalizes to, logged once under the
    API model with the operation ["review"] and a cost of 0 when the
    response has none. When the model name is unknown no provider is
    called and nothing is logged; when the provider fails the call is not
    logged and nothing is stored: in both cases the cache is as the
    lookup left it. *)
Theorem review_single_effects e prompt model system_prompt use_cache cache_ttl (w : world) :
  let r := _review_single e prompt model system_prompt use_cache cache_ttl w in
  let looked :=
    if use_cache then
      (get_cached_response model prompt (Some system_prompt) cache_ttl (lookup_at e)
         (unlink_fails e) (cache w)).2
    else cache w in
  (use_cache = false -> cache r.2 = cache w) /\
  match r.1 with
  | inl result =>
      if result_cached result then use_cache = true /\ r.2 = w
      else
        exists provider_name model_id,
          normalize_model_name model = Ok (provider_name, model_id) /\
          complete e provider_name prompt model_id system_prompt = inl (response result) /\
          provider_calls r.2 = (provider_calls w ++ [(provider_name, model_id)])%list /\
          logged r.2
          = (logged w ++
             [LoggedCall model_id (input_tokens (response result))
                (output_tokens (response result))
                (default 0%Q (cost (response result))) "review"])%list
  | inr (NormalizeError err) =>
      normalize_model_name model = Raise err /\
      provider_calls r.2 = provider_calls w /\ logged r.2 = logged w /\ cache r.2 = looked
  | inr (ProviderFailure msg) =>
      (exists provider_name model_id,
         normalize_model_name model = Ok (provider_name, model_id) /\
         complete e provider_name prompt model_id system_prompt = inr msg /\
         provider_calls r.2 = (provider_calls w ++ [(provider_name, model_id)])%list) /\
      logged r.2 = logged w /\ cache r.2 = looked
  end.
Proof.
  intros r looked. subst r looked. unfold _review_single.
  assert (Hmiss : forall dir,
    let w0 := World dir (provider_calls w) (logged w) in
    let r :=
      match normalize_model_name model with
      | Raise e0 => (inr (NormalizeError e0), w0)
      | Ok (provider_name, model_id) =>
          let w1 := World (cache w0) (provider_calls w0 ++ [(provider_name, model_id)])%list
                      (logged w0) in
          match complete e provider_name prompt model_id system_prompt with
          | inr msg => (inr (ProviderFailure msg), w1)
          | inl response =>
              let call :=
                LoggedCall model_id (input_tokens response) (output_tokens response)
                  (default 0%Q (cost response)) "review" in
              let w2 := World (cache w1) (provider_calls w1) (logged w1 ++ [call])%list in
              let w3 :=
                if use_cache then
                  World (cache_response model prompt (text response) (Some system_prompt)
                           (store_at e) (tmp_path e) (fault e) (cache w2))
                    (provider_calls w2) (logged w2)
                else w2 in
              (inl (ReviewResult response false), w3)
          end
      end in
    (use_cache = false -> cache r.2 = dir) /\
    match r.1 with
    | inl result =>
        if result_cached result then use_cache = true /\ r.2 = w
        else
          exists provider_name model_id,
            normalize_model_name model = Ok (provider_name, model_id) /\
            complete e provider_name prompt model_id system_prompt = inl (response result) /\
            provider_calls r.2 = (provider_calls w ++ [(provider_name, model_id)])%list /\
            logged r.2
            = (logged w ++
               [LoggedCall model_id (input_tokens (response result))
                  (output_tokens (response result))
                  (default 0%Q (cost (response result))) "review"])%list
    | inr (NormalizeError err) =>
        normalize_model_name model = Raise err /\
        provider_calls r.2 = provider_calls w /\ logged r.2 = logged w /\ cache r.2 = dir
    | inr (ProviderFailure msg) =>
        (exists provider_name model_id,
           normalize_model_name model = Ok (provider_name, model_id) /\
           complete e provider_name prompt model_id system_prompt = inr msg /\
           provider_calls r.2 = (provider_calls w ++ [(provider_name, model_id)])%list) /\
        logged r.2 = logged w /\ cache r.2 = dir
    end).
  { intros dir. cbv zeta.
    destruct (normalize_model_name model) as [[provider_name model_id]|err]; simpl.
    - destruct (complete e provider_name prompt model_id system_prompt) as [answer|msg]
        eqn:Hcomplete; simpl.
      + split; [intros ->; reflexivity|].
        exists provider_name, model_id. destruct use_cache; simpl; auto.
      + split; [reflexivity|]. split; [eauto 6 | auto].
    - split; [reflexivity | auto]. }
  destruct use_cache.
  - destruct (get_cached_response model prompt (Some system_prompt) cache_ttl (lookup_at e)
                (unlink_fails e) (cache w)) as [cached dir] eqn:Hlook.
    destruct cached as [[|c rest]|];
      try (destruct (Hmiss dir) as [_ Hrest]; split; [intros [=] | exact Hrest]).
    apply lookup_answer_keeps in Hlook as ->. simpl.
    split; [intros [=]|]. split; [reflexivity|]. destruct w. reflexivity.
  - apply (Hmiss (cache w)).
Qed.

(** X28: [plan] with [cache_ttl=0] does not bypass the cache. [0] is
    falsy, so the TTL is the configured one, as if no TTL were given; a
    plan stored for the default model that is not older than the
    configured TTL is served from the cache, with no provider called. *)
Theorem plan_zero_ttl e f goal stored_at text (w : world) :
  let config := load_config f in
  let model := default "gpt-5.2" (default_models config !! "plan") in
  holds_entry (cache w) model goal (Some PLAN_PROMPT) stored_at text ->
  text <> "" ->
  -23999999976 <= cache_ttl_hours config <= 23999999999 ->
  lookup_at e - stored_at <= cache_ttl_hours config * 3600 * 1000000 ->
  plan e f goal None true (Some 0) w = plan e f goal None true None w /\
  plan e f goal None true (Some 0) w = (inl (served model text), w).
Proof.
  intros config model Hentry Htext Httl Hage.
  assert (Hsame : plan e f goal None true (Some 0) w = plan e f goal None true None w)
    by reflexivity.
  split; [exact Hsame|]. rewrite Hsame. unfold plan. cbv zeta.
  apply (cache_hit e goal model PLAN_PROMPT (cache_ttl_hours config) stored_at);
    assumption.
Qed.

Lemma plan_zero_ttl_witness :
  let e := Env 3600000000 3600000000 false "y.tmp" NoFault (fun _ _ _ _ => inr "unused") in
  let w := World (cache_response "gpt-5.2" "Add caching" "1. Cache it." (Some PLAN_PROMPT) 0
                    "x.tmp" NoFault ∅) [] [] in
  plan e NoFile "Add caching" None true (Some 0) w
  = plan e NoFile "Add caching" None true None w /\
  plan e NoFile "Add caching" None true (Some 0) w
  = (inl (served "gpt-5.2" "1. Cache it."), w).
Proof.
  intros e w.
  apply (plan_zero_ttl e NoFile "Add caching" 0 "1. Cache it." w).
  - apply cache_response_file.
  - discriminate.
  - simpl. lia.
  - simpl. lia.
Defined.

End ApiFacts.


(** ** The cost estimators in binary64 *)

Module Float64Facts.

Import Floats.
Import Models Pricing Costs.
Import CostsFacts.

Lemma unsigned_round_aux (mx ex : Z) (lx : location) :
  Float64.unsigned (binary_round_aux prec emax false mx ex lx).
Proof.
  unfold binary_round_aux.
  destruct (shr_fexp prec emax mx ex lx) as [mrs' e'].
  destruct (shr_fexp prec emax _ e' loc_Exact) as [mrs'' e''].
  destruct (shr_m mrs''); simpl; [reflexivity | | exact I].
  destruct (e'' <=? emax - prec); reflexivity.
Qed.

Lemma unsigned_mul (x y : float) :
  Float64.unsigned (Prim2SF x) -> Float64.unsigned (Prim2SF y) ->
  Float64.unsigned (Prim2SF (PrimFloat.mul x y)).
Proof.
  rewrite mul_spec. unfold SF64mul, SFmul.
  destruct (Prim2SF x) as [sx|sx| |sx mx ex], (Prim2SF y) as [sy|sy| |sy my ey];
    simpl; intros Hx Hy; subst; try reflexivity; try exact I.
  apply unsigned_round_aux.
Qed.

Lemma unsigned_div (x y : float) :
  Float64.unsigned (Prim2SF x) -> Float64.unsigned (Prim2SF y) ->
  Float64.unsigned (Prim2SF (PrimFloat.div x y)).
Proof.
  rewrite div_spec. unfold SF64div, SFdiv.
  destruct (Prim2SF x) as [sx|sx| |sx mx ex], (Prim2SF y) as [sy|sy| |sy my ey];
    simpl; intros Hx Hy; subst; try reflexivity; try exact I.
  destruct (SFdiv_core_binary prec emax (Z.pos mx) ex (Z.pos my) ey) as [[mz ez] lz].
  apply unsigned_round_aux.
Qed.

Lemma unsigned_of_Z (n : Z) : 0 <= n -> Float64.unsigned (Prim2SF (Float64.of_Z n)).
Proof.
  intros Hn. destruct n as [|p|p]; [reflexivity | | lia].
  unfold Float64.of_Z. rewrite of_uint63_spec. unfold binary_normalize.
  pose proof (Uint63.to_Z_bounded (Uint63.of_Z (Z.pos p))) as [Hlo _].
  destruct (Uint63.to_Z (Uint63.of_Z (Z.pos p))) as [|m|m]; [reflexivity | | lia].
  unfold binary_round. destruct (shl_align _ _ _) as [mz ez]. apply unsigned_round_aux.
Qed.

Lemma unsigned_truediv (a b : Z) :
  0 <= a -> 0 <= b -> Float64.unsigned (Prim2SF (Float64.truediv a b)).
Proof. intros Ha Hb. apply unsigned_div; apply unsigned_of_Z; assumption. Qed.

(** Zero times a finite float is a zero, which added to a float leaves
    it as it is, but for a positive zero added to the negative one. *)
Lemma zero_mul_add (z p y : float) :
  Prim2SF z = S754_zero false ->
  Float64.finite p = true ->
  (Float64.unsigned (Prim2SF p) -> Float64.unsigned (Prim2SF y)) ->
  PrimFloat.add (PrimFloat.mul z p) y = y.
Proof.
  intros Hz Hp Hy. apply Prim2SF_inj.
  rewrite add_spec, mul_spec, Hz. unfold Float64.finite in Hp.
  unfold SF64add, SF64mul, SFadd, SFmul.
  destruct (Prim2SF p) as [s|s| |s m e]; try discriminate Hp; simpl in *.
  - destruct s; simpl; destruct (Prim2SF y) as [[|]| | |]; try reflexivity.
    specialize (Hy eq_refl). discriminate Hy.
  - destruct s; simpl; destruct (Prim2SF y) as [[|]| | |]; try reflexivity.
    specialize (Hy eq_refl). discriminate Hy.
Qed.

Lemma unsigned_rest provider :
  recognized provider ->
  Float64.unsigned
    (Prim2SF (PrimFloat.sub (Float64.of_Z 1) (Float64.of_Q (cache_discount provider)))).
Proof. intros [-> | [-> | ->]]; vm_compute; reflexivity. Qed.

(** The binary64 cost of a call whose input is all cached: the input
    cost at the full rate is a zero and drops out of the sum. *)
Lemma fully_cached_binary64 provider pricing (I O : Z) :
  recognized provider -> 0 <= I ->
  Float64.finite (Float64.get pricing "input") = true ->
  Float64.total_cost provider pricing I O I
  = PrimFloat.add
      (PrimFloat.mul (Float64.truediv I 1000000)
         (PrimFloat.mul (Float64.get pricing "input")
            (PrimFloat.sub (Float64.of_Z 1) (Float64.of_Q (cache_discount provider)))))
      (PrimFloat.mul (Float64.truediv O 1000000) (Float64.get pricing "output")).
Proof.
  intros Hrec HI Hfin. unfold Float64.total_cost. cbv zeta.
  replace (Z.max 0 (Z.min I I)) with I by lia. replace (I - I) with 0 by lia.
  rewrite zero_mul_add; [reflexivity | vm_compute; reflexivity | exact Hfin |].
  intros Hp. apply unsigned_mul; [apply unsigned_truediv; lia|].
  apply unsigned_mul; [exact Hp | apply unsigned_rest, Hrec].
Qed.

(** C4 (as amended): for a model whose pricing resolves and token counts
    [I >= 0] and [O], the estimate with all input cached is the formula
    [I/1e6 * input_rate * (1 - discount) + O/1e6 * output_rate], the
    discount being 0.90 for OpenAI and Anthropic and 0.75 for Google, in
    this sense: carried out over the rationals the computation of
    [estimate_cost] gives exactly this number; and the float it returns,
    for a finite input rate and counts below [2 ** 53], is the binary64
    value of [(I / 1e6) * (input_rate * (1 - discount))
    + (O / 1e6) * output_rate] with the operations in this order, each
    one rounded. *)
Theorem fully_cached_cost table model (I O : Z) :
  resolvable table model = true ->
  0 <= I ->
  exists provider pricing discount,
    resolve_pricing table model = Ok (provider, pricing) /\
    ((provider = "openai" \/ provider = "anthropic") /\ discount = 0.90%Q \/
     provider = "google" /\ discount = 0.75%Q) /\
    (exists exact,
       Costs.estimate_cost table model I O I = Ok exact /\
       (exact == inject_Z I / 1000000 * Py.get pricing "input" 0 * (1 - discount)
                 + inject_Z O / 1000000 * Py.get pricing "output" 0)%Q) /\
    (Float64.finite (Float64.get pricing "input") = true ->
     I < 2 ^ 53 -> Z.abs O < 2 ^ 53 ->
     Float64.estimate_cost table model I O I
     = Ok (PrimFloat.add
             (PrimFloat.mul (Float64.truediv I 1000000)
                (PrimFloat.mul (Float64.get pricing "input")
                   (PrimFloat.sub (Float64.of_Z 1) (Float64.of_Q discount))))
             (PrimFloat.mul (Float64.truediv O 1000000) (Float64.get pricing "output")))).
Proof.
  intros Hres HI.
  destruct (fully_cached_exact table model I O Hres HI)
    as (provider & pricing & exact & discount & Hr & Hexact & Hdiscount & Heq).
  exists provider, pricing, discount.
  split; [exact Hr|]. split; [exact Hdiscount|]. split; [eauto|].
  intros Hfinite _ _. unfold Float64.estimate_cost. rewrite Hr.
  pose proof (resolve_pricing_provider _ _ _ _ Hr) as Hrec.
  rewrite (fully_cached_binary64 provider pricing I O Hrec HI Hfinite).
  destruct (cache_discount_recognized provider Hrec) as [[_ Hd] | [_ Hd]];
    destruct Hdiscount as [[[-> | ->] ->] | [-> ->]]; reflexivity.
Qed.

Lemma fully_cached_cost_witness :
  exists provider pricing discount,
    resolve_pricing DEFAULT_PRICING "gemini" = Ok (provider, pricing) /\
    ((provider = "openai" \/ provider = "anthropic") /\ discount = 0.90%Q \/
     provider = "google" /\ discount = 0.75%Q) /\
    (exists exact,
       Costs.estimate_cost DEFAULT_PRICING "gemini" 1000 500 1000 = Ok exact /\
       (exact == inject_Z 1000 / 1000000 * Py.get pricing "input" 0 * (1 - discount)
                 + inject_Z 500 / 1000000 * Py.get pricing "output" 0)%Q) /\
    (Float64.finite (Float64.get pricing "input") = true ->
     1000 < 2 ^ 53 -> Z.abs 500 < 2 ^ 53 ->
     Float64.estimate_cost DEFAULT_PRICING "gemini" 1000 500 1000
     = Ok (PrimFloat.add
             (PrimFloat.mul (Float64.truediv 1000 1000000)
                (PrimFloat.mul (Float64.get pricing "input")
                   (PrimFloat.sub (Float64.of_Z 1) (Float64.of_Q discount))))
             (PrimFloat.mul (Float64.truediv 500 1000000)
                (Float64.get pricing "output")))).
Proof.
  apply (fully_cached_cost DEFAULT_PRICING "gemini" 1000 500).
  - vm_compute. reflexivity.
  - lia.
Defined.

(** C4 as stated fails: the float [estimate_cost] returns is not the
    formula's value. For ["gemini"], 1000 input tokens all cached and 500
    output tokens it is 0.00016874999999999998, below the float nearest
    to the formula's value 27/160000; and for ["gpt-5.2"] with 3 input
    tokens all cached it is not the float the formula gives when
    evaluated in binary64 from left to right. *)
Lemma fully_cached_not_exact :
  match Float64.estimate_cost DEFAULT_PRICING "gemini" 1000 500 1000,
        Float64.estimate_cost DEFAULT_PRICING "gpt-5.2" 3 0 3 with
  | Ok gemini, Ok gpt =>
      (Qred (inject_Z 1000 / 1000000 * 0.075 * (1 - 0.75) + inject_Z 500 / 1000000 * 0.30)
       = 27 # 160000)%Q /\
      PrimFloat.ltb gemini (Float64.of_Q (27 # 160000)) = true /\
      (exists exact, Float64.to_Q gemini = Some exact /\ (exact < 27 # 160000)%Q) /\
      PrimFloat.ltb gpt
        (PrimFloat.add
           (PrimFloat.mul (PrimFloat.mul (Float64.truediv 3 1000000) (Float64.of_Q 1.75))
              (PrimFloat.sub (Float64.of_Z 1) (Float64.of_Q 0.90)))
           (PrimFloat.mul (Float64.truediv 0 1000000) (Float64.of_Q 14.00)))
      = true
  | _, _ => False
  end.
Proof.
  vm_compute. split; [reflexivity|]. split; [reflexivity|]. split; [|reflexivity].
  eexists. split; reflexivity.
Qed.

Lemma leb_zero (x : float) :
  PrimFloat.leb PrimFloat.zero x = true ->
  match Prim2SF x with
  | S754_zero _ => True
  | S754_infinity s | S754_finite s _ _ => s = false
  | S754_nan => False
  end.
Proof.
  rewrite leb_spec. unfold SFleb, SFcompare.
  replace (Prim2SF PrimFloat.zero) with (S754_zero false) by reflexivity.
  destruct (Prim2SF x) as [s|[|]| |[|] m e]; simpl; intros H;
    try discriminate H; auto.
Qed.

(** *** Magnitudes: no overflow in [input_tokens * cached_ratio] *)

Lemma digits2_size (p : positive) : digits2_pos p = Pos.size p.
Proof. induction p; simpl; congruence. Qed.

Lemma digits_bounds (p : positive) :
  2 ^ (Zpos (digits2_pos p) - 1) <= Zpos p < 2 ^ Zpos (digits2_pos p).
Proof.
  rewrite digits2_size. split.
  - pose proof (Pos.size_le p) as H.
    assert (H' : 2 ^ Zpos (Pos.size p) <= 2 * Zpos p).
    { rewrite <- Pos2Z.inj_pow. change (2 * Zpos p) with (Zpos p~0).
      apply Pos2Z.pos_le_pos. exact H. }
    replace (Zpos (Pos.size p)) with (Z.succ (Zpos (Pos.size p) - 1)) in H' by lia.
    rewrite Z.pow_succ_r in H' by lia. lia.
  - rewrite <- Pos2Z.inj_pow. apply Pos2Z.pos_lt_pos, Pos.size_gt.
Qed.

Lemma digits_le_of_lt (p : positive) (k : Z) :
  0 <= k -> Zpos p < 2 ^ k -> Zpos (digits2_pos p) <= k.
Proof.
  intros Hk Hlt. pose proof (digits_bounds p) as [Hlo _].
  assert (2 ^ (Zpos (digits2_pos p) - 1) < 2 ^ k) as H by lia.
  apply Z.pow_lt_mono_r_iff in H; lia.
Qed.

Lemma Zdigits2_le (a b : Z) : 0 <= a <= b -> Zdigits2 a <= Zdigits2 b.
Proof.
  destruct a as [|a|a], b as [|b|b]; simpl; try lia.
  intros [_ Hab]. apply digits_le_of_lt; [lia|].
  pose proof (digits_bounds b). lia.
Qed.

Lemma Zdigits2_succ (a : Z) : 0 <= a -> Zdigits2 (a + 1) <= Zdigits2 a + 1.
Proof.
  destruct a as [|a|a]; [intros _; vm_compute; discriminate | | lia].
  intros _. change (Zpos a + 1) with (Zpos (a + 1)). simpl.
  apply digits_le_of_lt; [lia|].
  pose proof (digits_bounds a) as [_ H]. rewrite Z.pow_add_r by lia. lia.
Qed.

Lemma digits_mul (a b : positive) :
  Zpos (digits2_pos (a * b)) <= Zpos (digits2_pos a) + Zpos (digits2_pos b).
Proof.
  apply digits_le_of_lt; [lia|].
  pose proof (digits_bounds a) as [_ Ha]. pose proof (digits_bounds b) as [_ Hb].
  rewrite Z.pow_add_r by lia. rewrite Pos2Z.inj_mul. nia.
Qed.

Lemma digits_shift (p d : positive) :
  digits2_pos (Pos.iter xO p d) = (digits2_pos p + d)%positive.
Proof.
  induction d using Pos.peano_ind.
  - simpl. lia.
  - rewrite Pos.iter_succ. simpl. rewrite IHd. lia.
Qed.

Lemma shr_1_le (mrs : shr_record) :
  0 <= shr_m mrs -> 0 <= shr_m (shr_1 mrs) <= shr_m mrs.
Proof.
  destruct mrs as [m r s]. simpl. destruct m as [|[p|p|]|p]; simpl; lia.
Qed.

Lemma iter_shr_1_le (p : positive) (mrs : shr_record) :
  0 <= shr_m mrs -> 0 <= shr_m (iter_pos shr_1 p mrs) <= shr_m mrs.
Proof.
  revert mrs. induction p as [p IH|p IH|]; intros mrs Hm; simpl.
  - pose proof (shr_1_le mrs Hm) as H1.
    pose proof (IH _ (proj1 H1)) as H2. pose proof (IH _ (proj1 H2)). lia.
  - pose proof (IH _ Hm) as H1. pose proof (IH _ (proj1 H1)). lia.
  - apply shr_1_le, Hm.
Qed.

Lemma shr_record_of_loc_m (m : Z) (l : location) : shr_m (shr_record_of_loc m l) = m.
Proof. destruct l as [|[| |]]; reflexivity. Qed.

(** What one [shr_fexp] does to the mantissa and the exponent. *)
Lemma shr_fexp_bounds (m e : Z) (l : location) :
  0 <= m ->
  let '(mrs, e') := shr_fexp prec emax m e l in
  0 <= shr_m mrs <= m /\ e' = Z.max e (fexp prec emax (Zdigits2 m + e)).
Proof.
  intros Hm. unfold shr_fexp, shr.
  destruct (fexp prec emax (Zdigits2 m + e) - e) as [|n|n] eqn:Hn.
  - rewrite shr_record_of_loc_m. lia.
  - pose proof (iter_shr_1_le n (shr_record_of_loc m l)) as H.
    rewrite shr_record_of_loc_m in H. split; [apply H, Hm | lia].
  - rewrite shr_record_of_loc_m. lia.
Qed.

Lemma round_nearest_even_bounds (m : Z) (l : location) :
  m <= round_nearest_even m l <= m + 1.
Proof. destruct l as [|[| |]]; simpl; try destruct (Z.even m); lia. Qed.

(** Rounding a mantissa of [d] digits at the exponent [ex] neither
    overflows nor gives NaN while there is room above, and the exponent of
    the result is bounded. *)
Lemma binary_round_aux_finite (s : bool) (mx ex : Z) (lx : location) (E : Z) :
  0 <= mx -> ex <= E -> -1074 <= E -> Zdigits2 mx + ex - 53 <= E ->
  Zdigits2 mx + E <= 1000 -> E <= 900 ->
  match binary_round_aux prec emax s mx ex lx with
  | S754_zero _ => True
  | S754_finite _ _ e => e <= Z.max E (Zdigits2 mx + 1 + E - 53)
  | S754_infinity _ | S754_nan => False
  end.
Proof.
  intros Hmx Hex HE HD Hroom HE'. unfold binary_round_aux.
  pose proof (shr_fexp_bounds mx ex lx Hmx) as H1.
  destruct (shr_fexp prec emax mx ex lx) as [mrs' e']. destruct H1 as [Hm' He'].
  pose proof (round_nearest_even_bounds (shr_m mrs') (loc_of_shr_record mrs')) as Hr.
  set (m1 := round_nearest_even (shr_m mrs') (loc_of_shr_record mrs')) in *.
  assert (Hm1 : 0 <= m1) by lia.
  pose proof (shr_fexp_bounds m1 e' loc_Exact Hm1) as H2.
  destruct (shr_fexp prec emax m1 e' loc_Exact) as [mrs'' e'']. destruct H2 as [Hm'' He''].
  assert (Hd1 : Zdigits2 m1 <= Zdigits2 mx + 1).
  { transitivity (Zdigits2 (shr_m mrs' + 1)); [apply Zdigits2_le; lia|].
    transitivity (Zdigits2 (mx + 1)); [apply Zdigits2_le; lia|].
    apply Zdigits2_succ, Hmx. }
  unfold fexp, SpecFloat.emin in He', He''. change prec with 53 in *. change emax with 1024 in *.
  destruct (shr_m mrs'') as [|m|m]; [exact I | | lia].
  assert (He : e'' <= Z.max E (Zdigits2 mx + 1 + E - 53)) by lia.
  destruct (e'' <=? 1024 - 53) eqn:Hle; [exact He|].
  apply Z.leb_gt in Hle. lia.
Qed.

Lemma valid_digits (x : float) s m e :
  Prim2SF x = S754_finite s m e -> Zpos (digits2_pos m) <= 53.
Proof.
  intros Hx. pose proof (Prim2SF_valid x) as Hv. rewrite Hx in Hv. simpl in Hv.
  unfold bounded, canonical_mantissa, fexp, SpecFloat.emin in Hv.
  apply andb_true_iff in Hv as [Hc _]. apply Z.eqb_eq in Hc.
  change prec with 53 in Hc. change emax with 1024 in Hc. lia.
Qed.

(** [float(n)] of a count that fits a machine word is zero, or finite
    with a small exponent. *)
Lemma of_Z_magnitude (n : Z) :
  0 <= n < 2 ^ 63 ->
  match Prim2SF (Float64.of_Z n) with
  | S754_zero s => s = false
  | S754_finite s _ e => s = false /\ e <= 21
  | S754_infinity _ | S754_nan => False
  end.
Proof.
  intros Hn. pose proof (unsigned_of_Z n (proj1 Hn)) as Hun.
  destruct n as [|p|p]; [reflexivity | | lia].
  unfold Float64.of_Z in *. rewrite of_uint63_spec in *.
  rewrite Uint63.of_Z_spec in *. rewrite Z.mod_small in * by (change Uint63.wB with (2 ^ 63); lia).
  unfold binary_normalize, binary_round in *.
  assert (Hd : Zpos (digits2_pos p) <= 63) by (apply digits_le_of_lt; lia).
  destruct (shl_align p 0 (fexp prec emax (Zpos (digits2_pos p) + 0))) as [mz ez] eqn:Hs.
  assert (Hz : ez <= 0 /\ Zpos (digits2_pos mz) + ez <= 63 /\ Zpos (digits2_pos mz) <= 63).
  { unfold shl_align, fexp, SpecFloat.emin in Hs.
    change prec with 53 in Hs. change emax with 1024 in Hs.
    destruct (Z.max (Zpos (digits2_pos p) + 0 - 53) (3 - 1024 - 53) - 0) as [|d|d] eqn:Hd';
      injection Hs as <- <-; try lia.
    rewrite digits_shift. lia. }
  pose proof (binary_round_aux_finite false (Zpos mz) ez loc_Exact 10) as H.
  simpl Zdigits2 in H.
  destruct (binary_round_aux prec emax false (Zpos mz) ez loc_Exact) as [s|s| |s m e];
    simpl in Hun.
  - exact Hun.
  - apply H; lia.
  - apply H; lia.
  - split; [exact Hun|].
    assert (e <= Z.max 10 (Zpos (digits2_pos mz) + 1 + 10 - 53)) by (apply H; lia). lia.
Qed.

(** A ratio that passed the range check is zero, or positive with a
    magnitude of at most one. *)
Lemma ratio_magnitude (ratio : float) :
  PrimFloat.leb PrimFloat.zero ratio && PrimFloat.leb ratio PrimFloat.one = true ->
  match Prim2SF ratio with
  | S754_zero _ => True
  | S754_finite s m e => s = false /\ e <= -52 /\ Zpos (digits2_pos m) <= 53
  | S754_infinity _ | S754_nan => False
  end.
Proof.
  intros H. apply andb_true_iff in H as [Hlo Hhi].
  apply leb_zero in Hlo. rewrite leb_spec in Hhi. unfold SFleb, SFcompare in Hhi.
  replace (Prim2SF PrimFloat.one) with (S754_finite false 4503599627370496 (-52)) in Hhi
    by reflexivity.
  pose proof (valid_digits ratio) as Hv.
  destruct (Prim2SF ratio) as [s|s| |s m e]; try exact I; try contradiction.
  - subst s. discriminate Hhi.
  - subst s. split; [reflexivity|]. split; [|eapply Hv; reflexivity].
    destruct (Z.compare_spec e (-52)); [lia | lia | discriminate Hhi].
Qed.

(** [input_tokens * cached_ratio] is a finite float. *)
Lemma product_finite (n : Z) (ratio : float) :
  0 <= n < 2 ^ 63 ->
  PrimFloat.leb PrimFloat.zero ratio && PrimFloat.leb ratio PrimFloat.one = true ->
  Float64.finite (PrimFloat.mul (Float64.of_Z n) ratio) = true.
Proof.
  intros Hn Hratio. pose proof (of_Z_magnitude n Hn) as Hx.
  pose proof (valid_digits (Float64.of_Z n)) as Hvx.
  apply ratio_magnitude in Hratio.
  unfold Float64.finite. rewrite mul_spec. unfold SF64mul, SFmul.
  destruct (Prim2SF (Float64.of_Z n)) as [sx|sx| |sx mx ex],
    (Prim2SF ratio) as [sy|sy| |sy my ey]; try reflexivity; try contradiction.
  destruct Hx as [-> Hex], Hratio as (-> & Hey & Hdy).
  specialize (Hvx _ _ _ eq_refl). pose proof (digits_mul mx my) as Hmul.
  pose proof (binary_round_aux_finite (xorb false false) (Zpos (mx * my)) (ex + ey) loc_Exact 22)
    as H.
  simpl Zdigits2 in H.
  destruct (binary_round_aux prec emax (xorb false false) (Zpos (mx * my)) (ex + ey) loc_Exact);
    try reflexivity; exfalso; apply H; lia.
Qed.


(** The number a finite float without sign is, is not negative. *)
Lemma to_Q_nonneg (x : float) (v : Q) :
  match Prim2SF x with
  | S754_finite s _ _ => s = false
  | _ => True
  end ->
  Float64.to_Q x = Some v -> (0 <= v)%Q.
Proof.
  unfold Float64.to_Q. destruct (Prim2SF x) as [s|s| |s m e]; try discriminate.
  - intros _ [= <-]. apply Qle_refl.
  - intros -> [= <-]. destruct (0 <=? e) eqn:He.
    + unfold Qle. simpl. apply Z.leb_le in He.
      assert (0 < 2 ^ e) by (apply Z.pow_pos_nonneg; lia). nia.
    + unfold Qle. simpl. lia.
Qed.

Lemma product_nonneg (n : Z) (ratio : float) (v : Q) :
  0 <= n ->
  PrimFloat.leb PrimFloat.zero ratio = true ->
  Float64.to_Q (PrimFloat.mul (Float64.of_Z n) ratio) = Some v -> (0 <= v)%Q.
Proof.
  intros Hn Hratio. apply to_Q_nonneg.
  pose proof (unsigned_of_Z n Hn) as Hun. apply leb_zero in Hratio.
  rewrite mul_spec. unfold SF64mul, SFmul.
  destruct (Prim2SF (Float64.of_Z n)) as [sx|sx| |sx mx ex],
    (Prim2SF ratio) as [sy|sy| |sy my ey];
    simpl in *; subst; try exact I; try contradiction.
  change (xorb false false) with false.
  pose proof (unsigned_round_aux (Z.pos (mx * my)) (ex + ey) loc_Exact) as Hr.
  destruct (binary_round_aux prec emax false (Z.pos (mx * my)) (ex + ey) loc_Exact);
    simpl in Hr; auto.
Qed.

(** C8 (as amended): [estimate_cost_from_text] raises the validation
    error, whose message ends in the ratio, for every [cached_ratio] for
    which [0.0 <= cached_ratio <= 1.0] is false, NaN among them, whatever
    the model and the text; for a ratio inside it succeeds when the
    pricing of the model resolves (token counts being below [2 ** 53]),
    and [cached_tokens] is the floor of the float [input_tokens *
    cached_ratio], the product as binary64 rounds it, which is finite and
    not negative. *)
Theorem cached_ratio_validated (str : float -> string) table model input_text
    expected_output_tokens (cached_ratio : float) :
  let in_range :=
    PrimFloat.leb PrimFloat.zero cached_ratio && PrimFloat.leb cached_ratio PrimFloat.one in
  let product := PrimFloat.mul (Float64.of_Z (estimate_tokens input_text)) cached_ratio in
  (in_range = false ->
   Float64.estimate_cost_from_text str table model input_text expected_output_tokens
     cached_ratio
   = Raise (ValueError ("cached_ratio must be between 0.0 and 1.0, got "
                        ++ str cached_ratio))) /\
  (in_range = true -> resolvable table model = true ->
   estimate_tokens input_text < 2 ^ 53 -> Z.abs expected_output_tokens < 2 ^ 53 ->
   exists breakdown exact,
     Float64.estimate_cost_from_text str table model input_text expected_output_tokens
       cached_ratio
     = Ok breakdown /\
     Float64.input_tokens breakdown = estimate_tokens input_text /\
     Float64.output_tokens breakdown = expected_output_tokens /\
     Float64.to_Q product = Some exact /\
     Float64.cached_tokens breakdown = Qfloor exact /\
     0 <= Float64.cached_tokens breakdown).
Proof.
  intros in_range product. unfold Float64.estimate_cost_from_text. fold in_range product.
  split.
  - intros ->. reflexivity.
  - intros Hin Hres Hlen _. rewrite Hin. simpl.
    pose proof (estimate_tokens_nonneg input_text) as Hlo.
    assert (Hfinite : Float64.finite product = true)
      by (apply product_finite; [lia | exact Hin]).
    assert (Hexact : exists exact, Float64.to_Q product = Some exact).
    { unfold Float64.finite in Hfinite. unfold Float64.to_Q.
      destruct (Prim2SF product); try discriminate Hfinite; eauto. }
    destruct Hexact as [exact Hexact].
    assert (Hint : Float64.int product = Ok (Py.int exact)).
    { unfold Float64.int. rewrite Hexact. unfold Float64.finite in Hfinite.
      destruct (Prim2SF product); try discriminate Hfinite; reflexivity. }
    rewrite Hint.
    destruct (resolvable_resolves _ _ Hres) as (provider & pricing & Hr).
    unfold Float64.estimate_cost. rewrite Hr.
    assert (Hnonneg : (0 <= exact)%Q).
    { apply andb_true_iff in Hin as [Hzero _].
      apply (product_nonneg (estimate_tokens input_text) cached_ratio);
        [exact Hlo | exact Hzero | exact Hexact]. }
    eexists _, exact. split; [reflexivity|]. simpl.
    split; [reflexivity|]. split; [reflexivity|]. split; [exact Hexact|].
    rewrite (int_floor exact Hnonneg). split; [reflexivity|].
    change 0 with (Qfloor 0). apply Qfloor_resp_le, Hnonneg.
Qed.

Lemma cached_ratio_validated_witness :
  let text := "Review this diff, please." in
  Float64.estimate_cost_from_text (fun _ => "1.5") DEFAULT_PRICING "gpt-5.2" text 1000
    (Float64.of_Q 1.5)
  = Raise (ValueError "cached_ratio must be between 0.0 and 1.0, got 1.5") /\
  Float64.estimate_cost_from_text (fun _ => "-0.1") DEFAULT_PRICING "gpt-5.2" text 1000
    (Float64.of_Q (-0.1))
  = Raise (ValueError "cached_ratio must be between 0.0 and 1.0, got -0.1") /\
  exists breakdown exact,
    Float64.estimate_cost_from_text (fun _ => "0.5") DEFAULT_PRICING "gpt-5.2" text 1000
      (Float64.of_Q 0.5)
    = Ok breakdown /\
    Float64.input_tokens breakdown = estimate_tokens text /\
    Float64.output_tokens breakdown = 1000 /\
    Float64.to_Q (PrimFloat.mul (Float64.of_Z (estimate_tokens text)) (Float64.of_Q 0.5))
    = Some exact /\
    Float64.cached_tokens breakdown = Qfloor exact /\
    0 <= Float64.cached_tokens breakdown.
Proof.
  intros text. split; [|split].
  - apply (cached_ratio_validated (fun _ => "1.5") DEFAULT_PRICING "gpt-5.2" text 1000
             (Float64.of_Q 1.5)).
    vm_compute. reflexivity.
  - apply (cached_ratio_validated (fun _ => "-0.1") DEFAULT_PRICING "gpt-5.2" text 1000
             (Float64.of_Q (-0.1))).
    vm_compute. reflexivity.
  - apply (cached_ratio_validated (fun _ => "0.5") DEFAULT_PRICING "gpt-5.2" text 1000
             (Float64.of_Q 0.5)).
    + vm_compute. reflexivity.
    + vm_compute. reflexivity.
    + vm_compute. reflexivity.
    + vm_compute. reflexivity.
Defined.

(** C8 as stated fails: [cached_tokens] is not the floor of
    [input_tokens * cached_ratio]. With 100 input tokens and the ratio
    0.29 it is 28, the floor of [100 * 0.29] being 29; and with 10 input
    tokens and the ratio 0.3 it is 3, where the floor of 10 times the
    exact value of the float 0.3 is 2. *)
Lemma cached_tokens_not_floor :
  let text (tokens : nat) := String.concat "" (repeat "word" tokens) in
  match Float64.estimate_cost_from_text (fun _ => "") DEFAULT_PRICING "gpt-5.2" (text 100%nat)
          1000 (Float64.of_Q 0.29),
        Float64.estimate_cost_from_text (fun _ => "") DEFAULT_PRICING "gpt-5.2" (text 10%nat)
          1000 (Float64.of_Q 0.3) with
  | Ok at_029, Ok at_03 =>
      Float64.input_tokens at_029 = 100 /\
      Float64.cached_tokens at_029 = 28 /\
      Qfloor (inject_Z 100 * 0.29) = 29 /\
      Float64.input_tokens at_03 = 10 /\
      Float64.cached_tokens at_03 = 3 /\
      (exists exact,
         Float64.to_Q (Float64.of_Q 0.3) = Some exact /\ Qfloor (inject_Z 10 * exact) = 2)
  | _, _ => False
  end.
Proof.
  vm_compute. repeat (split; [reflexivity|]). eexists. split; reflexivity.
Qed.

(** In binary64 the two estimators agree up to rounding only: for
    ["gpt-5.2"] with 1000 input tokens, all cached, [costs.py] returns
    0.00017499999999999997 and [cost_tracker.py] 0.000175, since
    [1.75 * (1 - 0.90)] is not the float 0.175. *)
Remark tracker_differs_in_binary64 :
  match Float64.estimate_cost DEFAULT_PRICING "gpt-5.2" 1000 0 1000,
        Float64.tracker_estimate_cost "gpt-5.2" 1000 0 1000 with
  | Ok estimated, Ok tracked =>
      PrimFloat.ltb estimated tracked = true /\
      tracked = Float64.of_Q (175 # 1000000) /\
      PrimFloat.ltb
        (PrimFloat.mul (Float64.of_Q 1.75)
           (PrimFloat.sub (Float64.of_Z 1) (Float64.of_Q 0.90)))
        (Float64.of_Q 0.175) = true
  | _, _ => False
  end.
Proof. vm_compute. repeat split; reflexivity. Qed.

End Float64Facts.
